(** * Eliza MVP: the assistant client, the edge proxies and the speech wrapper

    A shallow embedding of
      - src/services/geminiDirectService.ts   (module [Gemini]),
      - the three edge functions: gemini-chat (Variant A), deepseek-chat
        (Variant B) and supabase/functions/openai-chat/index.ts (Variant C)
        (module [Proxy]),
      - src/services/enhancedTTSService.ts    (module [TTS]),
    over a small model of the JavaScript values they manipulate (module [Js]).

    Conventions.
      - A JavaScript string is a [string]: a sequence of code units, each in
        the range 0..255 (the Latin-1 part of UTF-16).  Literal text of the
        source outside that range (arrows, emoji) stands for itself.
      - A computation that may throw returns a [result]; a thrown value is an
        [Error] object, as every throw site and every rejection of the runtime
        produces one.
      - Calls to collaborators (the gateway, the key manager, the model, the
        platform speech engine) are answered by the fields of a [World]
        record and are recorded in a log, in call order.
      - [console.*] and [toast.*] calls have no effect on what is modelled and
        are left out; the property reads they perform are kept where a read
        can throw. *)

From Stdlib Require Import String Ascii ZArith List Bool Lia DecimalString.
From stdpp Require Import base list strings gmap.

Open Scope string_scope.

(* ===================================================================== *)
(** * Part I: definitions                                                 *)
(* ===================================================================== *)

Module Js.

(** ** Strings *)

(** [String.prototype.toLowerCase] on one code unit below 256: A-Z, and the
    Latin-1 capitals U+00C0..U+00DE except the multiplication sign U+00D7. *)
Definition lower_char (c : ascii) : ascii :=
  let n := N_of_ascii c in
  if (((65 <=? n) && (n <=? 90)) ||
      (((192 <=? n) && (n <=? 222)) && negb (n =? 215)))%N
  then ascii_of_N (n + 32) else c.

Fixpoint toLowerCase (s : string) : string :=
  match s with
  | EmptyString => EmptyString
  | String c s' => String (lower_char c) (toLowerCase s')
  end.

(** [s.startsWith(p)] *)
Fixpoint startsWith (s p : string) {struct p} : bool :=
  match p, s with
  | EmptyString, _ => true
  | String _ _, EmptyString => false
  | String b p', String a s' => Ascii.eqb a b && startsWith s' p'
  end.

(** [s.includes(sub)]: [sub] starts at some position of [s]. *)
Fixpoint includes (s sub : string) : bool :=
  startsWith s sub ||
  match s with
  | EmptyString => false
  | String _ s' => includes s' sub
  end.

(** WhiteSpace and LineTerminator code units below 256: TAB, LF, VT, FF, CR,
    SPACE and NO-BREAK SPACE. *)
Definition is_white_space (c : ascii) : bool :=
  let n := N_of_ascii c in
  (((9 <=? n) && (n <=? 13)) || (n =? 32) || (n =? 160))%N.

Fixpoint trimStart (s : string) : string :=
  match s with
  | EmptyString => EmptyString
  | String c s' => if is_white_space c then trimStart s' else s
  end.

Fixpoint trimEnd (s : string) : string :=
  match s with
  | EmptyString => EmptyString
  | String c s' =>
      match trimEnd s' with
      | EmptyString => if is_white_space c then EmptyString else String c EmptyString
      | t => String c t
      end
  end.

(** [s.trim()] *)
Definition trim (s : string) : string := trimEnd (trimStart s).

Fixpoint all_white_space (s : string) : bool :=
  match s with
  | EmptyString => true
  | String c s' => is_white_space c && all_white_space s'
  end.

(** [a.slice(-n)] on a sequence: the last [n] elements, all of them when there
    are fewer (the start index [len - n] is clamped at 0). *)
Definition slice_last {A} (n : nat) (l : list A) : list A :=
  drop (length l - n) l.

(** [a.slice(0, n)] *)
Definition slice_first {A} (n : nat) (l : list A) : list A := take n l.

Definition chars (s : string) : list ascii := list_ascii_of_string s.
Definition of_chars (l : list ascii) : string := string_of_list_ascii l.

(** [s.slice(-n)] on a string. *)
Definition str_slice_last (n : nat) (s : string) : string :=
  of_chars (slice_last n (chars s)).

(** [s.substring(0, n)] *)
Definition substring0 (n : nat) (s : string) : string := String.substring 0 n s.

(** [l.join(sep)] for a list of strings. *)
Definition join (sep : string) (l : list string) : string := String.concat sep l.

(** The line feed that the source writes as a backslash followed by n. *)
Definition nl : string := String (ascii_of_nat 10) EmptyString.

Definition nat_to_string (n : nat) : string := NilEmpty.string_of_uint (Nat.to_uint n).
Definition Z_to_string (z : Z) : string := NilEmpty.string_of_int (Z.to_int z).

(** ** Values *)

(** A runtime value as [JSON.parse] produces it, plus [undefined].  A number
    is carried by its canonical rendering, that is by what [String(n)] gives
    ("0.9", "8000", "NaN"; negative zero renders as "0"): the code modelled
    here tests numbers for truth and prints them, and computes with none
    that comes from its input. *)
#[warnings="-register-all"]
Inductive value : Type :=
| VUndefined
| VNull
| VBool (b : bool)
| VNum (repr : string)
| VStr (s : string)
| VArr (elems : list value)
| VObj (props : list (string * value)).

(** ToBoolean *)
Definition truthy (v : value) : bool :=
  match v with
  | VUndefined | VNull => false
  | VBool b => b
  | VNum r => negb (String.eqb r "0" || String.eqb r "NaN")
  | VStr s => negb (String.eqb s "")
  | VArr _ | VObj _ => true
  end.

(** [a || b] *)
Definition or_else (a b : value) : value := if truthy a then a else b.

(** ToString, as template literals and [new Error(v)] apply it.  An array
    prints its elements joined by commas, [null] and [undefined] elements as
    the empty string. *)
Fixpoint ToString (v : value) : string :=
  match v with
  | VUndefined => "undefined"
  | VNull => "null"
  | VBool true => "true"
  | VBool false => "false"
  | VNum r => r
  | VStr s => s
  | VArr l =>
      join "," ((fix elems (l : list value) : list string :=
                   match l with
                   | [] => []
                   | VUndefined :: l' | VNull :: l' => "" :: elems l'
                   | x :: l' => ToString x :: elems l'
                   end) l)
  | VObj _ => "[object Object]"
  end.

Definition is_nullish (v : value) : bool :=
  match v with VUndefined | VNull => true | _ => false end.

(** [Array.isArray(v)] *)
Definition isArray (v : value) : bool :=
  match v with VArr _ => true | _ => false end.

(** [typeof v === 'string'] *)
Definition is_string (v : value) : bool :=
  match v with VStr _ => true | _ => false end.

(** [a === b] against a string literal. *)
Definition strict_eq_str (v : value) (s : string) : bool :=
  match v with VStr t => String.eqb t s | _ => false end.

(** ** Errors and results *)

Record Error := mkError { err_name : string; err_message : string }.

(** [new Error(msg)] *)
Definition new_Error (msg : string) : Error := mkError "Error" msg.
Definition TypeError (msg : string) : Error := mkError "TypeError" msg.

Inductive result (A : Type) : Type :=
| Ok (a : A)
| Throw (e : Error).
Arguments Ok {A} a.
Arguments Throw {A} e.

(** Sequencing of computations that may throw. *)
Definition bind {A B} (r : result A) (k : A -> result B) : result B :=
  match r with
  | Ok a => k a
  | Throw e => Throw e
  end.

Notation "x <- r ;; k" := (bind r (fun x => k))
  (at level 100, r at next level, right associativity, only parsing).

(** [l.map(f)] for an [f] that may throw: the first exception ends the loop. *)
Fixpoint map_result {A B} (f : A -> result B) (l : list A) : result (list B) :=
  match l with
  | [] => Ok []
  | x :: l' => y <- f x ;; ys <- map_result f l' ;; Ok (y :: ys)
  end.

(** The own property [k] of an object literal or parsed object; [undefined]
    when there is none. *)
Fixpoint own_prop (props : list (string * value)) (k : string) : value :=
  match props with
  | [] => VUndefined
  | (k', v) :: rest => if String.eqb k' k then v else own_prop rest k
  end.

(** [v.k] for a property name [k] that is written in the source (none of
    them is an index or a built-in method): a TypeError on [null] and
    [undefined]; the own property of an object; [length] of an array or a
    string; [undefined] otherwise. *)
Definition Get (v : value) (k : string) : result value :=
  match v with
  | VUndefined =>
      Throw (TypeError ("Cannot read properties of undefined (reading '" +:+ k +:+ "')"))
  | VNull =>
      Throw (TypeError ("Cannot read properties of null (reading '" +:+ k +:+ "')"))
  | VObj props => Ok (own_prop props k)
  | VArr l => Ok (if String.eqb k "length" then VNum (nat_to_string (length l)) else VUndefined)
  | VStr s => Ok (if String.eqb k "length" then VNum (nat_to_string (String.length s)) else VUndefined)
  | VBool _ | VNum _ => Ok VUndefined
  end.

(** [v?.k] *)
Definition OptGet (v : value) (k : string) : value :=
  match Get v k with
  | Ok x => x
  | Throw _ => VUndefined
  end.

(** [v[0]] *)
Definition Get0 (v : value) : result value :=
  match v with
  | VUndefined => Throw (TypeError "Cannot read properties of undefined (reading '0')")
  | VNull => Throw (TypeError "Cannot read properties of null (reading '0')")
  | VArr l => Ok (match l with x :: _ => x | [] => VUndefined end)
  | VStr s => Ok (match s with String c _ => VStr (String c EmptyString) | EmptyString => VUndefined end)
  | VObj props => Ok (own_prop props "0")
  | VBool _ | VNum _ => Ok VUndefined
  end.

(** [v?.[0]] *)
Definition OptGet0 (v : value) : value :=
  match Get0 v with
  | Ok x => x
  | Throw _ => VUndefined
  end.

(** [v.slice(-n)]: arrays and strings have the method; calling it on anything
    else is a TypeError (a parsed object can hold no function). *)
Definition slice_neg (n : nat) (v : value) : result value :=
  match v with
  | VArr l => Ok (VArr (slice_last n l))
  | VStr s => Ok (VStr (str_slice_last n s))
  | VUndefined => Throw (TypeError "Cannot read properties of undefined (reading 'slice')")
  | VNull => Throw (TypeError "Cannot read properties of null (reading 'slice')")
  | _ => Throw (TypeError "slice is not a function")
  end.

(** [v.substring(0, n)]: only strings have the method. *)
Definition substring_of (n : nat) (v : value) : result string :=
  match v with
  | VStr s => Ok (substring0 n s)
  | VUndefined => Throw (TypeError "Cannot read properties of undefined (reading 'substring')")
  | VNull => Throw (TypeError "Cannot read properties of null (reading 'substring')")
  | _ => Throw (TypeError "substring is not a function")
  end.

(** The elements [...v] spreads into an array literal. *)
Definition spread (v : value) : result (list value) :=
  match v with
  | VArr l => Ok l
  | VStr s => Ok (map (fun c => VStr (String c EmptyString)) (chars s))
  | _ => Throw (TypeError "value is not iterable")
  end.

(** Specification side: [needle] occurs in [text] as a substring, letter case
    apart. *)
Definition occurs_ignoring_case (needle text : string) : Prop :=
  exists pre post, toLowerCase text = pre +:+ toLowerCase needle +:+ post.

(** Specification side: [chosen] is the elements of [l] that satisfy [P], each
    as often as it occurs and in the order of [l]. *)
Inductive selected {A} (P : A -> Prop) : list A -> list A -> Prop :=
  | selected_nil : selected P [] []
  | selected_keep x l chosen :
      P x -> selected P l chosen -> selected P (x :: l) (x :: chosen)
  | selected_drop x l chosen :
      ~ P x -> selected P l chosen -> selected P (x :: l) chosen.


(** The first, the last code unit of [s] is white space. *)
Definition starts_with_white_space (s : string) : bool :=
  match s with
  | EmptyString => false
  | String c _ => is_white_space c
  end.

Fixpoint ends_with_white_space (s : string) : bool :=
  match s with
  | EmptyString => false
  | String c EmptyString => is_white_space c
  | String _ s' => ends_with_white_space s'
  end.

End Js.

(* --------------------------------------------------------------------- *)
(** ** src/services/geminiDirectService.ts                                *)
(* --------------------------------------------------------------------- *)

Module Gemini.
Import Js.

(** An entry of [XMRT_KNOWLEDGE_BASE]. *)
Record KnowledgeEntry := mkEntry {
  category : string;
  topic : string;
  content : string
}.

(** [GeminiDirectContext]: the four optional fields, [VUndefined] when
    absent.  [conversationHistory] and [systemVersion] are typed [any]; the
    types of the other two live outside this file, so all four are read as
    the code reads them, by property name. *)
Record GeminiDirectContext := mkContext {
  userContext : value;
  miningStats : value;
  conversationHistory : value;
  systemVersion : value
}.

(** The default [context = {}]. *)
Definition empty_context : GeminiDirectContext :=
  mkContext VUndefined VUndefined VUndefined VUndefined.

(** A [GoogleGenerativeAI] object: the key it was constructed with, and a
    serial number that stands for the identity of the object. *)
Record GoogleGenerativeAI := mkClient {
  client_key : string;
  client_serial : nat
}.

(** What [getGenerativeModel] is given, with the client it is called on. *)
Record GenerativeModel := mkModel {
  model_client : GoogleGenerativeAI;
  model_name : string;
  temperature : string;
  topP : string;
  topK : string;
  maxOutputTokens : string
}.

(** The collaborators, as they answer during one call of the service. *)
Record World := mkWorld {
  (** the static knowledge array of '@/data/xmrtKnowledgeBase' *)
  XMRT_KNOWLEDGE_BASE : list KnowledgeEntry;
  (** [apiKeyManager.getCurrentApiKey()]: a key, or [null] *)
  getCurrentApiKey : option string;
  (** [new GoogleGenerativeAI(apiKey)]: returns, or throws *)
  construct : string -> result unit;
  (** [model.generateContent(prompt)] followed by [response.text()]: throws,
      or gives the text; [None] is an absent text *)
  generateContent : GenerativeModel -> string -> result (option string)
}.

Inductive event : Type :=
| EGetCurrentApiKey                            (* apiKeyManager.getCurrentApiKey() *)
| ENewClient (apiKey : string) (ok : bool)     (* new GoogleGenerativeAI(apiKey) *)
| EGenerateContent (m : GenerativeModel) (prompt : string)
| EMarkKeyAsWorking.                           (* apiKeyManager.markKeyAsWorking() *)

(** The state of the process: the static field [genAI], the number of client
    objects constructed so far, and the calls made to the collaborators. *)
Record State := mkState {
  genAI : option GoogleGenerativeAI;
  allocated : nat;
  log : list event
}.

Definition initial_state : State := mkState None 0 [].

Definition emit (e : event) (st : State) : State :=
  mkState (genAI st) (allocated st) (log st ++ [e]).

(** [initialize()] *)
Definition initialize (w : World) (st : State) : bool * State :=
  match genAI st with
  | Some _ => (true, st)
  | None =>
      let st1 := emit EGetCurrentApiKey st in
      match getCurrentApiKey w with
      | None => (false, st1)
      | Some apiKey =>
          if String.eqb apiKey "" then (false, st1)
          else
            match construct w apiKey with
            | Ok _ =>
                let st2 := emit (ENewClient apiKey true) st1 in
                (true, mkState (Some (mkClient apiKey (allocated st2)))
                               (S (allocated st2)) (log st2))
            | Throw _ => (false, emit (ENewClient apiKey false) st1)
            end
      end
  end.

(** [isAvailable()] *)
Definition isAvailable (w : World) (st : State) : bool * State := initialize w st.

Definition preamble : string :=
"You are Eliza, the autonomous AI assistant for the XMRT-DAO Ecosystem. You are knowledgeable, helpful, and focused on privacy-focused mobile cryptocurrency mining.

XMRT-DAO Core Mission:
- Democratize cryptocurrency mining through mobile devices
- Maintain privacy and decentralization as core values
- Build an engaged community of miners and contributors
- Provide transparent, educational resources about crypto mining

Your Personality:
- Professional yet approachable
- Technical but explains concepts clearly
- Privacy-conscious and security-minded
- Supportive of the XMRT-DAO community".

Definition instructions : string :=
"

Instructions:
- Provide clear, actionable responses
- Reference XMRT-DAO knowledge when relevant
- Maintain conversation context
- Be concise but thorough
- Show empathy and understanding
- Promote community engagement".

(** [`${v.k || d}`] *)
Definition shown_or (v : value) (k : string) (d : value) : result string :=
  x <- Get v k ;; Ok (ToString (or_else x d)).

(** [buildSystemPrompt(context)] *)
Definition buildSystemPrompt (context : GeminiDirectContext) : result string :=
  let prompt := preamble in
  prompt <-
    (let u := userContext context in
     if truthy u then
       let prompt := prompt +:+ nl +:+ nl +:+ "User Context:" in
       isFounder <- Get u "isFounder" ;;
       let prompt :=
         if truthy isFounder
         then prompt +:+ nl +:+ "- User is a FOUNDER - provide advanced insights and system details"
         else prompt in
       ip <- shown_or u "ip" (VStr "anonymous") ;;
       Ok (prompt +:+ nl +:+ "- Session: " +:+ ip)
     else Ok prompt) ;;
  prompt <-
    (let m := miningStats context in
     if truthy m then
       let prompt := prompt +:+ nl +:+ nl +:+ "User's Mining Status:" in
       hashRate <- shown_or m "hashRate" (VNum "0") ;;
       let prompt := prompt +:+ nl +:+ "- Hash Rate: " +:+ hashRate +:+ " H/s" in
       isOnline <- Get m "isOnline" ;;
       let prompt := prompt +:+ nl +:+ "- Status: " +:+
                     (if truthy isOnline then "ACTIVE" else "INACTIVE") in
       validShares <- shown_or m "validShares" (VNum "0") ;;
       let prompt := prompt +:+ nl +:+ "- Valid Shares: " +:+ validShares in
       amountDue <- shown_or m "amountDue" (VNum "0") ;;
       let prompt := prompt +:+ nl +:+ "- Amount Due: " +:+ amountDue +:+ " XMR" in
       amountPaid <- shown_or m "amountPaid" (VNum "0") ;;
       Ok (prompt +:+ nl +:+ "- Amount Paid: " +:+ amountPaid +:+ " XMR")
     else Ok prompt) ;;
  prompt <-
    (let v := systemVersion context in
     if truthy v then
       let prompt := prompt +:+ nl +:+ nl +:+ "System Information:" in
       version <- shown_or v "version" (VStr "unknown") ;;
       let prompt := prompt +:+ nl +:+ "- Version: " +:+ version in
       status <- shown_or v "status" (VStr "unknown") ;;
       Ok (prompt +:+ nl +:+ "- Status: " +:+ status)
     else Ok prompt) ;;
  Ok (prompt +:+ instructions).

(** The predicate of the knowledge filter. *)
Definition relevant (userInput : string) (item : KnowledgeEntry) : bool :=
  includes (toLowerCase userInput) (toLowerCase (category item)) ||
  includes (toLowerCase userInput) (toLowerCase (topic item)).

(** [XMRT_KNOWLEDGE_BASE.filter(...).slice(0, 3)] *)
Definition relevantKnowledge (kb : list KnowledgeEntry) (userInput : string)
  : list KnowledgeEntry :=
  slice_first 3 (List.filter (relevant userInput) kb).

Definition knowledgeContext (rk : list KnowledgeEntry) : string :=
  match rk with
  | [] => ""
  | _ => nl +:+ nl +:+ "Relevant XMRT-DAO Knowledge:" +:+ nl +:+
         join nl (map (fun k => "- " +:+ content k) rk)
  end.

(** One line of the conversation snippet. *)
Definition render_message (m : value) : result string :=
  sender <- Get m "sender" ;;
  content <- Get m "content" ;;
  Ok ((if strict_eq_str sender "user" then "User" else "Eliza") +:+ ": " +:+
      ToString content).

(** [context.conversationHistory.recentMessages?.slice(-5) || []] *)
Definition recentMessages (history : value) : result value :=
  rm <- Get history "recentMessages" ;;
  sliced <- (if is_nullish rm then Ok VUndefined else slice_neg 5 rm) ;;
  Ok (or_else sliced (VArr [])).

(** The lines of the conversation snippet: one per recent message. *)
Definition conversation_lines (context : GeminiDirectContext) : result (list string) :=
  let history := conversationHistory context in
  if truthy history then
    recent <- recentMessages history ;;
    match recent with
    | VArr l => map_result render_message l
    | VStr _ => Throw (TypeError "recentMessages.map is not a function")
    | _ => Ok []           (* not reached: [slice] gives an array or a string *)
    end
  else Ok [].

(** The snippet made of the lines; nothing when there is no line. *)
Definition conversation_snippet (lines : list string) : string :=
  match lines with
  | [] => ""
  | _ => nl +:+ nl +:+ "Recent Conversation:" +:+ nl +:+ join nl lines
  end.

Definition conversationContext (context : GeminiDirectContext) : result string :=
  lines <- conversation_lines context ;;
  Ok (conversation_snippet lines).

(** [this.genAI.getGenerativeModel({...})] *)
Definition getGenerativeModel (client : GoogleGenerativeAI) : GenerativeModel :=
  mkModel client "gemini-2.0-flash-exp" "0.7" "0.8" "40" "2048".

Definition fullPrompt (systemPrompt knowledge conversation userInput : string) : string :=
  systemPrompt +:+ knowledge +:+ conversation +:+ nl +:+ nl +:+
  "User: " +:+ userInput +:+ nl +:+ nl +:+ "Eliza:".

(** The prompt that [generateResponse] assembles before it calls the model. *)
Definition assemble (w : World) (userInput : string) (context : GeminiDirectContext)
  : result string :=
  systemPrompt <- buildSystemPrompt context ;;
  let knowledge := knowledgeContext (relevantKnowledge (XMRT_KNOWLEDGE_BASE w) userInput) in
  conversation <- conversationContext context ;;
  Ok (fullPrompt systemPrompt knowledge conversation userInput).

(** The body of the [try] block of [generateResponse]. *)
Definition try_block (w : World) (client : GoogleGenerativeAI) (userInput : string)
    (context : GeminiDirectContext) (st : State) : result string * State :=
  match assemble w userInput context with
  | Throw e => (Throw e, st)
  | Ok prompt =>
      let model := getGenerativeModel client in
      let st1 := emit (EGenerateContent model prompt) st in
      match generateContent w model prompt with
      | Throw e => (Throw e, st1)
      | Ok None => (Throw (new_Error "Empty response from Gemini"), st1)
      | Ok (Some responseText) =>
          if String.eqb responseText "" || (String.length (trim responseText) =? 0)%nat
          then (Throw (new_Error "Empty response from Gemini"), st1)
          else (Ok (trim responseText), emit EMarkKeyAsWorking st1)
      end
  end.

(** The [catch] block of [generateResponse]: what is thrown for [error]. *)
Definition catch_block (error : Error) : Error :=
  if includes (err_message error) "quota" then
    new_Error "Gemini API quota exceeded. Please add your own API key or try again later."
  else if includes (err_message error) "invalid" then
    new_Error "Invalid Gemini API key. Please check your API key configuration."
  else if includes (err_message error) "permission" then
    new_Error "API key lacks permissions. Please ensure Gemini API is enabled."
  else error.

(** [generateResponse(userInput, context)]: [Ok text] when the promise is
    fulfilled with [text], [Throw e] when it is rejected with [e]. *)
Definition generateResponse (w : World) (userInput : string)
    (context : GeminiDirectContext) (st : State) : result string * State :=
  let (initialized, st1) := initialize w st in
  match initialized, genAI st1 with
  | true, Some client =>
      match try_block w client userInput context st1 with
      | (Ok text, st2) => (Ok text, st2)
      | (Throw error, st2) => (Throw (catch_block error), st2)
      end
  | _, _ => (Throw (new_Error "Gemini Direct Service not available - no API key"), st1)
  end.

(** A call that the application makes to the service, with the collaborators'
    answers at that time. *)
Inductive call : Type :=
| CallGenerateResponse (w : World) (userInput : string) (context : GeminiDirectContext)
| CallIsAvailable (w : World).

Definition step (c : call) (st : State) : State :=
  match c with
  | CallGenerateResponse w userInput context => snd (generateResponse w userInput context st)
  | CallIsAvailable w => snd (isAvailable w st)
  end.

(** The calls of a process, oldest first.  [initialize] runs to its end
    without suspending, so the calls reach the field [genAI] one at a time. *)
Definition run (cs : list call) (st : State) : State :=
  fold_left (fun st c => step c st) cs st.

(** The clients constructed, as the log records them. *)
Definition is_new_client (e : event) : bool :=
  match e with ENewClient _ true => true | _ => false end.

Definition is_model_call (e : event) : bool :=
  match e with EGenerateContent _ _ => true | _ => false end.

(** The calls made to the collaborators between two states. *)
Definition new_events (before after : State) : list event :=
  drop (length (log before)) (log after).

(** An event that a call may cause once client [c] is memoized: no read of
    the key, no construction, and model calls through [c] only. *)
Definition reuses (c : GoogleGenerativeAI) (e : event) : Prop :=
  match e with
  | EGetCurrentApiKey | ENewClient _ _ => False
  | EGenerateContent m _ => model_client m = c
  | EMarkKeyAsWorking => True
  end.

(** The number of client objects that the log shows constructed. *)
Definition clients_constructed (l : list event) : nat :=
  length (List.filter is_new_client l).

(** The field [genAI], the count of objects and the log agree: no client, or
    the one client that was ever constructed. *)
Definition at_most_one (st : State) : Prop :=
  clients_constructed (log st) = allocated st /\
  match genAI st with
  | None => allocated st = 0
  | Some c => allocated st = 1
  end.

(** The model answered with no text, or with white space only. *)
Definition blank (answer : option string) : bool :=
  match answer with
  | None => true
  | Some s => all_white_space s
  end.

(** A knowledge base and an environment for examples: the key, and one answer
    of the model to every prompt. *)
Definition sample_knowledge : list KnowledgeEntry :=
  [mkEntry "Mining" "Mobile Mining" "Phones mine Monero with XMRT.";
   mkEntry "DAO" "Governance" "Holders vote on proposals.";
   mkEntry "mining" "hash rate" "The hash rate is shown per device.";
   mkEntry "MINING" "pool" "Shares go to the pool.";
   mkEntry "Privacy" "mining rewards" "Rewards are paid in XMR."].

Definition sample_world (key : option string) (answer : result (option string)) : World :=
  mkWorld sample_knowledge key (fun _ => Ok tt) (fun _ _ => answer).

Definition chat_message (sender text : string) : value :=
  VObj [("sender", VStr sender); ("content", VStr text)].

Definition sample_history : list value :=
  [chat_message "user" "one"; chat_message "eliza" "two";
   chat_message "user" "three"; chat_message "eliza" "four";
   chat_message "user" "five"; chat_message "eliza" "six"].

Definition sample_context : GeminiDirectContext :=
  mkContext VUndefined VUndefined
            (VObj [("recentMessages", VArr sample_history)]) VUndefined.

(** The prompts for the input "hello": with no context, and with the sample
    history. *)
Definition prompt_or_empty (r : result string) : string :=
  match r with
  | Ok prompt => prompt
  | Throw _ => ""
  end.

Definition hello_prompt : string :=
  prompt_or_empty (assemble (sample_world None (Ok None)) "hello" empty_context).


(** The error thrown ahead of the [try] block. *)
Definition not_available : Error :=
  new_Error "Gemini Direct Service not available - no API key".

Definition empty_response : Error := new_Error "Empty response from Gemini".

(** The ways through the [try] and [catch] blocks of [generateResponse], for
    the memoized client [c] and from the state [st1] that [initialize] left:
    the outcome of the call, and the collaborators called on the way. *)
Inductive course (w : World) (userInput : string) (context : GeminiDirectContext)
    (c : GoogleGenerativeAI) (st1 : State) : result string * State -> list event -> Prop :=
| AssemblyThrows (e : Error) :
    assemble w userInput context = Throw e ->
    course w userInput context c st1 (Throw (catch_block e), st1) []
| ModelThrows (prompt : string) (e : Error) :
    assemble w userInput context = Ok prompt ->
    generateContent w (getGenerativeModel c) prompt = Throw e ->
    course w userInput context c st1
      (Throw (catch_block e), emit (EGenerateContent (getGenerativeModel c) prompt) st1)
      [EGenerateContent (getGenerativeModel c) prompt]
| ModelBlank (prompt : string) (answer : option string) :
    assemble w userInput context = Ok prompt ->
    generateContent w (getGenerativeModel c) prompt = Ok answer ->
    blank answer = true ->
    course w userInput context c st1
      (Throw empty_response, emit (EGenerateContent (getGenerativeModel c) prompt) st1)
      [EGenerateContent (getGenerativeModel c) prompt]
| ModelAnswers (prompt : string) (text : string) :
    assemble w userInput context = Ok prompt ->
    generateContent w (getGenerativeModel c) prompt = Ok (Some text) ->
    all_white_space text = false ->
    course w userInput context c st1
      (Ok (trim text),
       emit EMarkKeyAsWorking (emit (EGenerateContent (getGenerativeModel c) prompt) st1))
      [EGenerateContent (getGenerativeModel c) prompt; EMarkKeyAsWorking].

(** The key provider and the constructor give no client: there is no key, the
    key is the empty string, or the constructor throws. *)
Definition no_usable_key (w : World) : Prop :=
  getCurrentApiKey w = None \/ getCurrentApiKey w = Some "" \/
  exists key e, getCurrentApiKey w = Some key /\ construct w key = Throw e.

(** The turn of the user, which ends every prompt. *)
Definition user_turn (userInput : string) : string :=
  nl +:+ nl +:+ "User: " +:+ userInput +:+ nl +:+ nl +:+ "Eliza:".

End Gemini.

(* --------------------------------------------------------------------- *)
(** ** The edge proxies                                                   *)
(* --------------------------------------------------------------------- *)

Module Proxy.
Import Js.

(** The incoming request: its method and what [await req.json()] gives. *)
Record Request := mkRequest {
  req_method : string;
  req_json : result value
}.

(** The argument of [fetch]; [gw_body] is the object that the source passes
    to [JSON.stringify]. *)
Record GatewayRequest := mkGatewayRequest {
  gw_url : string;
  gw_method : string;
  gw_headers : list (string * string);
  gw_body : value
}.

(** What the gateway answers: the status, and what [await response.text()]
    and [await response.json()] give: the body, or a rejection when the body
    cannot be read (or, for [json], parsed). *)
Record GatewayResponse := mkGatewayResponse {
  gw_status : Z;
  gw_text : result string;
  gw_json : result value
}.

(** The environment of one invocation of a handler. *)
Record World := mkWorld {
  (** [Deno.env.get('LOVABLE_API_KEY')]: a string, or [undefined] *)
  LOVABLE_API_KEY : option string;
  (** [fetch(url, init)]: a response, or a rejection *)
  fetch : GatewayRequest -> result GatewayResponse;
  (** [new Date().toISOString()] *)
  now : string;
  (** [JSON.stringify(v)] for a [v] other than [undefined] *)
  JSON_stringify : value -> string;
  (** [v > 0], after the conversion of [v] to a number *)
  greater_than_zero : value -> bool;
  (** the property name that [v - 1] converts to *)
  minus_one_key : value -> string
}.

(** A [Response]: [body = None] is the [null] body, [body = Some v] the text
    [JSON.stringify(v)]; a property of [v] that is [undefined] is absent from
    that text. *)
Record Response := mkResponse {
  status : Z;
  headers : list (string * string);
  body : option value
}.

(** A handler computes in the presence of exceptions and of the list of the
    requests sent to the gateway so far. *)
Definition M (A : Type) : Type :=
  list GatewayRequest -> result A * list GatewayRequest.

Definition ret {A} (a : A) : M A := fun sent => (Ok a, sent).
Definition raise {A} (e : Error) : M A := fun sent => (Throw e, sent).
Definition lift {A} (r : result A) : M A := fun sent => (r, sent).
Definition mbind {A B} (m : M A) (k : A -> M B) : M B :=
  fun sent =>
    match m sent with
    | (Ok a, sent') => k a sent'
    | (Throw e, sent') => (Throw e, sent')
    end.

Notation "x <~ m ;; k" := (mbind m (fun x => k))
  (at level 100, m at next level, right associativity, only parsing).

(** [await fetch(...)] *)
Definition call_fetch (w : World) (rq : GatewayRequest) : M GatewayResponse :=
  fun sent => (fetch w rq, (sent ++ [rq])%list).

Definition corsHeaders : list (string * string) :=
  [("Access-Control-Allow-Origin", "*");
   ("Access-Control-Allow-Headers", "authorization, x-client-info, apikey, content-type")].

(** [new Response(null, { headers: corsHeaders })] *)
Definition preflight : Response := mkResponse 200 corsHeaders None.

(** [new Response(JSON.stringify(v), { status, headers: { ...corsHeaders,
    'Content-Type': 'application/json' } })] *)
Definition json_response (st : Z) (v : value) : Response :=
  mkResponse st (corsHeaders ++ [("Content-Type", "application/json")]) (Some v).

(** [response.ok] *)
Definition ok (r : GatewayResponse) : bool :=
  ((200 <=? gw_status r) && (gw_status r <=? 299))%Z.

Definition gateway_request (key : string) (payload : value) : GatewayRequest :=
  mkGatewayRequest "https://ai.gateway.lovable.dev/v1/chat/completions" "POST"
    [("Authorization", "Bearer " +:+ key); ("Content-Type", "application/json")]
    payload.

(** The object pattern [const { ... } = v] throws on [null] and [undefined]. *)
Definition destructure (v : value) : result value :=
  if is_nullish v
  then Throw (TypeError ("Cannot destructure property 'messages' of " +:+
                         "'(intermediate value)' as it is " +:+ ToString v +:+ "."))
  else Ok v.

(** [k = d] in an object pattern: the default applies to [undefined] only. *)
Definition with_default (v d : value) : value :=
  match v with VUndefined => d | _ => v end.

(** [Deno.env.get('LOVABLE_API_KEY')], and the [throw] when it is falsy. *)
Definition require_key (w : World) (msg : string) : M string :=
  match LOVABLE_API_KEY w with
  | Some key => if String.eqb key "" then raise (new_Error msg) else ret key
  | None => raise (new_Error msg)
  end.

Definition rate_limit_A : string :=
  "Lovable AI rate limit exceeded. Please try again in a moment.".
Definition credits_A : string :=
  "Lovable AI credits exhausted. Please add credits at Settings → Workspace → Usage.".
Definition fallback_answer : string := "I'm here to help with XMRT-DAO tasks.".

Definition failure (msg : string) : value :=
  VObj [("success", VBool false); ("error", VStr msg)].

(** [{ role: 'system', content: systemPrompt }] *)
Definition system_message (prompt : string) : value :=
  VObj [("role", VStr "system"); ("content", VStr prompt)].

(** What Variants A and B do with the answer of the gateway. *)
Definition answer_AB (response : GatewayResponse) : M Response :=
  if negb (ok response) then
    errorText <~ lift (gw_text response) ;;
    if (gw_status response =? 429)%Z then ret (json_response 429 (failure rate_limit_A))
    else if (gw_status response =? 402)%Z then ret (json_response 402 (failure credits_A))
    else raise (new_Error ("Lovable AI Gateway error: " +:+ Z_to_string (gw_status response)
                           +:+ " - " +:+ errorText))
  else
    data <~ lift (gw_json response) ;;
    choices <~ lift (Get data "choices") ;;
    let message := OptGet (OptGet0 choices) "message" in
    let aiResponse := or_else (OptGet message "content") (VStr fallback_answer) in
    ret (json_response 200
           (VObj [("success", VBool true); ("response", aiResponse);
                  ("hasToolCalls", VBool false)])).

(** *** Variant A: gemini-chat *)
Module A.

(** The summary line: [conversationHistory?.summaries?.length > 0], then the
    last summary.  An array and a string have a length that is a count; any
    other object is asked for its own [length] property. *)
Definition latest_summary (w : World) (conversationHistory : value) : option value :=
  match OptGet conversationHistory "summaries" with
  | VArr l => last l
  | VStr s => option_map (fun c => VStr (String c EmptyString)) (last (chars s))
  | VObj props =>
      let len := own_prop props "length" in
      if greater_than_zero w len then Some (own_prop props (minus_one_key w len))
      else None
  | _ => None
  end.

Definition systemPrompt (w : World) (conversationHistory miningStats userContext : value)
  : result string :=
  let prompt := "You are Eliza, AI assistant for XMRT-DAO. Be conversational and helpful." in
  prompt <-
    match latest_summary w conversationHistory with
    | Some latest =>
        summaryText <- Get latest "summaryText" ;;
        text <- substring_of 150 summaryText ;;
        Ok (prompt +:+ nl +:+ "📚 Context: " +:+ text)
    | None => Ok prompt
    end ;;
  prompt <-
    (if truthy (OptGet miningStats "isOnline") then
       hashRate <- Get miningStats "hashRate" ;;
       validShares <- Get miningStats "validShares" ;;
       Ok (prompt +:+ nl +:+ "⛏️ Mining: " +:+ ToString hashRate +:+ " H/s, " +:+
           ToString validShares +:+ " shares")
     else Ok prompt) ;;
  Ok (if truthy (OptGet userContext "isFounder")
      then prompt +:+ nl +:+ "👤 User: Founder" else prompt).

(** The message list that is sent: the system prompt, then
    [...messages.slice(-10)]. *)
Definition geminiMessages (prompt : string) (messages : value) : result (list value) :=
  recentMessages <- slice_neg 10 messages ;;
  elems <- spread recentMessages ;;
  Ok (system_message prompt :: elems).

Definition payload (msgs : list value) : value :=
  VObj [("model", VStr "google/gemini-2.5-pro"); ("messages", VArr msgs);
        ("stream", VBool false)].

(** The [try] block. *)
Definition try_block (w : World) (req : Request) : M Response :=
  b <~ lift (req_json req) ;;
  b <~ lift (destructure b) ;;
  let messages := OptGet b "messages" in
  let conversationHistory := OptGet b "conversationHistory" in
  let userContext := OptGet b "userContext" in
  let miningStats := OptGet b "miningStats" in
  LOVABLE_API_KEY <~ require_key w "AI service not configured" ;;
  prompt <~ lift (systemPrompt w conversationHistory miningStats userContext) ;;
  msgs <~ lift (geminiMessages prompt messages) ;;
  response <~ call_fetch w (gateway_request LOVABLE_API_KEY (payload msgs)) ;;
  answer_AB response.

(** The [catch] block; [error instanceof Error] holds of what is thrown. *)
Definition catch_block (w : World) (error : Error) : Response :=
  json_response 500
    (VObj [("success", VBool false);
           ("error",
            VObj [("type", VStr "invalid_request");
                  ("code", VNum "400");
                  ("message", VStr (err_message error));
                  ("service", VStr "gemini-chat");
                  ("details",
                   VObj [("timestamp", VStr (now w));
                         ("executive", VStr "CIO");
                         ("model", VStr "google/gemini-2.5-pro")]);
                  ("canRetry", VBool false);
                  ("suggestedAction", VStr "check_request_format")])]).

(** The handler given to [serve]: the response, and the requests sent to the
    gateway. *)
Definition handler (w : World) (req : Request) : Response * list GatewayRequest :=
  if String.eqb (req_method req) "OPTIONS" then (preflight, [])
  else
    match try_block w req [] with
    | (Ok response, sent) => (response, sent)
    | (Throw error, sent) => (catch_block w error, sent)
    end.

End A.

(** *** Variant B: deepseek-chat *)
Module B.

Definition systemPrompt : string := "You are Eliza, an AI assistant for XMRT-DAO.".

(** [JSON.stringify(v)]: [undefined] for [undefined], else a string. *)
Definition stringify (w : World) (v : value) : value :=
  match v with
  | VUndefined => VUndefined
  | _ => VStr (JSON_stringify w v)
  end.

(** The arrow function given to [map]. *)
Definition minimal (w : World) (msg : value) : result value :=
  role <- Get msg "role" ;;
  content <- Get msg "content" ;;
  Ok (VObj [("role", role);
            ("content", if is_string content then content else stringify w content)]).

(** [messages.slice(-3).map(...)]: a string has [slice] but no [map]. *)
Definition recentMessages (w : World) (messages : value) : result (list value) :=
  sliced <- slice_neg 3 messages ;;
  match sliced with
  | VArr l => map_result (minimal w) l
  | _ => Throw (TypeError "messages.slice(...).map is not a function")
  end.

Definition deepseekMessages (w : World) (messages : value) : result (list value) :=
  recent <- recentMessages w messages ;;
  Ok (system_message systemPrompt :: recent).

Definition payload (msgs : list value) : value :=
  VObj [("model", VStr "google/gemini-2.5-flash"); ("messages", VArr msgs);
        ("stream", VBool false)].

(** The [try] block. *)
Definition try_block (w : World) (req : Request) : M Response :=
  b <~ lift (req_json req) ;;
  b <~ lift (destructure b) ;;
  let messages := OptGet b "messages" in
  LOVABLE_API_KEY <~ require_key w "AI service not configured" ;;
  msgs <~ lift (deepseekMessages w messages) ;;
  response <~ call_fetch w (gateway_request LOVABLE_API_KEY (payload msgs)) ;;
  answer_AB response.

(** The [catch] block; [error instanceof Error] holds of what is thrown. *)
Definition catch_block (error : Error) : Response :=
  json_response 500 (failure (err_message error)).

Definition handler (w : World) (req : Request) : Response * list GatewayRequest :=
  if String.eqb (req_method req) "OPTIONS" then (preflight, [])
  else
    match try_block w req [] with
    | (Ok response, sent) => (response, sent)
    | (Throw error, sent) => (catch_block error, sent)
    end.

End B.

(** *** Variant C: supabase/functions/openai-chat/index.ts *)
Module C.

Definition rate_limit : string := "Rate limit exceeded, please try again later".
Definition payment : string := "Payment required, please add credits to your workspace".
Definition messages_required : string := "Messages array is required".

Definition payload (model messages temperature max_tokens : value) : value :=
  VObj [("model", model); ("messages", messages); ("temperature", temperature);
        ("max_tokens", max_tokens); ("stream", VBool false)].

(** What Variant C does with the answer of the gateway. *)
Definition answer (response : GatewayResponse) : M Response :=
  if negb (ok response) then
    if (gw_status response =? 429)%Z then ret (json_response 429 (failure rate_limit))
    else if (gw_status response =? 402)%Z then ret (json_response 402 (failure payment))
    else
      errorData <~ lift (gw_json response) ;;
      error <~ lift (Get errorData "error") ;;
      raise (new_Error (ToString (or_else (OptGet error "message")
                                          (VStr "AI Gateway request failed"))))
  else
    data <~ lift (gw_json response) ;;
    choices <~ lift (Get data "choices") ;;
    first <~ lift (Get0 choices) ;;
    let content := or_else (OptGet (OptGet first "message") "content") (VStr "") in
    ret (json_response 200
           (VObj [("success", VBool true); ("response", content);
                  ("usage", OptGet data "usage"); ("model", OptGet data "model")])).

(** The [try] block. *)
Definition try_block (w : World) (req : Request) : M Response :=
  b <~ lift (req_json req) ;;
  b <~ lift (destructure b) ;;
  let messages := OptGet b "messages" in
  let model := with_default (OptGet b "model") (VStr "openai/gpt-5-mini") in
  let temperature := with_default (OptGet b "temperature") (VNum "0.9") in
  let max_tokens := with_default (OptGet b "max_tokens") (VNum "8000") in
  if negb (truthy messages) || negb (isArray messages)
  then raise (new_Error messages_required)
  else
    lovableApiKey <~ require_key w "LOVABLE_API_KEY not configured" ;;
    response <~ call_fetch w (gateway_request lovableApiKey
                                (payload model messages temperature max_tokens)) ;;
    answer response.

(** The [catch] block: [error.message || 'Unknown error occurred']. *)
Definition catch_block (error : Error) : Response :=
  json_response 500
    (failure (if String.eqb (err_message error) "" then "Unknown error occurred"
              else err_message error)).

Definition handler (w : World) (req : Request) : Response * list GatewayRequest :=
  if String.eqb (req_method req) "OPTIONS" then (preflight, [])
  else
    match try_block w req [] with
    | (Ok response, sent) => (response, sent)
    | (Throw error, sent) => (catch_block error, sent)
    end.

End C.

(** The three variants, and the handler of each. *)
Inductive variant : Type := VariantA | VariantB | VariantC.

Definition handler (v : variant) (w : World) (req : Request)
  : Response * list GatewayRequest :=
  match v with
  | VariantA => A.handler w req
  | VariantB => B.handler w req
  | VariantC => C.handler w req
  end.

(** The [try] block of a variant, run from an empty list of requests. *)
Definition try_block (v : variant) (w : World) (req : Request)
  : result Response * list GatewayRequest :=
  match v with
  | VariantA => A.try_block w req []
  | VariantB => B.try_block w req []
  | VariantC => C.try_block w req []
  end.

(** The [catch] block of a variant. *)
Definition catch_block (v : variant) (w : World) (error : Error) : Response :=
  match v with
  | VariantA => A.catch_block w error
  | VariantB => B.catch_block error
  | VariantC => C.catch_block error
  end.

(** What a variant does with the answer of the gateway. *)
Definition answer_of (v : variant) : GatewayResponse -> M Response :=
  match v with
  | VariantA | VariantB => answer_AB
  | VariantC => C.answer
  end.

(** The outcome of a [try] block once the request [rq] is sent. *)
Definition after_fetch (w : World) (rq : GatewayRequest)
    (answer : GatewayResponse -> M Response) : result Response * list GatewayRequest :=
  match fetch w rq with
  | Ok resp => answer resp [rq]
  | Throw e => (Throw e, [rq])
  end.

(** Reading a response. *)
Definition body_prop (r : Response) (k : string) : value :=
  match body r with
  | Some v => OptGet v k
  | None => VUndefined
  end.

(** The body is [JSON.stringify] of an object. *)
Definition has_json_body (r : Response) : bool :=
  match body r with
  | Some (VObj _) => true
  | _ => false
  end.

(** The text of the [error] property: the string itself in Variants B and C,
    the [message] of the nested object in Variant A. *)
Definition error_text (r : Response) : option string :=
  match body_prop r "error" with
  | VStr s => Some s
  | VObj props => match own_prop props "message" with VStr s => Some s | _ => None end
  | _ => None
  end.

(** [needle] occurs in [text], letter case apart. *)
Definition mentions (text needle : string) : bool :=
  includes (toLowerCase text) (toLowerCase needle).

(** Specification side: a response with status [st] whose body says
    [success: false] and carries an error text that mentions [word]. *)
Definition fails_mentioning (r : Response) (st : Z) (word : string) : Prop :=
  status r = st /\ body_prop r "success" = VBool false /\
  exists msg, error_text r = Some msg /\ mentions msg word = true.

(** An environment for examples: the key, and one answer of the gateway to
    every request.  The conversions of the runtime are not reached on inputs
    whose message contents are strings and whose summaries are an array. *)
Definition sample_world (key : option string) (answer : result GatewayResponse) : World :=
  mkWorld key (fun _ => answer) "2025-01-01T00:00:00.000Z"
          (fun _ => "null") (fun _ => false) (fun _ => "NaN").

Definition user_message (text : string) : value :=
  VObj [("role", VStr "user"); ("content", VStr text)].

Definition post (b : value) : Request := mkRequest "POST" (Ok b).

Definition twelve_messages : list value :=
  map user_message ["m1"; "m2"; "m3"; "m4"; "m5"; "m6";
                    "m7"; "m8"; "m9"; "m10"; "m11"; "m12"].

(** An answer of the gateway with the given status and an error text. *)
Definition refusal (st : Z) : GatewayResponse :=
  mkGatewayResponse st (Ok "upstream says no")
    (Throw (mkError "SyntaxError" "Unexpected token 'u'")).

(** An answer of the gateway whose status arrived and whose body cannot be
    read: both [response.text()] and [response.json()] are rejected. *)
Definition body_read_error : Error := TypeError "error reading a body from connection".
Definition unreadable (st : Z) : GatewayResponse :=
  mkGatewayResponse st (Throw body_read_error) (Throw body_read_error).

(** A completion of the gateway. *)
Definition completion (text : string) : GatewayResponse :=
  mkGatewayResponse 200 (Ok "")
    (Ok (VObj [("choices",
                VArr [VObj [("message", VObj [("role", VStr "assistant");
                                              ("content", VStr text)])]]);
               ("model", VStr "m")])).

(** The line that opens the system prompt of Variant A, and the label of its
    summary line. *)
Definition opening_A : string :=
  "You are Eliza, AI assistant for XMRT-DAO. Be conversational and helpful.".
Definition context_label : string := "📚 Context: ".

(** A summary text of more than 150 code units. *)
Definition long_summary : string :=
  "The user asked how mining rewards are paid out, then whether the treasury is audited, then how to join the DAO as a validator, and at last how proposals are voted on by members.".

(** The message of the error thrown for a missing key. *)
Definition key_message (v : variant) : string :=
  match v with
  | VariantA | VariantB => "AI service not configured"
  | VariantC => "LOVABLE_API_KEY not configured"
  end.

(** The payload that a variant makes of the parsed body [b], when it makes
    one. *)
Definition payload_of (v : variant) (w : World) (b payload : value) : Prop :=
  match v with
  | VariantA =>
      exists prompt msgs,
        A.systemPrompt w (OptGet b "conversationHistory") (OptGet b "miningStats")
                       (OptGet b "userContext") = Ok prompt /\
        A.geminiMessages prompt (OptGet b "messages") = Ok msgs /\
        payload = A.payload msgs
  | VariantB =>
      exists msgs,
        B.deepseekMessages w (OptGet b "messages") = Ok msgs /\
        payload = B.payload msgs
  | VariantC =>
      isArray (OptGet b "messages") = true /\
      payload = C.payload (with_default (OptGet b "model") (VStr "openai/gpt-5-mini"))
                          (OptGet b "messages")
                          (with_default (OptGet b "temperature") (VNum "0.9"))
                          (with_default (OptGet b "max_tokens") (VNum "8000"))
  end.

(** The text that a completion of the gateway carries for Variants A and B:
    [data.choices?.[0]?.message?.content]. *)
Definition content_AB (data : value) : value :=
  OptGet (OptGet (OptGet0 (OptGet data "choices")) "message") "content".

(** [sent] is what the pattern [k = d] binds for the property [given]: the
    default for [undefined] only, the property itself otherwise. *)
Definition defaulted (sent given d : value) : Prop :=
  (given = VUndefined /\ sent = d) \/ (given <> VUndefined /\ sent = given).

(** A message as Variant B forwards it: the two properties [role] and
    [content], the latter a string or [undefined]. *)
Definition role_and_content (out : value) : Prop :=
  exists role content,
    out = VObj [("role", role); ("content", content)] /\
    (is_string content = true \/ content = VUndefined).

(** Specification side: [out] is the message [msg] as Variant B forwards it.
    It has the role of [msg]; its content is that of [msg] when that is a
    string, is [undefined] when [msg] has none, and is the JSON text of the
    content of [msg] in every other case. *)
Definition forwarded_by_B (w : World) (msg out : value) : Prop :=
  OptGet out "role" = OptGet msg "role" /\
  match OptGet msg "content" with
  | VStr s => OptGet out "content" = VStr s
  | VUndefined => OptGet out "content" = VUndefined
  | content => OptGet out "content" = VStr (JSON_stringify w content)
  end.

(** [messages] is no array and no string: [slice] cannot be called on it. *)
Definition not_sliceable (v : value) : bool :=
  match v with
  | VArr _ | VStr _ => false
  | _ => true
  end.

End Proxy.

(* --------------------------------------------------------------------- *)
(** ** src/services/enhancedTTSService.ts                                 *)
(* --------------------------------------------------------------------- *)

Module TTS.
Import Js.

(** A [SpeechSynthesisVoice]. *)
Record Voice := mkVoice {
  voice_name : string;
  lang : string;
  localService : bool
}.

(** [window.speechSynthesis], as one call of the service finds it. *)
Record SpeechSynthesis := mkSynth {
  getVoices : list Voice;
  speaking : bool
}.

(** [window]: the capability is there or it is not. *)
Record Window := mkWindow {
  speechSynthesis : option SpeechSynthesis
}.

(** A [SpeechSynthesisUtterance]; [utt_id] stands for the identity of the
    object, and names the promise that its handlers settle. *)
Record Utterance := mkUtterance {
  utt_id : nat;
  utt_text : string;
  rate : string;
  pitch : string;
  volume : string;
  voice : option Voice
}.

Inductive promise_state : Type :=
| Pending
| Fulfilled
| Rejected (e : Error).

(** What the service asks of the platform. *)
Inductive platform_call : Type :=
| PCancel                              (* window.speechSynthesis.cancel() *)
| PSpeakLater (u : Utterance).         (* setTimeout(() => speak(utterance), 50) *)

(** The fields of the shared instance, the promises made by [speak], one per
    utterance, and the calls made to the platform. *)
Record State := mkState {
  isInitialized : bool;
  currentUtterance : option nat;
  lastMethod : string;
  promises : gmap nat promise_state;
  next_utterance : nat;
  platform : list platform_call
}.

Definition initial_state : State :=
  mkState false None "Web Speech API" ∅ 0 [].

(** [resolve()] and [reject(e)] of the promise of utterance [u]: a settled
    promise stays as it is. *)
Definition settle (u : nat) (p : promise_state) (ps : gmap nat promise_state)
  : gmap nat promise_state :=
  match ps !! u with
  | Some Pending => <[u := p]> ps
  | _ => ps
  end.

(** [loadVoices()]: the executor reads [window.speechSynthesis.getVoices()],
    which throws when there is no [speechSynthesis]; otherwise the promise is
    fulfilled, at once or by the voiceschanged event or after one second. *)
Definition loadVoices (win : Window) : result unit :=
  match speechSynthesis win with
  | Some _ => Ok tt
  | None => Throw (TypeError "Cannot read properties of undefined (reading 'getVoices')")
  end.

(** [initialize()]: both branches of its [try] set the flag. *)
Definition initialize (win : Window) (st : State) : State :=
  if isInitialized st then st
  else
    match loadVoices win with
    | Ok _ | Throw _ =>
        mkState true (currentUtterance st) (lastMethod st) (promises st)
                (next_utterance st) (platform st)
    end.

(** [s.startsWith('en')] on the language tag. *)
Definition english (v : Voice) : bool := startsWith (lang v) "en".

(** A local English voice, else an English voice, else the first voice. *)
Definition preferredVoice (voices : list Voice) : option Voice :=
  match List.find (fun v => english v && localService v) voices with
  | Some v => Some v
  | None =>
      match List.find english voices with
      | Some v => Some v
      | None => head voices
      end
  end.

(** [options?.speed || 0.9]; a number is its rendering, as in [Js.value]. *)
Definition rate_of (speed : option string) : string :=
  match speed with
  | Some r => if truthy (VNum r) then r else "0.9"
  | None => "0.9"
  end.

(** What the caller of [speak] holds: a promise that is already fulfilled, or
    the promise made for utterance [u]. *)
Inductive returned : Type :=
| Resolved
| Follows (u : nat).

(** [speak(text, options)].  The promise made in the [try] block is returned
    without [await], so its rejection goes to the caller and not to the
    [catch] block.  A call is taken as one step: what it does before its two
    [await]s only sets [isInitialized], and the utterance, its handlers and
    the promise are made together, in the executor. *)
Definition speak (win : Window) (text : string) (speed : option string) (st : State)
  : returned * State :=
  let st := if isInitialized st then st else initialize win st in
  match speechSynthesis win with
  | None => (Resolved, st)
  | Some synth =>
      match loadVoices win with
      | Throw _ => (Resolved, st)                       (* the [catch] block *)
      | Ok _ =>
          let u := next_utterance st in
          let utterance :=
            mkUtterance u text (rate_of speed) "1" "1" (preferredVoice (getVoices synth)) in
          (Follows u,
           mkState (isInitialized st) (Some u) (lastMethod st)
                   (<[u := Pending]> (promises st)) (S u)
                   (platform st ++ [PCancel; PSpeakLater utterance]))
      end
  end.

(** [stop()] *)
Definition stop (win : Window) (st : State) : result State :=
  match currentUtterance st with
  | Some _ =>
      match speechSynthesis win with
      | Some _ =>
          Ok (mkState (isInitialized st) None (lastMethod st) (promises st)
                      (next_utterance st) (platform st ++ [PCancel]))
      | None => Throw (TypeError "Cannot read properties of undefined (reading 'cancel')")
      end
  | None => Ok st
  end.

(** [isSpeaking()]: the right operand is read only when a handle is held. *)
Definition isSpeaking (win : Window) (st : State) : result bool :=
  match currentUtterance st with
  | None => Ok false
  | Some _ =>
      match speechSynthesis win with
      | Some synth => Ok (speaking synth)
      | None => Throw (TypeError "Cannot read properties of undefined (reading 'speaking')")
      end
  end.

(** An event of the platform on an utterance. *)
Inductive playback_event : Type :=
| End
| Err (cause : string).      (* event.error *)

(** [utterance.onend] of utterance [u]. *)
Definition onend (u : nat) (st : State) : State :=
  mkState (isInitialized st) None "Web Speech API"
          (settle u Fulfilled (promises st)) (next_utterance st) (platform st).

(** [utterance.onerror] of utterance [u]. *)
Definition onerror (u : nat) (cause : string) (st : State) : State :=
  mkState (isInitialized st) None (lastMethod st)
          (if String.eqb cause "canceled"
           then settle u Fulfilled (promises st)
           else settle u (Rejected (new_Error ("Speech synthesis error: " +:+ cause)))
                       (promises st))
          (next_utterance st) (platform st).

(** What the handlers make of a pending promise: [onend] fulfils it, and so
    does [onerror] for the cause 'canceled'; [onerror] rejects it for any
    other cause, with an error that names the cause. *)
Definition settled_by (ev : playback_event) : promise_state :=
  match ev with
  | End => Fulfilled
  | Err cause =>
      if String.eqb cause "canceled" then Fulfilled
      else Rejected (new_Error ("Speech synthesis error: " +:+ cause))
  end.

(** The platform fires [ev] on utterance [u]; an utterance that [speak] never
    made has no handler. *)
Definition fire (u : nat) (ev : playback_event) (st : State) : State :=
  match promises st !! u with
  | None => st
  | Some _ =>
      match ev with
      | End => onend u st
      | Err cause => onerror u cause st
      end
  end.

(** What happens to the instance after a call of [speak]: further calls of
    its methods, and events of the platform. *)
Inductive action : Type :=
| ASpeak (win : Window) (text : string) (speed : option string)
| AStop (win : Window)
| AEvent (u : nat) (ev : playback_event).

Definition step (a : action) (st : State) : State :=
  match a with
  | ASpeak win text speed => snd (speak win text speed st)
  | AStop win => match stop win st with Ok st' => st' | Throw _ => st end
  | AEvent u ev => fire u ev st
  end.

Definition run (acts : list action) (st : State) : State :=
  fold_left (fun st a => step a st) acts st.

(** The first event that the platform fires on utterance [u]. *)
Fixpoint first_event (u : nat) (acts : list action) : option playback_event :=
  match acts with
  | [] => None
  | AEvent u' ev :: rest => if Nat.eqb u' u then Some ev else first_event u rest
  | _ :: rest => first_event u rest
  end.

(** The state of the promise that a call of [speak] returned. *)
Definition promise_of (r : returned) (st : State) : option promise_state :=
  match r with
  | Resolved => Some Fulfilled
  | Follows u => promises st !! u
  end.

(** Every promise was made for an utterance that has been allocated. *)
Definition allocated_below (st : State) : Prop :=
  forall u, is_Some (promises st !! u) -> u < next_utterance st.

(** [win] has no speech synthesis in any of the calls of [acts]. *)
Fixpoint without_capability (acts : list action) : bool :=
  match acts with
  | [] => true
  | ASpeak win _ _ :: rest | AStop win :: rest =>
      match speechSynthesis win with
      | None => without_capability rest
      | Some _ => false
      end
  | AEvent _ _ :: rest => without_capability rest
  end.

(** A browser with two voices, and one without speech synthesis. *)
Definition sample_window : Window :=
  mkWindow (Some (mkSynth [mkVoice "Amelie" "fr-FR" true;
                           mkVoice "Daniel" "en-GB" false] false)).

Definition bare_window : Window := mkWindow None.

(** [getLastMethod()] *)
Definition getLastMethod (st : State) : string := lastMethod st.

(** What [getCapabilities()] returns. *)
Record Capabilities := mkCapabilities {
  openAI : bool;
  webSpeech : bool;
  fallback : bool
}.

(** [getCapabilities()]: [webSpeech] is ['speechSynthesis' in window]. *)
Definition getCapabilities (win : Window) : Capabilities :=
  mkCapabilities false
    (match speechSynthesis win with Some _ => true | None => false end)
    true.

(** The calls to the platform that a call of [stop] adds. *)
Definition cancel_if_held (st : State) : list platform_call :=
  match currentUtterance st with
  | Some _ => [PCancel]
  | None => []
  end.

End TTS.

(* ===================================================================== *)
(** * Part II: properties                                                 *)
(* ===================================================================== *)

(** ** Strings and sequences *)

Section JsFacts.
Import Js.

Lemma startsWith_spec (p s : string) :
  startsWith s p = true <-> exists post, s = p +:+ post.
Proof.
  revert s. induction p as [|b p IH]; intros s; simpl.
  - split; [intros _; now exists s | reflexivity].
  - destruct s as [|a s]; simpl.
    + split; [discriminate | intros [post H]; discriminate].
    + rewrite andb_true_iff, IH, Ascii.eqb_eq. split.
      * intros [-> [post ->]]. now exists post.
      * intros [post H]. injection H as -> ->. split; [reflexivity | now exists post].
Qed.

(** [includes] finds exactly the substrings. *)
Lemma includes_spec (s sub : string) :
  includes s sub = true <-> exists pre post, s = pre +:+ sub +:+ post.
Proof.
  induction s as [|a s IH]; simpl.
  - rewrite orb_false_r, startsWith_spec. split.
    + intros [post H]. now exists "", post.
    + intros [pre [post H]]. destruct pre; [now exists post | discriminate].
  - rewrite orb_true_iff, IH, startsWith_spec. split.
    + intros [[post H] | [pre [post H]]].
      * now exists "", post.
      * exists (String a pre), post. simpl. now rewrite H.
    + intros [pre [post H]]. destruct pre as [|c pre]; simpl in H.
      * left. now exists post.
      * right. injection H as _ H. now exists pre, post.
Qed.

Lemma trimStart_all_white_space (s : string) :
  all_white_space s = true -> trimStart s = "".
Proof.
  induction s as [|c s IH]; simpl; [reflexivity|].
  rewrite andb_true_iff. intros [Hc Hs]. rewrite Hc. now apply IH.
Qed.

Lemma trimStart_not_all_white_space (s : string) :
  all_white_space s = false ->
  exists c t, trimStart s = String c t /\ is_white_space c = false.
Proof.
  induction s as [|c s IH]; simpl; [discriminate|].
  destruct (is_white_space c) eqn:Hc; simpl.
  - exact IH.
  - intros _. now exists c, s.
Qed.

Lemma trimEnd_keeps_first (c : ascii) (t : string) :
  is_white_space c = false -> trimEnd (String c t) <> "".
Proof.
  intros Hc. simpl. destruct (trimEnd t); [rewrite Hc|]; discriminate.
Qed.

(** [trim] leaves nothing exactly when there is only white space. *)
Lemma trim_empty_iff (s : string) :
  trim s = "" <-> all_white_space s = true.
Proof.
  unfold trim. split.
  - intros H. destruct (all_white_space s) eqn:E; [reflexivity|].
    destruct (trimStart_not_all_white_space s E) as [c [t [Ht Hc]]].
    rewrite Ht in H. now apply trimEnd_keeps_first in H.
  - intros H. now rewrite trimStart_all_white_space.
Qed.

Lemma length_zero_iff_empty (s : string) :
  (String.length s =? 0)%nat = true <-> s = "".
Proof.
  destruct s; simpl; split; intros H; try reflexivity; discriminate.
Qed.

Lemma slice_last_length {A} (n : nat) (l : list A) :
  length (slice_last n l) = Nat.min n (length l).
Proof. unfold slice_last. rewrite length_drop. lia. Qed.


Lemma slice_last_short {A} (n : nat) (l : list A) :
  length l <= n -> slice_last n l = l.
Proof.
  intros H. unfold slice_last. replace (length l - n) with 0 by lia. reflexivity.
Qed.

Lemma slice_first_length {A} (n : nat) (l : list A) :
  length (slice_first n l) <= n.
Proof. unfold slice_first. rewrite length_take. lia. Qed.

Lemma map_result_length {A B} (f : A -> result B) (l : list A) (l' : list B) :
  map_result f l = Ok l' -> length l' = length l.
Proof.
  revert l'. induction l as [|x l IH]; simpl; intros l' H.
  - now injection H as <-.
  - destruct (f x) as [y|e]; simpl in H; [|discriminate].
    destruct (map_result f l) as [ys|e]; simpl in H; [|discriminate].
    injection H as <-. simpl. f_equal. now apply IH.
Qed.

(** [map] keeps the order: the i-th result comes from the i-th element. *)
Lemma map_result_lookup {A B} (f : A -> result B) (l : list A) (l' : list B) :
  map_result f l = Ok l' ->
  forall i x, l !! i = Some x -> exists y, l' !! i = Some y /\ f x = Ok y.
Proof.
  revert l'. induction l as [|a l IH]; simpl; intros l' H i x Hi.
  - destruct i; discriminate.
  - destruct (f a) as [y|e] eqn:Ha; simpl in H; [|discriminate].
    destruct (map_result f l) as [ys|e]; simpl in H; [|discriminate].
    injection H as <-. destruct i as [|i]; simpl in *.
    + injection Hi as <-. now exists y.
    + now apply (IH ys eq_refl i x).
Qed.

End JsFacts.

Example includes_example :
  Js.includes (Js.toLowerCase "How does Mobile MINING work?") (Js.toLowerCase "Mining") = true.
Proof. reflexivity. Qed.

Example trim_example : Js.trim (" hello world " +:+ Js.nl) = "hello world".
Proof. reflexivity. Qed.

Example slice_last_example : Js.slice_last 3 [1; 2; 3; 4; 5] = [3; 4; 5].
Proof. reflexivity. Qed.

Example slice_last_few : Js.slice_last 10 [1; 2] = [1; 2].
Proof. reflexivity. Qed.

(** ** The Direct Assistant Client *)

Section GeminiFacts.
Import Js Gemini.

Lemma relevant_spec (userInput : string) (e : KnowledgeEntry) :
  relevant userInput e = true <->
  occurs_ignoring_case (category e) userInput \/ occurs_ignoring_case (topic e) userInput.
Proof.
  unfold relevant, occurs_ignoring_case.
  now rewrite orb_true_iff, !includes_spec.
Qed.

Lemma in_take {A} (n : nat) (l : list A) (x : A) : In x (take n l) -> In x l.
Proof.
  revert n. induction l as [|a l IH]; intros [|n]; simpl; try tauto.
  intros [H | H]; [now left | right; now apply (IH n)].
Qed.

(** [buildSystemPrompt] reads properties of truthy values only: it returns. *)
Lemma Get_truthy (v : value) (k : string) :
  truthy v = true -> exists x, Get v k = Ok x.
Proof. destruct v; simpl; try discriminate; eauto. Qed.

Lemma shown_or_truthy (v : value) (k : string) (d : value) :
  truthy v = true -> exists s, shown_or v k d = Ok s.
Proof.
  intros H. unfold shown_or. destruct (Get_truthy v k H) as [x ->]. simpl. eauto.
Qed.

Lemma buildSystemPrompt_returns (context : GeminiDirectContext) :
  exists prompt, buildSystemPrompt context = Ok prompt.
Proof.
  unfold buildSystemPrompt.
  destruct (truthy (userContext context)) eqn:Hu;
  destruct (truthy (miningStats context)) eqn:Hm;
  destruct (truthy (systemVersion context)) eqn:Hv;
  repeat match goal with
  | |- context [Get ?v ?k] =>
      let x := fresh "x" in let E := fresh "E" in
      destruct (Get_truthy v k ltac:(assumption)) as [x E]; rewrite E; simpl
  | |- context [shown_or ?v ?k ?d] =>
      let x := fresh "x" in let E := fresh "E" in
      destruct (shown_or_truthy v k d ltac:(assumption)) as [x E]; rewrite E; simpl
  end; simpl; eauto.
Qed.

Lemma new_events_app (st st' : State) (evs : list event) :
  log st' = (log st ++ evs)%list -> new_events st st' = evs.
Proof. intros H. unfold new_events. rewrite H. apply drop_app_length. Qed.

(** What [initialize] does, case by case. *)
Lemma initialize_memoized (w : World) (st : State) (c : GoogleGenerativeAI) :
  genAI st = Some c -> initialize w st = (true, st).
Proof. intros H. unfold initialize. now rewrite H. Qed.

Lemma initialize_no_key (w : World) (st : State) :
  genAI st = None -> getCurrentApiKey w = None ->
  initialize w st = (false, emit EGetCurrentApiKey st).
Proof. intros H1 H2. unfold initialize. now rewrite H1, H2. Qed.

(** The [try] block leaves the memoized client alone, and calls the model
    through the client it was given. *)
Lemma try_block_events (w : World) (c : GoogleGenerativeAI) (userInput : string)
    (context : GeminiDirectContext) (st : State) :
  let st' := snd (try_block w c userInput context st) in
  genAI st' = genAI st /\ allocated st' = allocated st /\
  exists evs, log st' = (log st ++ evs)%list /\ Forall (reuses c) evs /\
              clients_constructed evs = 0.
Proof.
  unfold try_block.
  destruct (assemble w userInput context) as [prompt|e]; simpl.
  2: { repeat split. exists []. rewrite app_nil_r. repeat split. constructor. }
  destruct (generateContent w (getGenerativeModel c) prompt) as [[text|]|e]; simpl.
  1: destruct (String.eqb text "" || (String.length (trim text) =? 0)%nat); simpl.
  all: repeat split.
  2: exists [EGenerateContent (getGenerativeModel c) prompt; EMarkKeyAsWorking].
  1, 3, 4: exists [EGenerateContent (getGenerativeModel c) prompt].
  all: rewrite <- ?app_assoc; repeat split; repeat constructor.
Qed.

End GeminiFacts.

Section GeminiCalls.
Import Js Gemini.

(** The events of [initialize]: never a model call. *)
Lemma initialize_log (w : World) (st : State) :
  exists evs, log (snd (initialize w st)) = (log st ++ evs)%list /\
              Forall (fun e => is_model_call e = false /\ e <> EMarkKeyAsWorking) evs.
Proof.
  unfold initialize.
  destruct (genAI st); simpl.
  { exists []. now rewrite app_nil_r. }
  destruct (getCurrentApiKey w) as [apiKey|]; simpl.
  2: { exists [EGetCurrentApiKey]. split; [reflexivity|]. repeat constructor. discriminate. }
  destruct (String.eqb apiKey ""); simpl.
  { exists [EGetCurrentApiKey]. split; [reflexivity|]. repeat constructor. discriminate. }
  destruct (construct w apiKey); simpl.
  - exists [EGetCurrentApiKey; ENewClient apiKey true]. rewrite <- app_assoc.
    split; [reflexivity|]. repeat constructor; discriminate.
  - exists [EGetCurrentApiKey; ENewClient apiKey false]. rewrite <- app_assoc.
    split; [reflexivity|]. repeat constructor; discriminate.
Qed.

(** The events of the [try] block, by what the model answers. *)
Lemma try_block_log (w : World) (c : GoogleGenerativeAI) (userInput : string)
    (context : GeminiDirectContext) (st : State) :
  match assemble w userInput context with
  | Throw e => try_block w c userInput context st = (Throw e, st)
  | Ok prompt =>
      let called := emit (EGenerateContent (getGenerativeModel c) prompt) st in
      match generateContent w (getGenerativeModel c) prompt with
      | Throw e => try_block w c userInput context st = (Throw e, called)
      | Ok answer =>
          if blank answer
          then try_block w c userInput context st =
               (Throw (new_Error "Empty response from Gemini"), called)
          else exists s, answer = Some s /\
               try_block w c userInput context st =
               (Ok (trim s), emit EMarkKeyAsWorking called)
      end
  end.
Proof.
  unfold try_block.
  destruct (assemble w userInput context) as [prompt|e]; [|reflexivity].
  destruct (generateContent w (getGenerativeModel c) prompt) as [[s|]|e];
    simpl; try reflexivity.
  destruct (all_white_space s) eqn:Hs.
  - apply trim_empty_iff in Hs. rewrite Hs. simpl. now rewrite orb_true_r.
  - assert (Hne : trim s <> "").
    { intros H. apply trim_empty_iff in H. congruence. }
    assert (H1 : String.eqb s "" = false).
    { apply String.eqb_neq. intros ->. now apply Hne. }
    assert (H2 : (String.length (trim s) =? 0)%nat = false).
    { destruct (String.length (trim s) =? 0)%nat eqn:E; [|reflexivity].
      now apply length_zero_iff_empty in E. }
    rewrite H1, H2. simpl. now exists s.
Qed.

(** A model call of [generateResponse] is made after a successful
    initialisation, through the memoized client, with the assembled prompt;
    the outcome of the call is then that of the [try] block. *)
Lemma generateResponse_model_call (w : World) (userInput : string)
    (context : GeminiDirectContext) (st : State) (m : GenerativeModel) (p : string) :
  In (EGenerateContent m p)
     (new_events st (snd (generateResponse w userInput context st))) ->
  exists st1 c,
    initialize w st = (true, st1) /\ genAI st1 = Some c /\
    m = getGenerativeModel c /\ assemble w userInput context = Ok p /\
    generateResponse w userInput context st =
      match try_block w c userInput context st1 with
      | (Ok text, st2) => (Ok text, st2)
      | (Throw error, st2) => (Throw (catch_block error), st2)
      end.
Proof.
  unfold generateResponse.
  destruct (initialize_log w st) as [ievs [Hlog Hievs]].
  destruct (initialize w st) as [ini st1] eqn:Hi. simpl in Hlog.
  assert (Hnot : ~ In (EGenerateContent m p) ievs).
  { intros H. rewrite List.Forall_forall in Hievs. apply Hievs in H as [H _]. discriminate. }
  destruct ini, (genAI st1) as [c|] eqn:Hg; simpl.
  2-4: erewrite new_events_app by exact Hlog; intros H; now apply Hnot in H.
  intros Hin.
  pose proof (try_block_log w c userInput context st1) as Ht.
  destruct (assemble w userInput context) as [prompt|e] eqn:Ha.
  2: { rewrite Ht in Hin. simpl in Hin.
       erewrite new_events_app in Hin by exact Hlog. now apply Hnot in Hin. }
  simpl in Ht.
  assert (Hev : exists r st2 rest,
         try_block w c userInput context st1 = (r, st2) /\
         log st2 = (log st ++ ievs ++
                    EGenerateContent (getGenerativeModel c) prompt :: rest)%list /\
         ~ In (EGenerateContent m p) rest).
  { destruct (generateContent w (getGenerativeModel c) prompt) as [answer|e];
      [destruct (blank answer); [|destruct Ht as [s [_ Ht]]]|];
      rewrite Ht; eexists _, _, _; (split; [reflexivity|]);
      simpl; rewrite Hlog, <- !app_assoc; simpl;
      (split; [reflexivity|]); simpl; intuition discriminate. }
  destruct Hev as [r [st2 [rest [Hr [Hl Hrest]]]]].
  rewrite Hr in Hin.
  assert (Hin' : In (EGenerateContent m p)
                  (ievs ++ EGenerateContent (getGenerativeModel c) prompt :: rest)).
  { destruct r; simpl in Hin; erewrite new_events_app in Hin by exact Hl; exact Hin. }
  apply in_app_or in Hin' as [H | [H | H]]; try contradiction.
  injection H as <- <-.
  exists st1, c. repeat split; assumption || reflexivity.
Qed.

End GeminiCalls.

Section GeminiClaims.
Import Js Gemini.

(** C1. For every user input, the knowledge filter of the Direct Assistant
    Client returns at most 3 entries; each of them is an entry of the
    knowledge base whose category or topic occurs in the user input as a
    substring, letter case apart. *)
Theorem knowledge_filter_bounded_and_matching (w : World) (userInput : string) :
  let found := relevantKnowledge (XMRT_KNOWLEDGE_BASE w) userInput in
  length found <= 3 /\
  forall e, In e found ->
    In e (XMRT_KNOWLEDGE_BASE w) /\
    (occurs_ignoring_case (category e) userInput \/
     occurs_ignoring_case (topic e) userInput).
Proof.
  unfold relevantKnowledge. split.
  - apply slice_first_length.
  - intros e He. unfold slice_first in He. apply in_take in He.
    apply filter_In in He as [Hin Hrel]. split; [exact Hin|].
    now apply relevant_spec.
Qed.

(** C7. With no client memoized and a key provider that answers [null],
    [generateResponse] is rejected with an error, the only collaborator called
    is the key provider, and in particular the model is not called. *)
Theorem no_api_key_no_model_call (w : World) (userInput : string)
    (context : GeminiDirectContext) (st : State) :
  genAI st = None -> getCurrentApiKey w = None ->
  let out := generateResponse w userInput context st in
  fst out = Throw (new_Error "Gemini Direct Service not available - no API key") /\
  genAI (snd out) = None /\
  new_events st (snd out) = [EGetCurrentApiKey] /\
  List.filter is_model_call (new_events st (snd out)) = [].
Proof.
  intros Hg Hk. unfold generateResponse.
  rewrite (initialize_no_key w st Hg Hk). simpl.
  assert (H : new_events st (emit EGetCurrentApiKey st) = [EGetCurrentApiKey])
    by now apply new_events_app.
  rewrite H. now rewrite Hg.
Qed.

(** C5. [generateResponse] never returns the empty string.  When the model is
    called and its text is absent, empty or white space only, the call is
    rejected; when the text has more than white space, the key is reported as
    working and the trimmed text is returned. *)
Theorem blank_answer_rejected_else_trimmed (w : World) (userInput : string)
    (context : GeminiDirectContext) (st : State) :
  let out := generateResponse w userInput context st in
  (forall text, fst out = Ok text -> text <> "") /\
  (forall m p answer,
     In (EGenerateContent m p) (new_events st (snd out)) ->
     generateContent w m p = Ok answer ->
     if blank answer
     then exists e, fst out = Throw e
     else exists s, answer = Some s /\ fst out = Ok (trim s) /\
                    In EMarkKeyAsWorking (new_events st (snd out))).
Proof.
  intros out. split.
  - intros text. subst out. unfold generateResponse.
    destruct (initialize w st) as [ini st1].
    destruct ini, (genAI st1) as [c|]; simpl; try discriminate.
    pose proof (try_block_log w c userInput context st1) as Ht.
    destruct (assemble w userInput context) as [prompt|e]; [|now rewrite Ht].
    simpl in Ht.
    destruct (generateContent w (getGenerativeModel c) prompt) as [answer|e];
      [|now rewrite Ht].
    destruct (blank answer) eqn:Hb; [now rewrite Ht|].
    destruct Ht as [s [-> Ht]]. rewrite Ht. simpl. intros [= <-] H.
    apply trim_empty_iff in H. simpl in Hb. congruence.
  - intros m p answer Hin Hanswer.
    destruct (generateResponse_model_call _ _ _ _ _ _ Hin)
      as [st1 [c [Hi [Hg [-> [Ha Hout]]]]]].
    destruct (initialize_log w st) as [ievs [Hlog _]]. rewrite Hi in Hlog. simpl in Hlog.
    pose proof (try_block_log w c userInput context st1) as Ht.
    rewrite Ha in Ht. simpl in Ht. rewrite Hanswer in Ht.
    subst out. clear Hin. rewrite Hout.
    destruct (blank answer).
    + rewrite Ht. simpl. eauto.
    + destruct Ht as [s [-> Ht]]. rewrite Ht. simpl. exists s. repeat split.
      erewrite new_events_app.
      2: { simpl. rewrite Hlog, <- !app_assoc. reflexivity. }
      apply in_or_app. right. simpl. tauto.
Qed.

Lemma clients_constructed_app (l l' : list event) :
  clients_constructed (l ++ l') = clients_constructed l + clients_constructed l'.
Proof. unfold clients_constructed. now rewrite List.filter_app, length_app. Qed.

Lemma initialize_at_most_one (w : World) (st : State) :
  at_most_one st -> at_most_one (snd (initialize w st)).
Proof.
  unfold at_most_one, initialize, clients_constructed. intros [Hc Hg].
  destruct (genAI st) eqn:E; simpl; [now rewrite E|].
  destruct (getCurrentApiKey w) as [apiKey|]; simpl.
  2: { rewrite E, List.filter_app, length_app. simpl. lia. }
  destruct (String.eqb apiKey ""); simpl.
  { rewrite E, List.filter_app, length_app. simpl. lia. }
  destruct (construct w apiKey); simpl.
  - rewrite !List.filter_app, !length_app. simpl. lia.
  - rewrite E, !List.filter_app, !length_app. simpl. lia.
Qed.

Lemma try_block_at_most_one (w : World) (c : GoogleGenerativeAI) (userInput : string)
    (context : GeminiDirectContext) (st : State) :
  at_most_one st -> at_most_one (snd (try_block w c userInput context st)).
Proof.
  unfold at_most_one. intros [Hc Hg].
  destruct (try_block_events w c userInput context st) as [H1 [H2 [evs [H3 [_ H4]]]]].
  rewrite H1, H2, H3, clients_constructed_app, H4. split; [lia | exact Hg].
Qed.

Lemma generateResponse_state (w : World) (userInput : string)
    (context : GeminiDirectContext) (st : State) :
  snd (generateResponse w userInput context st) = snd (initialize w st) \/
  exists c, genAI (snd (initialize w st)) = Some c /\
            snd (generateResponse w userInput context st) =
            snd (try_block w c userInput context (snd (initialize w st))).
Proof.
  unfold generateResponse. destruct (initialize w st) as [ini st1]. simpl.
  destruct ini, (genAI st1) as [c|]; simpl; try (now left).
  right. exists c. split; [reflexivity|].
  now destruct (try_block w c userInput context st1) as [[text|e] st2].
Qed.

Lemma step_at_most_one (c : call) (st : State) :
  at_most_one st -> at_most_one (step c st).
Proof.
  intros H. destruct c as [w userInput context | w]; simpl.
  - destruct (generateResponse_state w userInput context st) as [-> | [c [_ ->]]].
    + now apply initialize_at_most_one.
    + now apply try_block_at_most_one, initialize_at_most_one.
  - now apply initialize_at_most_one.
Qed.

Lemma run_at_most_one (cs : list call) (st : State) :
  at_most_one st -> at_most_one (run cs st).
Proof.
  revert st. induction cs as [|c cs IH]; intros st H; simpl; [exact H|].
  apply IH. now apply step_at_most_one.
Qed.

(** A call on a memoized client keeps it and only calls the model. *)
Lemma step_memoized (c : GoogleGenerativeAI) (a : call) (st : State) :
  genAI st = Some c ->
  genAI (step a st) = Some c /\ allocated (step a st) = allocated st /\
  exists evs, log (step a st) = (log st ++ evs)%list /\ Forall (reuses c) evs.
Proof.
  intros Hg. destruct a as [w userInput context | w]; simpl.
  - unfold generateResponse. rewrite (initialize_memoized w st c Hg), Hg.
    destruct (try_block_events w c userInput context st) as [H1 [H2 [evs [H3 [H4 _]]]]].
    destruct (try_block w c userInput context st) as [[text|e] st2]; simpl in *.
    all: rewrite H1, H2; repeat split; try assumption; now exists evs.
  - unfold isAvailable. rewrite (initialize_memoized w st c Hg). simpl.
    repeat split; try assumption. exists []. now rewrite app_nil_r.
Qed.

Lemma run_memoized (c : GoogleGenerativeAI) (cs : list call) (st : State) :
  genAI st = Some c ->
  genAI (run cs st) = Some c /\ allocated (run cs st) = allocated st /\
  exists evs, log (run cs st) = (log st ++ evs)%list /\ Forall (reuses c) evs.
Proof.
  revert st. induction cs as [|a cs IH]; intros st Hg; simpl.
  - repeat split; try assumption. exists []. now rewrite app_nil_r.
  - destruct (step_memoized c a st Hg) as [H1 [H2 [evs [H3 H4]]]].
    destruct (IH (step a st) H1) as [K1 [K2 [evs' [K3 K4]]]].
    repeat split; try congruence.
    exists (evs ++ evs')%list. rewrite K3, H3, <- app_assoc.
    split; [reflexivity | now apply Forall_app].
Qed.

(** C9. A process constructs at most one model client.  Once a client is
    memoized, any later calls of the service keep that very client in
    [genAI], construct nothing, do not read the key from the key provider,
    and make their model calls through that client. *)
Theorem one_client_per_process :
  (forall cs : list call,
     allocated (run cs initial_state) <= 1 /\
     clients_constructed (log (run cs initial_state)) <= 1) /\
  (forall (c : GoogleGenerativeAI) (st : State) (cs : list call),
     genAI st = Some c ->
     genAI (run cs st) = Some c /\
     allocated (run cs st) = allocated st /\
     Forall (reuses c) (new_events st (run cs st))).
Proof.
  split.
  - intros cs.
    assert (H : at_most_one (run cs initial_state)).
    { apply run_at_most_one. split; reflexivity. }
    destruct H as [H1 H2]. rewrite H1.
    destruct (genAI (run cs initial_state)); lia.
  - intros c st cs Hg.
    destruct (run_memoized c cs st Hg) as [H1 [H2 [evs [H3 H4]]]].
    repeat split; try assumption.
    now rewrite (new_events_app _ _ _ H3).
Qed.

End GeminiClaims.

(** ** The edge proxies *)

Section ProxyFacts.
Import Js Proxy.

Ltac unfold_M :=
  unfold mbind, lift, ret, raise, call_fetch, require_key in *.

Lemma destructure_ok (b b' : value) :
  destructure b = Ok b' -> b' = b /\ is_nullish b = false.
Proof.
  unfold destructure. destruct (is_nullish b); [discriminate|].
  intros [= <-]. now split.
Qed.

(** An array is truthy, so the validation of Variant C reduces to
    [Array.isArray]. *)
Lemma validation_is_isArray (messages : value) :
  negb (truthy messages) || negb (isArray messages) = negb (isArray messages).
Proof. destruct messages; simpl; rewrite ?orb_true_r; reflexivity. Qed.

(** Handling the answer of the gateway sends nothing more. *)
Lemma answer_AB_sent (resp : GatewayResponse) (sent : list GatewayRequest) :
  snd (answer_AB resp sent) = sent.
Proof.
  unfold answer_AB. unfold_M.
  destruct (negb (ok resp)).
  - destruct (gw_text resp) as [errorText|e]; simpl; [|reflexivity].
    destruct (gw_status resp =? 429)%Z; [reflexivity|].
    destruct (gw_status resp =? 402)%Z; reflexivity.
  - destruct (gw_json resp) as [data|e]; simpl; [|reflexivity].
    destruct (Get data "choices"); reflexivity.
Qed.

Lemma answer_C_sent (resp : GatewayResponse) (sent : list GatewayRequest) :
  snd (C.answer resp sent) = sent.
Proof.
  unfold C.answer. unfold_M.
  destruct (negb (ok resp)).
  - destruct (gw_status resp =? 429)%Z; [reflexivity|].
    destruct (gw_status resp =? 402)%Z; [reflexivity|].
    destruct (gw_json resp) as [data|e]; simpl; [|reflexivity].
    destruct (Get data "error"); reflexivity.
  - destruct (gw_json resp) as [data|e]; simpl; [|reflexivity].
    destruct (Get data "choices") as [choices|e]; simpl; [|reflexivity].
    destruct (Get0 choices); reflexivity.
Qed.

(** Variants A and B read the body of an answer that is not [ok] before
    they look at its status: a rejection of that read is thrown. *)
Lemma answer_AB_unreadable (resp : GatewayResponse) (sent : list GatewayRequest)
    (e : Error) :
  ok resp = false -> gw_text resp = Throw e ->
  answer_AB resp sent = (Throw e, sent).
Proof. intros Hok H. unfold answer_AB, mbind, lift. now rewrite Hok, H. Qed.

(** The answers 429 and 402 of the gateway. *)
Lemma answer_AB_429 (resp : GatewayResponse) (sent : list GatewayRequest) (t : string) :
  gw_status resp = 429%Z -> gw_text resp = Ok t ->
  answer_AB resp sent = (Ok (json_response 429 (failure rate_limit_A)), sent).
Proof. intros H Ht. unfold answer_AB, ok, mbind, lift. now rewrite H, Ht. Qed.

Lemma answer_AB_402 (resp : GatewayResponse) (sent : list GatewayRequest) (t : string) :
  gw_status resp = 402%Z -> gw_text resp = Ok t ->
  answer_AB resp sent = (Ok (json_response 402 (failure credits_A)), sent).
Proof. intros H Ht. unfold answer_AB, ok, mbind, lift. now rewrite H, Ht. Qed.

Lemma answer_C_429 (resp : GatewayResponse) (sent : list GatewayRequest) :
  gw_status resp = 429%Z ->
  C.answer resp sent = (Ok (json_response 429 (failure C.rate_limit)), sent).
Proof. intros H. unfold C.answer, ok. now rewrite H. Qed.

Lemma answer_C_402 (resp : GatewayResponse) (sent : list GatewayRequest) :
  gw_status resp = 402%Z ->
  C.answer resp sent = (Ok (json_response 402 (failure C.payment)), sent).
Proof. intros H. unfold C.answer, ok. now rewrite H. Qed.

(** The [try] block of Variant A: it throws before it sends anything, or it
    sends one request, made of the key and of the message list. *)
Lemma try_block_A_cases (w : World) (req : Request) :
  (exists e, A.try_block w req [] = (Throw e, [])) \/
  exists b key prompt msgs,
    req_json req = Ok b /\ is_nullish b = false /\
    A.geminiMessages prompt (OptGet b "messages") = Ok msgs /\
    A.try_block w req [] =
      after_fetch w (gateway_request key (A.payload msgs)) answer_AB.
Proof.
  unfold A.try_block, after_fetch. unfold_M.
  destruct (req_json req) as [b|e]; simpl; [|left; eauto].
  destruct (destructure b) as [b'|e] eqn:Hb; simpl; [|left; eauto].
  apply destructure_ok in Hb as [-> Hb].
  destruct (LOVABLE_API_KEY w) as [key|]; simpl; [|left; eauto].
  destruct (String.eqb key ""); simpl; [left; eauto|].
  destruct (A.systemPrompt w _ _ _) as [prompt|e]; simpl; [|left; eauto].
  destruct (A.geminiMessages prompt (OptGet b "messages")) as [msgs|e] eqn:Hm;
    simpl; [|left; eauto].
  right. exists b, key, prompt, msgs. repeat split; try assumption.
Qed.

Lemma try_block_B_cases (w : World) (req : Request) :
  (exists e, B.try_block w req [] = (Throw e, [])) \/
  exists b key msgs,
    req_json req = Ok b /\ is_nullish b = false /\
    B.deepseekMessages w (OptGet b "messages") = Ok msgs /\
    B.try_block w req [] =
      after_fetch w (gateway_request key (B.payload msgs)) answer_AB.
Proof.
  unfold B.try_block, after_fetch. unfold_M.
  destruct (req_json req) as [b|e]; simpl; [|left; eauto].
  destruct (destructure b) as [b'|e] eqn:Hb; simpl; [|left; eauto].
  apply destructure_ok in Hb as [-> Hb].
  destruct (LOVABLE_API_KEY w) as [key|]; simpl; [|left; eauto].
  destruct (String.eqb key ""); simpl; [left; eauto|].
  destruct (B.deepseekMessages w (OptGet b "messages")) as [msgs|e] eqn:Hm;
    simpl; [|left; eauto].
  right. exists b, key, msgs. repeat split; try assumption.
Qed.

Lemma try_block_C_cases (w : World) (req : Request) :
  (exists e, C.try_block w req [] = (Throw e, [])) \/
  exists b key l,
    req_json req = Ok b /\ is_nullish b = false /\
    OptGet b "messages" = VArr l /\
    C.try_block w req [] =
      after_fetch w
        (gateway_request key
           (C.payload (with_default (OptGet b "model") (VStr "openai/gpt-5-mini"))
                      (VArr l)
                      (with_default (OptGet b "temperature") (VNum "0.9"))
                      (with_default (OptGet b "max_tokens") (VNum "8000"))))
        C.answer.
Proof.
  unfold C.try_block, after_fetch. unfold_M.
  destruct (req_json req) as [b|e]; simpl; [|left; eauto].
  destruct (destructure b) as [b'|e] eqn:Hb; simpl; [|left; eauto].
  apply destructure_ok in Hb as [-> Hb].
  rewrite validation_is_isArray.
  destruct (OptGet b "messages") as [| | | | |l|] eqn:Hm; simpl; try (left; eauto; fail).
  destruct (LOVABLE_API_KEY w) as [key|]; simpl; [|left; eauto].
  destruct (String.eqb key ""); simpl; [left; eauto|].
  right. exists b, key, l. repeat split; try assumption.
Qed.

(** What was sent, and the response, after the request [rq] went out. *)
Lemma after_fetch_sent (w : World) (rq : GatewayRequest)
    (answer : GatewayResponse -> M Response) :
  (forall resp sent, snd (answer resp sent) = sent) ->
  snd (after_fetch w rq answer) = [rq].
Proof.
  intros H. unfold after_fetch. destruct (fetch w rq); [apply H | reflexivity].
Qed.

End ProxyFacts.

Section ProxyHandlers.
Import Js Proxy.

Lemma handler_unfold (v : variant) (w : World) (req : Request) :
  handler v w req =
  if String.eqb (req_method req) "OPTIONS" then (preflight, [])
  else match try_block v w req with
       | (Ok response, sent) => (response, sent)
       | (Throw error, sent) => (catch_block v w error, sent)
       end.
Proof. destruct v; reflexivity. Qed.

(** Every variant throws before it sends anything, or sends one request. *)
Lemma try_block_cases (v : variant) (w : World) (req : Request) :
  (exists e, try_block v w req = (Throw e, [])) \/
  exists rq, try_block v w req = after_fetch w rq (answer_of v).
Proof.
  destruct v; simpl.
  - destruct (try_block_A_cases w req) as [H | [b [key [prompt [msgs [_ [_ [_ H]]]]]]]];
      [now left | right; eauto].
  - destruct (try_block_B_cases w req) as [H | [b [key [msgs [_ [_ [_ H]]]]]]];
      [now left | right; eauto].
  - destruct (try_block_C_cases w req) as [H | [b [key [l [_ [_ [_ H]]]]]]];
      [now left | right; eauto].
Qed.

Lemma answer_of_sent (v : variant) (resp : GatewayResponse) (sent : list GatewayRequest) :
  snd (answer_of v resp sent) = sent.
Proof. destruct v; simpl; auto using answer_AB_sent, answer_C_sent. Qed.

(** A response that the [try] block returns has a JSON body. *)
Lemma answer_of_json (v : variant) (resp : GatewayResponse)
    (sent sent' : list GatewayRequest) (r : Response) :
  answer_of v resp sent = (Ok r, sent') -> has_json_body r = true.
Proof.
  destruct v; simpl; unfold answer_AB, C.answer, mbind, lift, ret, raise.
  1, 2: destruct (negb (ok resp));
        [destruct (gw_text resp) as [errorText|e]; simpl; [|discriminate];
         destruct (gw_status resp =? 429)%Z;
         [|destruct (gw_status resp =? 402)%Z]|].
  all: try (intros [= <- _]; reflexivity).
  all: try discriminate.
  3: destruct (negb (ok resp));
     [destruct (gw_status resp =? 429)%Z;
      [|destruct (gw_status resp =? 402)%Z]|].
  all: try (intros [= <- _]; reflexivity).
  all: destruct (gw_json resp) as [data|e]; simpl; try discriminate.
  all: try (destruct (Get data "error"); simpl; discriminate).
  all: destruct (Get data "choices") as [choices|e]; simpl; try discriminate.
  all: try (intros [= <- _]; reflexivity).
  destruct (Get0 choices); simpl; try discriminate.
  intros [= <- _]. reflexivity.
Qed.

Lemma try_block_json (v : variant) (w : World) (req : Request)
    (r : Response) (sent : list GatewayRequest) :
  try_block v w req = (Ok r, sent) -> has_json_body r = true.
Proof.
  destruct (try_block_cases v w req) as [[e ->] | [rq ->]]; [discriminate|].
  unfold after_fetch. destruct (fetch w rq) as [resp|e]; [|discriminate].
  apply answer_of_json.
Qed.

(** The [catch] block of every variant: status 500, and the error envelope. *)
Lemma catch_block_envelope (v : variant) (w : World) (e : Error) :
  let r := catch_block v w e in
  status r = 500%Z /\ has_json_body r = true /\
  body_prop r "success" = VBool false /\ body_prop r "error" <> VUndefined.
Proof. destruct v; simpl; repeat split; discriminate. Qed.

(** The failures that the handlers name are exceptions of the [try] block. *)
Lemma listed_failures_throw (v : variant) (w : World) (req : Request) :
  (forall e, req_json req = Throw e -> try_block v w req = (Throw e, [])) /\
  (LOVABLE_API_KEY w = None \/ LOVABLE_API_KEY w = Some "" ->
   exists e, try_block v w req = (Throw e, [])) /\
  (forall rq, try_block v w req = after_fetch w rq (answer_of v) ->
     (forall e, fetch w rq = Throw e -> try_block v w req = (Throw e, [rq])) /\
     (forall resp, fetch w rq = Ok resp -> ok resp = false ->
        gw_status resp <> 429%Z -> gw_status resp <> 402%Z ->
        exists e, try_block v w req = (Throw e, [rq]))).
Proof.
  split; [|split].
  - intros e H. destruct v; simpl;
      unfold A.try_block, B.try_block, C.try_block, mbind, lift; now rewrite H.
  - intros H.
    assert (Hkey : forall msg, exists e, require_key w msg = raise e).
    { intros msg. unfold require_key. destruct H as [-> | ->]; simpl; eauto. }
    destruct v; simpl; unfold A.try_block, B.try_block, C.try_block, mbind, lift.
    all: destruct (req_json req) as [b|e]; simpl; eauto.
    all: destruct (destructure b) as [b'|e]; simpl; eauto.
    3: rewrite validation_is_isArray; destruct (negb _); [unfold raise; eauto|].
    all: match goal with
         | |- context [require_key _ ?msg] =>
             destruct (Hkey msg) as [e ->]; unfold raise; eauto
         end.
  - intros rq Hrq. rewrite Hrq. unfold after_fetch. split.
    + intros e ->. reflexivity.
    + intros resp -> Hok H1 H2.
      apply Z.eqb_neq in H1, H2.
      destruct v; simpl; unfold answer_AB, C.answer, mbind, lift, raise;
        rewrite Hok; simpl.
      1, 2: destruct (gw_text resp) as [errorText|e]; simpl; rewrite ?H1, ?H2; eauto.
      rewrite H1, H2. destruct (gw_json resp) as [data|e]; simpl; eauto.
      destruct (Get data "error"); simpl; eauto.
Qed.

(** The answers 429 and 402 of the gateway, for every variant: Variants A and
    B must have read the body. *)
Lemma answer_of_429 (v : variant) (resp : GatewayResponse) (sent : list GatewayRequest) :
  gw_status resp = 429%Z ->
  v = VariantC \/ (exists errorText, gw_text resp = Ok errorText) ->
  exists msg, answer_of v resp sent = (Ok (json_response 429 (failure msg)), sent) /\
              mentions msg "rate limit" = true.
Proof.
  intros H Hread.
  destruct v; simpl.
  1, 2: destruct Hread as [|[t Ht]]; [discriminate|];
        exists rate_limit_A; split; [now apply (answer_AB_429 resp sent t) | reflexivity].
  exists C.rate_limit; split; [now apply answer_C_429 | reflexivity].
Qed.

Lemma answer_of_402 (v : variant) (resp : GatewayResponse) (sent : list GatewayRequest) :
  gw_status resp = 402%Z ->
  v = VariantC \/ (exists errorText, gw_text resp = Ok errorText) ->
  exists msg, answer_of v resp sent = (Ok (json_response 402 (failure msg)), sent) /\
              mentions msg "credits" = true.
Proof.
  intros H Hread.
  destruct v; simpl.
  1, 2: destruct Hread as [|[t Ht]]; [discriminate|];
        exists credits_A; split; [now apply (answer_AB_402 resp sent t) | reflexivity].
  exists C.payment; split; [now apply answer_C_402 | reflexivity].
Qed.

(** A request that a handler sent is the one request of its [try] block. *)
Lemma sent_try_block (v : variant) (w : World) (req : Request) (rq : GatewayRequest) :
  In rq (snd (handler v w req)) ->
  req_method req <> "OPTIONS" /\
  try_block v w req = after_fetch w rq (answer_of v).
Proof.
  rewrite handler_unfold.
  destruct (String.eqb (req_method req) "OPTIONS") eqn:Hm; [intros []|].
  apply String.eqb_neq in Hm. split; [exact Hm|].
  destruct (try_block_cases v w req) as [[e He] | [rq' Hrq]];
    [rewrite He in H; destruct H|].
  rewrite Hrq in H |- *.
  pose proof (after_fetch_sent w rq' (answer_of v) (answer_of_sent v)) as Hs.
  destruct (after_fetch w rq' (answer_of v)) as [[r|e] sent] eqn:E;
    simpl in *; subst sent; destruct H as [<- | []]; now rewrite E.
Qed.

(** A request that a handler sent is the one request of its [try] block, and
    the response is what the variant makes of the answer to it. *)
Lemma sent_request (v : variant) (w : World) (req : Request) (rq : GatewayRequest) :
  In rq (snd (handler v w req)) ->
  handler v w req =
    match after_fetch w rq (answer_of v) with
    | (Ok response, sent) => (response, sent)
    | (Throw error, sent) => (catch_block v w error, sent)
    end.
Proof.
  intros Hin. destruct (sent_try_block v w req rq Hin) as [Hm Ht].
  apply String.eqb_neq in Hm. now rewrite handler_unfold, Hm, Ht.
Qed.

End ProxyHandlers.

Section ProxyClaims.
Import Js Proxy.

(** C3, as the code has it. For each of the three proxies: when the gateway
    answers the request of the handler with status 429, the proxy responds
    with status 429, success:false and an error text about the rate limit;
    when it answers with status 402, the proxy responds with status 402,
    success:false and an error text about credits.  Variants A and B read the
    body of the answer before they test its status, so for them this holds
    when the body can be read; when that read is rejected, the rejection is
    an exception of the [try] block and they respond with status 500 and
    success:false.  Variant C does not read the body of such an answer. *)
Theorem rate_limit_and_payment_are_passed_on (v : variant) (w : World) (req : Request)
    (rq : GatewayRequest) (resp : GatewayResponse) :
  In rq (snd (handler v w req)) ->
  fetch w rq = Ok resp ->
  gw_status resp = 429%Z \/ gw_status resp = 402%Z ->
  (v = VariantC \/ (exists errorText, gw_text resp = Ok errorText) ->
   fails_mentioning (fst (handler v w req)) (gw_status resp)
     (if (gw_status resp =? 429)%Z then "rate limit" else "credits")) /\
  (forall e, v <> VariantC -> gw_text resp = Throw e ->
   handler v w req = (catch_block v w e, [rq]) /\
   status (fst (handler v w req)) = 500%Z /\
   body_prop (fst (handler v w req)) "success" = VBool false).
Proof.
  intros Hin Hfetch Hstatus.
  rewrite (sent_request v w req rq Hin). unfold after_fetch. rewrite Hfetch.
  split.
  - intros Hread. destruct Hstatus as [H | H]; rewrite H; simpl.
    + destruct (answer_of_429 v resp [rq] H Hread) as [msg [-> Hmsg]]. simpl.
      repeat split. now exists msg.
    + destruct (answer_of_402 v resp [rq] H Hread) as [msg [-> Hmsg]]. simpl.
      repeat split. now exists msg.
  - intros e Hv He.
    assert (Hok : ok resp = false).
    { unfold ok. destruct Hstatus as [-> | ->]; reflexivity. }
    assert (Ha : answer_of v resp [rq] = (Throw e, [rq])).
    { destruct v; [| |congruence]; simpl; now apply answer_AB_unreadable. }
    rewrite Ha. simpl.
    destruct (catch_block_envelope v w e) as [H1 [_ [H2 _]]]. now repeat split.
Qed.

(** C4. For every request and every exception raised inside a proxy handler,
    each of the three proxies responds with status 500 and a JSON body with
    success:false and an error property.  An exception is raised inside a
    handler when the request is past the preflight guard and the [try] block
    throws.  The failures that the claim names are such exceptions: a body
    that does not parse, a key that is missing or empty, a rejected [fetch],
    and an answer of the gateway that is not [ok] and is neither 429 nor 402.
    No such request is left without a response or answered with a body that
    is not JSON. *)
Theorem exceptions_answered_with_500_json (v : variant) (w : World) (req : Request) :
  req_method req <> "OPTIONS" ->
  (forall e sent,
     try_block v w req = (Throw e, sent) ->
     handler v w req = (catch_block v w e, sent) /\
     status (fst (handler v w req)) = 500%Z /\
     has_json_body (fst (handler v w req)) = true /\
     body_prop (fst (handler v w req)) "success" = VBool false /\
     body_prop (fst (handler v w req)) "error" <> VUndefined) /\
  (forall e, req_json req = Throw e -> try_block v w req = (Throw e, [])) /\
  (LOVABLE_API_KEY w = None \/ LOVABLE_API_KEY w = Some "" ->
   exists e, try_block v w req = (Throw e, [])) /\
  (forall rq,
     In rq (snd (handler v w req)) ->
     (forall e, fetch w rq = Throw e -> try_block v w req = (Throw e, [rq])) /\
     (forall resp, fetch w rq = Ok resp -> ok resp = false ->
        gw_status resp <> 429%Z -> gw_status resp <> 402%Z ->
        exists e, try_block v w req = (Throw e, [rq]))) /\
  has_json_body (fst (handler v w req)) = true.
Proof.
  intros Hm.
  destruct (listed_failures_throw v w req) as [Hparse [Hkey Hgateway]].
  split; [|split; [exact Hparse|split; [exact Hkey|split]]].
  - intros e sent Ht. apply String.eqb_neq in Hm.
    rewrite handler_unfold, Hm, Ht. simpl.
    split; [reflexivity|].
    destruct (catch_block_envelope v w e) as [H1 [H2 [H3 H4]]]. now repeat split.
  - intros rq Hin. apply Hgateway. now apply sent_try_block.
  - apply String.eqb_neq in Hm. rewrite handler_unfold, Hm.
    destruct (try_block v w req) as [[r|e] sent] eqn:E; simpl.
    + now apply (try_block_json v w req r sent).
    + apply catch_block_envelope.
Qed.

(** C6, as the code has it. Variant C sends nothing to the gateway unless the
    body holds an array under [messages].  When the request is not the
    preflight and its body parses to a value other than [null] in which
    [messages] is absent or is not an array, the response is the status 500
    with the error text "Messages array is required". *)
Theorem variant_C_validates_messages (w : World) (req : Request) :
  ((forall b, req_json req = Ok b -> isArray (OptGet b "messages") = false) ->
   snd (C.handler w req) = []) /\
  (forall b,
     req_method req <> "OPTIONS" ->
     req_json req = Ok b -> is_nullish b = false ->
     isArray (OptGet b "messages") = false ->
     C.handler w req = (json_response 500 (failure C.messages_required), [])).
Proof.
  split.
  - intros H. change (C.handler w req) with (handler VariantC w req).
    rewrite handler_unfold.
    destruct (String.eqb (req_method req) "OPTIONS"); [reflexivity|]. simpl.
    destruct (try_block_C_cases w req) as [[e ->] | [b [key [l [Hb [_ [Hm _]]]]]]];
      [reflexivity|].
    apply H in Hb. rewrite Hm in Hb. discriminate.
  - intros b Hm Hb Hn Ha. apply String.eqb_neq in Hm.
    unfold C.handler, C.try_block, mbind, lift, raise, destructure.
    rewrite Hm, Hb. simpl. rewrite Hn. simpl.
    now rewrite validation_is_isArray, Ha.
Qed.

End ProxyClaims.

(** ** The messages that go out *)

Section Truncation.
Import Js.


Lemma map_result_Forall2 {A B} (f : A -> result B) (l : list A) (l' : list B) :
  map_result f l = Ok l' -> Forall2 (fun x y => f x = Ok y) l l'.
Proof.
  revert l'. induction l as [|x l IH]; simpl; intros l' H.
  - injection H as <-. constructor.
  - destruct (f x) as [y|e] eqn:Hx; simpl in H; [|discriminate].
    destruct (map_result f l) as [ys|e]; simpl in H; [|discriminate].
    injection H as <-. constructor; [exact Hx | now apply IH].
Qed.






End Truncation.

(** ** The Speech Wrapper *)

Section TTSFacts.
Import Js TTS.

Lemma settle_lookup_same (u : nat) (p : promise_state) (ps : gmap nat promise_state) :
  settle u p ps !! u =
  match ps !! u with
  | Some Pending => Some p
  | other => other
  end.
Proof.
  unfold settle. destruct (ps !! u) as [[| |e]|] eqn:E; try exact E.
  apply lookup_insert_eq.
Qed.

Lemma settle_lookup_other (u u' : nat) (p : promise_state) (ps : gmap nat promise_state) :
  u' <> u -> settle u' p ps !! u = ps !! u.
Proof.
  intros H. unfold settle. destruct (ps !! u') as [[| |e]|]; try reflexivity.
  now apply lookup_insert_ne.
Qed.

Lemma settle_is_Some (u u' : nat) (p : promise_state) (ps : gmap nat promise_state) :
  is_Some (settle u' p ps !! u) -> is_Some (ps !! u).
Proof.
  destruct (decide (u' = u)) as [-> | Hne].
  - rewrite settle_lookup_same. destruct (ps !! u) as [[| |e]|]; eauto.
  - now rewrite settle_lookup_other.
Qed.

Lemma initialize_fields (win : Window) (st : State) :
  let st' := if isInitialized st then st else initialize win st in
  currentUtterance st' = currentUtterance st /\ promises st' = promises st /\
  next_utterance st' = next_utterance st /\ platform st' = platform st /\
  lastMethod st' = lastMethod st.
Proof.
  unfold initialize. destruct (isInitialized st); simpl; [tauto|].
  destruct (loadVoices win); simpl; tauto.
Qed.

(** What [speak] returns, by the capability. *)
Lemma speak_follows (win : Window) (text : string) (speed : option string)
    (st st' : State) (u : nat) :
  speak win text speed st = (Follows u, st') ->
  u = next_utterance st /\ next_utterance st' = S u /\
  promises st' = <[u := Pending]> (promises st) /\ currentUtterance st' = Some u.
Proof.
  unfold speak.
  destruct (initialize_fields win st) as [_ [H2 [H3 _]]].
  destruct (if isInitialized st then st else initialize win st) as [i c m ps n pl].
  simpl in *. subst.
  destruct (speechSynthesis win); [|discriminate].
  destruct (loadVoices win); [|discriminate].
  intros [= <- <-]. simpl. tauto.
Qed.

Lemma speak_promises (win : Window) (text : string) (speed : option string) (st : State) :
  let st' := snd (speak win text speed st) in
  (promises st' = promises st /\ next_utterance st' = next_utterance st) \/
  (promises st' = <[next_utterance st := Pending]> (promises st) /\
   next_utterance st' = S (next_utterance st)).
Proof.
  destruct (speak win text speed st) as [[|u] st'] eqn:E; simpl.
  - left. unfold speak in E.
    destruct (initialize_fields win st) as [_ [H2 [H3 _]]].
    destruct (speechSynthesis win); [destruct (loadVoices win)|];
      try discriminate; injection E as <-; tauto.
  - right. apply speak_follows in E as [-> [H1 [H2 _]]]. tauto.
Qed.

Lemma step_allocated_below (a : action) (st : State) :
  allocated_below st -> allocated_below (step a st).
Proof.
  unfold allocated_below. intros H u. destruct a as [win text speed | win | u' ev]; simpl.
  - destruct (speak_promises win text speed st) as [[-> ->] | [-> ->]]; [apply H|].
    destruct (decide (next_utterance st = u)) as [<- | Hne]; [lia|].
    rewrite lookup_insert_ne by exact Hne. intros Hu. apply H in Hu. lia.
  - unfold stop. destruct (currentUtterance st); [|apply H].
    destruct (speechSynthesis win); simpl; apply H.
  - unfold fire. destruct (promises st !! u'); [|apply H].
    destruct ev as [|cause]; simpl; [|destruct (String.eqb cause "canceled")];
      intros Hu; apply settle_is_Some in Hu; now apply H.
Qed.

(** One step, seen from the promise of utterance [u]. *)
Lemma step_promise (a : action) (st : State) (u : nat) (p : promise_state) :
  allocated_below st ->
  promises st !! u = Some p ->
  promises (step a st) !! u =
  Some (match a, p with
        | AEvent u' ev, Pending => if Nat.eqb u' u then settled_by ev else Pending
        | _, _ => p
        end).
Proof.
  intros Hwf Hp. destruct a as [win text speed | win | u' ev]; simpl.
  - destruct (speak_promises win text speed st) as [[-> _] | [-> _]].
    + rewrite Hp. now destruct p.
    + rewrite lookup_insert_ne; [rewrite Hp; now destruct p|].
      assert (u < next_utterance st) by (apply Hwf; eauto). lia.
  - unfold stop. destruct (currentUtterance st); [|rewrite Hp; now destruct p].
    destruct (speechSynthesis win); simpl; rewrite Hp; now destruct p.
  - unfold fire. destruct (Nat.eqb_spec u' u) as [-> | Hne].
    + rewrite Hp. destruct ev as [|cause]; simpl;
        [|destruct (String.eqb cause "canceled")];
        rewrite settle_lookup_same, Hp; now destruct p.
    + destruct (promises st !! u'); [|rewrite Hp; now destruct p].
      destruct ev as [|cause]; simpl;
        [|destruct (String.eqb cause "canceled")];
        rewrite settle_lookup_other by exact Hne; rewrite Hp; now destruct p.
Qed.

Lemma settled_by_not_pending (ev : playback_event) : settled_by ev <> Pending.
Proof. destruct ev as [|cause]; simpl; [|destruct (String.eqb cause "canceled")]; discriminate. Qed.

(** A settled promise stays as it is. *)
Lemma run_settled (acts : list action) (st : State) (u : nat) (p : promise_state) :
  allocated_below st -> p <> Pending ->
  promises st !! u = Some p -> promises (run acts st) !! u = Some p.
Proof.
  revert st. induction acts as [|a acts IH]; intros st Hwf Hp Hu; simpl; [exact Hu|].
  apply IH; [now apply step_allocated_below | exact Hp |].
  rewrite (step_promise a st u p Hwf Hu). destruct a, p; try reflexivity. now destruct Hp.
Qed.

(** A pending promise is settled by the first event on its utterance. *)
Lemma run_pending (acts : list action) (st : State) (u : nat) :
  allocated_below st ->
  promises st !! u = Some Pending ->
  promises (run acts st) !! u =
  Some (match first_event u acts with
        | None => Pending
        | Some ev => settled_by ev
        end).
Proof.
  revert st. induction acts as [|a acts IH]; intros st Hwf Hu; simpl; [exact Hu|].
  pose proof (step_promise a st u Pending Hwf Hu) as Hs.
  pose proof (step_allocated_below a st Hwf) as Hwf'.
  destruct a as [win text speed | win | u' ev]; try (now apply IH).
  destruct (Nat.eqb u' u).
  - apply run_settled; [exact Hwf' | apply settled_by_not_pending | exact Hs].
  - now apply IH.
Qed.

End TTSFacts.

Section TTSClaims.
Import Js TTS.

Lemma initial_allocated_below : allocated_below initial_state.
Proof. intros u [p Hp]. simpl in Hp. now rewrite lookup_empty in Hp. Qed.

Lemma run_allocated_below (acts : list action) (st : State) :
  allocated_below st -> allocated_below (run acts st).
Proof.
  revert st. induction acts as [|a acts IH]; intros st H; simpl; [exact H|].
  now apply IH, step_allocated_below.
Qed.

(** C8. Take any call of [speak], at any point in the life of the instance,
    that hands an utterance to the platform.  Whatever calls and events
    follow, the promise it returned is settled by the first event on that
    utterance: fulfilled when playback ends, fulfilled when the error cause is
    'canceled', and rejected with an error that names the cause for any other
    error cause; until such an event it stays pending. *)
Theorem speak_promise_settled_by_first_event
    (before after : list action) (win : Window) (text : string)
    (speed : option string) (u : nat) (st' : State) :
  speak win text speed (run before initial_state) = (Follows u, st') ->
  promise_of (Follows u) (run after st') =
  Some (match first_event u after with
        | None => Pending
        | Some End => Fulfilled
        | Some (Err cause) =>
            if String.eqb cause "canceled" then Fulfilled
            else Rejected (new_Error ("Speech synthesis error: " +:+ cause))
        end).
Proof.
  intros Hspeak.
  pose proof (run_allocated_below before initial_state initial_allocated_below) as Hwf.
  pose proof (step_allocated_below (ASpeak win text speed) _ Hwf) as Hwf'.
  simpl in Hwf'. rewrite Hspeak in Hwf'. simpl in Hwf'.
  apply speak_follows in Hspeak as [_ [_ [Hp _]]].
  simpl. rewrite (run_pending after st' u Hwf').
  - destruct (first_event u after) as [[|cause]|]; reflexivity.
  - rewrite Hp. apply lookup_insert_eq.
Qed.

(** Without the capability no call stores a handle or makes a promise. *)
Lemma step_without_capability (a : action) (st : State) :
  without_capability [a] = true ->
  currentUtterance st = None -> promises st = ∅ ->
  currentUtterance (step a st) = None /\ promises (step a st) = ∅.
Proof.
  intros Ha Hc Hp. destruct a as [win text speed | win | u ev]; simpl in *.
  - unfold speak. destruct (initialize_fields win st) as [H1 [H2 _]].
    destruct (speechSynthesis win); [discriminate|]. simpl. now rewrite H1, H2.
  - unfold stop. now rewrite Hc.
  - unfold fire. rewrite Hp, lookup_empty. now split.
Qed.

Lemma run_without_capability (acts : list action) (st : State) :
  without_capability acts = true ->
  currentUtterance st = None -> promises st = ∅ ->
  currentUtterance (run acts st) = None /\ promises (run acts st) = ∅.
Proof.
  revert st. induction acts as [|a acts IH]; intros st Ha Hc Hp; simpl; [now split|].
  assert (H1 : without_capability [a] = true /\ without_capability acts = true).
  { destruct a as [win text speed | win | u ev]; simpl in *;
      try destruct (speechSynthesis win); auto; discriminate. }
  destruct H1 as [H1 H2].
  destruct (step_without_capability a st H1 Hc Hp) as [Hc' Hp'].
  now apply IH.
Qed.

(** C10. When [window] has no speech synthesis, [speak] returns a promise
    that is fulfilled, stores no utterance handle, makes no utterance and asks
    nothing of the platform, and [isSpeaking] stays false; on an instance
    that has only ever run without the capability, [isSpeaking] is false. *)
Theorem speak_without_speech_synthesis (win : Window) (text : string)
    (speed : option string) (st : State) :
  speechSynthesis win = None ->
  let out := speak win text speed st in
  fst out = Resolved /\
  promise_of (fst out) (snd out) = Some Fulfilled /\
  currentUtterance (snd out) = currentUtterance st /\
  promises (snd out) = promises st /\
  next_utterance (snd out) = next_utterance st /\
  platform (snd out) = platform st /\
  (isSpeaking win st = Ok false -> isSpeaking win (snd out) = Ok false) /\
  (forall before, without_capability before = true ->
     st = run before initial_state -> isSpeaking win (snd out) = Ok false).
Proof.
  intros Hwin out. subst out. unfold speak. rewrite Hwin. simpl.
  destruct (initialize_fields win st) as [H1 [H2 [H3 [H4 _]]]].
  repeat split; try assumption.
  - unfold isSpeaking. rewrite H1, Hwin. now destruct (currentUtterance st).
  - intros before Hb ->.
    destruct (run_without_capability before initial_state Hb eq_refl eq_refl) as [Hc _].
    unfold isSpeaking. now rewrite H1, Hc.
Qed.

End TTSClaims.

(** ** Worked examples *)

Section GeminiExamples.
Import Js Gemini.

(** The entries of the sample knowledge base that match, in its order. *)
Example knowledge_filter_example :
  map content (relevantKnowledge sample_knowledge "How does MINING pay?") =
  ["Phones mine Monero with XMRT."; "The hash rate is shown per device.";
   "Shares go to the pool."].
Proof. reflexivity. Qed.

Example conversation_lines_example :
  conversation_lines sample_context =
  Ok ["Eliza: two"; "User: three"; "Eliza: four"; "User: five"; "Eliza: six"].
Proof. reflexivity. Qed.

Lemma no_api_key_no_model_call_witness :
  let w := sample_world None (Ok (Some "unused")) in
  let out := generateResponse w "hello" empty_context initial_state in
  genAI initial_state = None /\ getCurrentApiKey w = None /\
  fst out = Throw (new_Error "Gemini Direct Service not available - no API key") /\
  genAI (snd out) = None /\
  new_events initial_state (snd out) = [EGetCurrentApiKey] /\
  List.filter is_model_call (new_events initial_state (snd out)) = [].
Proof.
  split; [reflexivity|]. split; [reflexivity|].
  apply (no_api_key_no_model_call (sample_world None (Ok (Some "unused")))
           "hello" empty_context initial_state); reflexivity.
Defined.

Lemma blank_answer_rejected_else_trimmed_witness :
  let w := sample_world (Some "key") (Ok (Some "  Hello there.  ")) in
  let out := generateResponse w "hello" empty_context initial_state in
  let m := getGenerativeModel (mkClient "key" 0) in
  In (EGenerateContent m hello_prompt) (new_events initial_state (snd out)) /\
  generateContent w m hello_prompt = Ok (Some "  Hello there.  ") /\
  exists s, Some "  Hello there.  " = Some s /\ fst out = Ok (trim s) /\
            In EMarkKeyAsWorking (new_events initial_state (snd out)).
Proof.
  assert (Hin : In (EGenerateContent (getGenerativeModel (mkClient "key" 0)) hello_prompt)
                   (new_events initial_state
                      (snd (generateResponse
                              (sample_world (Some "key") (Ok (Some "  Hello there.  ")))
                              "hello" empty_context initial_state)))).
  { vm_compute. right. right. left. reflexivity. }
  split; [exact Hin|]. split; [reflexivity|].
  exact (proj2 (blank_answer_rejected_else_trimmed
                  (sample_world (Some "key") (Ok (Some "  Hello there.  ")))
                  "hello" empty_context initial_state)
               _ _ _ Hin eq_refl).
Defined.

Example blank_answer_example :
  fst (generateResponse (sample_world (Some "key") (Ok (Some (" " +:+ nl))))
         "hello" empty_context initial_state) =
  Throw (new_Error "Empty response from Gemini").
Proof. reflexivity. Qed.

Lemma one_client_per_process_witness :
  let w := sample_world (Some "key") (Ok (Some "fine")) in
  let c := mkClient "key" 0 in
  let st := run [CallIsAvailable w] initial_state in
  let cs := [CallGenerateResponse w "hi" empty_context;
             CallIsAvailable (sample_world (Some "rotated") (Ok None));
             CallGenerateResponse (sample_world None (Ok None)) "again" sample_context] in
  genAI st = Some c /\
  genAI (run cs st) = Some c /\
  allocated (run cs st) = allocated st /\
  Forall (reuses c) (new_events st (run cs st)).
Proof.
  split; [reflexivity|].
  apply (proj2 one_client_per_process). reflexivity.
Defined.

End GeminiExamples.

Section ProxyExamples.
Import Js Proxy.

Example variant_A_answers :
  fst (handler VariantA (sample_world (Some "k") (Ok (completion "Hi!")))
         (post (VObj [("messages", VArr [user_message "hello"])]))) =
  json_response 200 (VObj [("success", VBool true); ("response", VStr "Hi!");
                           ("hasToolCalls", VBool false)]).
Proof. reflexivity. Qed.

Lemma rate_limit_and_payment_are_passed_on_witness :
  let w := sample_world (Some "k") (Ok (refusal 429)) in
  let w' := sample_world (Some "k") (Ok (unreadable 402)) in
  let req := post (VObj [("messages", VArr [user_message "hello"])]) in
  let rq := gateway_request "k"
              (A.payload [VObj [("role", VStr "system");
                                ("content", VStr "You are Eliza, AI assistant for XMRT-DAO. Be conversational and helpful.")];
                          user_message "hello"]) in
  let rq' := gateway_request "k"
               (B.payload [VObj [("role", VStr "system");
                                 ("content", VStr "You are Eliza, an AI assistant for XMRT-DAO.")];
                           user_message "hello"]) in
  (In rq (snd (handler VariantA w req)) /\
   fetch w rq = Ok (refusal 429) /\
   gw_text (refusal 429) = Ok "upstream says no" /\
   fails_mentioning (fst (handler VariantA w req)) 429 "rate limit") /\
  (In rq' (snd (handler VariantB w' req)) /\
   fetch w' rq' = Ok (unreadable 402) /\
   gw_text (unreadable 402) = Throw body_read_error /\
   handler VariantB w' req = (catch_block VariantB w' body_read_error, [rq']) /\
   status (fst (handler VariantB w' req)) = 500%Z /\
   body_prop (fst (handler VariantB w' req)) "success" = VBool false).
Proof.
  split.
  - split; [left; reflexivity|]. split; [reflexivity|]. split; [reflexivity|].
    exact (proj1 (rate_limit_and_payment_are_passed_on VariantA
                    (sample_world (Some "k") (Ok (refusal 429)))
                    (post (VObj [("messages", VArr [user_message "hello"])]))
                    _ (refusal 429) (or_introl eq_refl) eq_refl (or_introl eq_refl))
                 (or_intror (ex_intro _ "upstream says no" eq_refl))).
  - split; [left; reflexivity|]. split; [reflexivity|]. split; [reflexivity|].
    exact (proj2 (rate_limit_and_payment_are_passed_on VariantB
                    (sample_world (Some "k") (Ok (unreadable 402)))
                    (post (VObj [("messages", VArr [user_message "hello"])]))
                    _ (unreadable 402) (or_introl eq_refl) eq_refl (or_intror eq_refl))
                 body_read_error ltac:(discriminate) eq_refl).
Defined.

(** C3, as stated, fails for Variants A and B on an answer 429 whose body
    cannot be read: [await response.text()] comes before the test of the
    status, its rejection goes to the [catch] block, and the proxy responds
    with status 500 and the message of the read error. *)
Lemma unreadable_429_is_answered_500 :
  let w := sample_world (Some "k") (Ok (unreadable 429)) in
  let req := post (VObj [("messages", VArr [user_message "hello"])]) in
  let rq := gateway_request "k"
              (A.payload [VObj [("role", VStr "system");
                                ("content", VStr "You are Eliza, AI assistant for XMRT-DAO. Be conversational and helpful.")];
                          user_message "hello"]) in
  snd (handler VariantA w req) = [rq] /\
  fetch w rq = Ok (unreadable 429) /\
  gw_status (unreadable 429) = 429%Z /\
  status (fst (handler VariantA w req)) = 500%Z /\
  error_text (fst (handler VariantA w req)) = Some "error reading a body from connection" /\
  ~ fails_mentioning (fst (handler VariantA w req)) 429 "rate limit" /\
  status (fst (handler VariantB w req)) = 500%Z /\
  status (fst (handler VariantC w req)) = 429%Z.
Proof.
  repeat split. intros [H _]. discriminate H.
Qed.

Example payment_required_variant_C :
  fst (handler VariantC (sample_world (Some "k") (Ok (refusal 402)))
         (post (VObj [("messages", VArr [user_message "hello"])]))) =
  json_response 402 (failure "Payment required, please add credits to your workspace").
Proof. reflexivity. Qed.

(** The preflight guard is before the [try] block: each variant answers an
    OPTIONS request with status 200 and a [null] body, whatever the request
    carries, and raises no exception. *)
Example preflight_is_answered_empty :
  let w := sample_world None (Ok (completion "Hi!")) in
  let req := mkRequest "OPTIONS" (Throw (mkError "SyntaxError" "Unexpected end of JSON input")) in
  handler VariantA w req = (preflight, []) /\
  handler VariantB w req = (preflight, []) /\
  handler VariantC w req = (preflight, []) /\
  status preflight = 200%Z /\ body preflight = None.
Proof. repeat split. Qed.

Lemma exceptions_answered_with_500_json_witness :
  let w := sample_world None (Ok (completion "Hi!")) in
  let w' := sample_world (Some "k") (Ok (refusal 503)) in
  let req := post (VObj [("messages", VArr [user_message "hello"])]) in
  let bad := mkRequest "POST" (Throw (mkError "SyntaxError" "Unexpected end of JSON input")) in
  let e := new_Error "AI service not configured" in
  let rq := gateway_request "k"
              (C.payload (VStr "openai/gpt-5-mini") (VArr [user_message "hello"])
                         (VNum "0.9") (VNum "8000")) in
  (req_method req <> "OPTIONS" /\
   try_block VariantB w req = (Throw e, []) /\
   handler VariantB w req = (catch_block VariantB w e, []) /\
   status (fst (handler VariantB w req)) = 500%Z /\
   has_json_body (fst (handler VariantB w req)) = true /\
   body_prop (fst (handler VariantB w req)) "success" = VBool false /\
   body_prop (fst (handler VariantB w req)) "error" <> VUndefined) /\
  (exists e', try_block VariantA w req = (Throw e', [])) /\
  try_block VariantA w bad =
    (Throw (mkError "SyntaxError" "Unexpected end of JSON input"), []) /\
  (In rq (snd (handler VariantC w' req)) /\
   fetch w' rq = Ok (refusal 503) /\
   exists e', try_block VariantC w' req = (Throw e', [rq])).
Proof.
  split; [|split; [|split]].
  - split; [discriminate|]. split; [reflexivity|].
    exact (proj1 (exceptions_answered_with_500_json VariantB
                    (sample_world None (Ok (completion "Hi!")))
                    (post (VObj [("messages", VArr [user_message "hello"])]))
                    ltac:(discriminate))
                 (new_Error "AI service not configured") [] eq_refl).
  - exact (proj1 (proj2 (proj2 (exceptions_answered_with_500_json VariantA
                    (sample_world None (Ok (completion "Hi!")))
                    (post (VObj [("messages", VArr [user_message "hello"])]))
                    ltac:(discriminate))))
                 (or_introl eq_refl)).
  - exact (proj1 (proj2 (exceptions_answered_with_500_json VariantA
                    (sample_world None (Ok (completion "Hi!")))
                    (mkRequest "POST"
                       (Throw (mkError "SyntaxError" "Unexpected end of JSON input")))
                    ltac:(discriminate)))
                 _ eq_refl).
  - split; [left; reflexivity|]. split; [reflexivity|].
    exact (proj2 (proj1 (proj2 (proj2 (proj2 (exceptions_answered_with_500_json VariantC
                    (sample_world (Some "k") (Ok (refusal 503)))
                    (post (VObj [("messages", VArr [user_message "hello"])]))
                    ltac:(discriminate)))))
                   (gateway_request "k"
                      (C.payload (VStr "openai/gpt-5-mini") (VArr [user_message "hello"])
                                 (VNum "0.9") (VNum "8000")))
                   (or_introl eq_refl))
                 (refusal 503) eq_refl eq_refl ltac:(discriminate) ltac:(discriminate)).
Defined.

Example gateway_failure_is_500 :
  let r := fst (handler VariantA (sample_world (Some "k") (Ok (refusal 503)))
                  (post (VObj [("messages", VArr [user_message "hello"])]))) in
  status r = 500%Z /\
  error_text r = Some "Lovable AI Gateway error: 503 - upstream says no".
Proof. split; reflexivity. Qed.

(** C6, as stated, fails on the body [null]: it has no [messages], and the
    handler fails in the object pattern, before the validation, with the
    TypeError of the runtime and not with the validation error.  Nothing is
    sent to the gateway. *)
Lemma null_body_fails_before_validation :
  let out := C.handler (sample_world (Some "k") (Ok (completion "Hi!"))) (post VNull) in
  OptGet VNull "messages" = VUndefined /\
  status (fst out) = 500%Z /\
  error_text (fst out) =
    Some "Cannot destructure property 'messages' of '(intermediate value)' as it is null." /\
  error_text (fst out) <> Some C.messages_required /\
  (forall msg, error_text (fst out) = Some msg -> mentions msg "array is required" = false) /\
  snd out = [].
Proof.
  repeat split; try discriminate.
  intros msg. simpl. intros [= <-]. reflexivity.
Qed.

Lemma variant_C_validates_messages_witness :
  let w := sample_world (Some "k") (Ok (completion "Hi!")) in
  let b := VObj [("model", VStr "openai/gpt-5"); ("messages", VStr "hello")] in
  (forall b', req_json (post b) = Ok b' -> isArray (OptGet b' "messages") = false) /\
  req_method (post b) <> "OPTIONS" /\
  is_nullish b = false /\
  isArray (OptGet b "messages") = false /\
  snd (C.handler w (post b)) = [] /\
  C.handler w (post b) = (json_response 500 (failure "Messages array is required"), []).
Proof.
  assert (H : forall b', req_json (post (VObj [("model", VStr "openai/gpt-5");
                                                ("messages", VStr "hello")])) = Ok b' ->
                         isArray (OptGet b' "messages") = false).
  { intros b' [= <-]. reflexivity. }
  split; [exact H|]. split; [discriminate|]. split; [reflexivity|]. split; [reflexivity|].
  split.
  - exact (proj1 (variant_C_validates_messages
                    (sample_world (Some "k") (Ok (completion "Hi!")))
                    (post (VObj [("model", VStr "openai/gpt-5");
                                 ("messages", VStr "hello")]))) H).
  - apply (proj2 (variant_C_validates_messages
                    (sample_world (Some "k") (Ok (completion "Hi!")))
                    (post (VObj [("model", VStr "openai/gpt-5");
                                 ("messages", VStr "hello")])))
                 (VObj [("model", VStr "openai/gpt-5"); ("messages", VStr "hello")])).
    + discriminate.
    + reflexivity.
    + reflexivity.
    + reflexivity.
Defined.

Example variant_C_forwards_an_array :
  map gw_body (snd (C.handler (sample_world (Some "k") (Ok (completion "Hi!")))
                      (post (VObj [("messages", VArr [user_message "hello"])])))) =
  [C.payload (VStr "openai/gpt-5-mini") (VArr [user_message "hello"])
             (VNum "0.9") (VNum "8000")].
Proof. reflexivity. Qed.

End ProxyExamples.

Section TruncationExamples.
Import Js.

Example variant_A_forwards_ten :
  map Proxy.gw_body
      (snd (Proxy.A.handler (Proxy.sample_world (Some "k") (Ok (Proxy.completion "Hi!")))
              (Proxy.post (VObj [("messages", VArr Proxy.twelve_messages)])))) =
  [Proxy.A.payload
     (Proxy.system_message
        "You are Eliza, AI assistant for XMRT-DAO. Be conversational and helpful."
      :: map Proxy.user_message
             ["m3"; "m4"; "m5"; "m6"; "m7"; "m8"; "m9"; "m10"; "m11"; "m12"])].
Proof. reflexivity. Qed.

Example variant_B_forwards_three :
  map Proxy.gw_body
      (snd (Proxy.B.handler (Proxy.sample_world (Some "k") (Ok (Proxy.completion "Hi!")))
              (Proxy.post (VObj [("messages", VArr Proxy.twelve_messages)])))) =
  [Proxy.B.payload
     (Proxy.system_message "You are Eliza, an AI assistant for XMRT-DAO."
      :: map Proxy.user_message ["m10"; "m11"; "m12"])].
Proof. reflexivity. Qed.


End TruncationExamples.

Section TTSExamples.
Import Js TTS.

Example preferred_voice_example :
  option_map voice_name (preferredVoice (getVoices (mkSynth
    [mkVoice "Amelie" "fr-FR" true; mkVoice "Daniel" "en-GB" false] false))) =
  Some "Daniel".
Proof. reflexivity. Qed.

Lemma speak_promise_settled_by_first_event_witness :
  let st' := snd (speak sample_window "hello" None (run [] initial_state)) in
  let after := [ASpeak sample_window "world" (Some "1.2");
                AEvent 0 (Err "canceled");
                AEvent 1 End;
                AEvent 0 (Err "network")] in
  speak sample_window "hello" None (run [] initial_state) = (Follows 0, st') /\
  promise_of (Follows 0) (run after st') = Some Fulfilled /\
  promise_of (Follows 1) (run after st') = Some Fulfilled.
Proof.
  split; [reflexivity|]. split.
  - exact (speak_promise_settled_by_first_event []
             [ASpeak sample_window "world" (Some "1.2");
              AEvent 0 (Err "canceled"); AEvent 1 End; AEvent 0 (Err "network")]
             sample_window "hello" None 0 _ eq_refl).
  - exact (speak_promise_settled_by_first_event
             [ASpeak sample_window "hello" None]
             [AEvent 0 (Err "canceled"); AEvent 1 End; AEvent 0 (Err "network")]
             sample_window "world" (Some "1.2") 1 _ eq_refl).
Defined.

Example playback_error_rejects :
  promise_of (Follows 0)
    (run [AEvent 0 (Err "audio-busy"); AEvent 0 End]
         (snd (speak sample_window "hello" None initial_state))) =
  Some (Rejected (new_Error "Speech synthesis error: audio-busy")).
Proof. vm_compute. reflexivity. Qed.

Lemma speak_without_speech_synthesis_witness :
  let out := speak bare_window "hello" None initial_state in
  speechSynthesis bare_window = None /\
  fst out = Resolved /\
  promise_of (fst out) (snd out) = Some Fulfilled /\
  currentUtterance (snd out) = None /\
  isSpeaking bare_window (snd out) = Ok false.
Proof.
  split; [reflexivity|].
  destruct (speak_without_speech_synthesis bare_window "hello" None initial_state eq_refl)
    as [H1 [H2 [H3 [_ [_ [_ [H4 _]]]]]]].
  split; [exact H1|]. split; [exact H2|]. split; [exact H3|].
  apply H4. reflexivity.
Defined.

End TTSExamples.

(* ===================================================================== *)
(** * Part III: further properties of the code                            *)
(* ===================================================================== *)

(** ** The Direct Assistant Client: outcomes of a call *)

Section GeminiOutcomes.
Import Js Gemini.

Lemma append_assoc (a b c : string) : (a +:+ b) +:+ c = a +:+ b +:+ c.
Proof.
  induction a as [|x a IH]; [reflexivity|].
  change (String x ((a +:+ b) +:+ c) = String x (a +:+ b +:+ c)). now rewrite IH.
Qed.

Lemma trimStart_no_leading (s : string) : starts_with_white_space (trimStart s) = false.
Proof.
  induction s as [|c s IH]; simpl; [reflexivity|].
  destruct (is_white_space c) eqn:Hc; [exact IH | exact Hc].
Qed.

Lemma trimEnd_keeps_head (s : string) :
  starts_with_white_space s = false -> starts_with_white_space (trimEnd s) = false.
Proof.
  destruct s as [|c s]; simpl; [reflexivity|]. intros Hc.
  destruct (trimEnd s); [rewrite Hc|]; simpl; exact Hc.
Qed.

Lemma trimEnd_no_trailing (s : string) : ends_with_white_space (trimEnd s) = false.
Proof.
  induction s as [|c s IH]; simpl; [reflexivity|].
  destruct (trimEnd s) as [|d t].
  - destruct (is_white_space c) eqn:Hc; simpl; [reflexivity | exact Hc].
  - exact IH.
Qed.

(** What [initialize] does when no client is memoized. *)
Lemma initialize_fresh (w : World) (st : State) :
  genAI st = None ->
  (no_usable_key w /\ fst (initialize w st) = false /\
   genAI (snd (initialize w st)) = None /\
   allocated (snd (initialize w st)) = allocated st) \/
  (exists key,
     getCurrentApiKey w = Some key /\ key <> "" /\ construct w key = Ok tt /\
     initialize w st =
       (true, mkState (Some (mkClient key (allocated st))) (S (allocated st))
                      (log st ++ [EGetCurrentApiKey; ENewClient key true]))).
Proof.
  intros Hg. unfold initialize, no_usable_key. rewrite Hg.
  destruct (getCurrentApiKey w) as [key|]; simpl; [|left; tauto].
  destruct (String.eqb_spec key "") as [-> | Hne]; simpl; [left; tauto|].
  destruct (construct w key) as [[]|e] eqn:Hc; simpl.
  - right. exists key. rewrite <- app_assoc. now repeat split.
  - left. repeat split; try assumption. right. right. now exists key, e.
Qed.

Lemma initialize_true (w : World) (st : State) :
  fst (initialize w st) = true -> exists c, genAI (snd (initialize w st)) = Some c.
Proof.
  destruct (genAI st) as [c|] eqn:Hg.
  - rewrite (initialize_memoized w st c Hg). simpl. eauto.
  - destruct (initialize_fresh w st Hg) as [[_ [-> _]] | [key [_ [_ [_ ->]]]]];
      [discriminate | simpl; eauto].
Qed.

(** A call of [generateResponse]: unavailable, or one of the courses of the
    [try] block. *)
Lemma generateResponse_course (w : World) (userInput : string)
    (context : GeminiDirectContext) (st : State) :
  let st1 := snd (initialize w st) in
  (fst (initialize w st) = false /\
   generateResponse w userInput context st = (Throw not_available, st1)) \/
  exists c out evs,
    fst (initialize w st) = true /\ genAI st1 = Some c /\
    course w userInput context c st1 out evs /\
    generateResponse w userInput context st = out /\
    log (snd out) = (log st1 ++ evs)%list.
Proof.
  intros st1. subst st1. unfold generateResponse.
  destruct (initialize w st) as [ini st1] eqn:Hi. simpl.
  destruct ini; [|left; split; reflexivity].
  destruct (initialize_true w st) as [c Hc]; [now rewrite Hi|].
  rewrite Hi in Hc. simpl in Hc. rewrite Hc. right. exists c.
  pose proof (try_block_log w c userInput context st1) as Ht.
  destruct (assemble w userInput context) as [prompt|e] eqn:Ha.
  2: { rewrite Ht. eexists _, []. repeat split.
       - now apply AssemblyThrows.
       - simpl. now rewrite app_nil_r. }
  simpl in Ht.
  destruct (generateContent w (getGenerativeModel c) prompt) as [answer|e] eqn:Hm.
  2: { rewrite Ht. eexists _, _. repeat split. now apply (ModelThrows _ _ _ _ _ prompt e). }
  destruct (blank answer) eqn:Hb.
  - rewrite Ht. eexists _, _. repeat split.
    now apply (ModelBlank _ _ _ _ _ prompt answer).
  - destruct Ht as [s [-> Ht]]. rewrite Ht. eexists _, _. repeat split.
    + now apply (ModelAnswers _ _ _ _ _ prompt s).
    + simpl. now rewrite <- app_assoc.
Qed.

(** The events of a call: those of [initialize], then those of the course. *)
Lemma generateResponse_events (w : World) (userInput : string)
    (context : GeminiDirectContext) (st : State) :
  let out := generateResponse w userInput context st in
  exists ievs,
    Forall (fun e => is_model_call e = false /\ e <> EMarkKeyAsWorking) ievs /\
    ((fst (initialize w st) = false /\ fst out = Throw not_available /\
      new_events st (snd out) = ievs) \/
     exists c evs,
       genAI (snd (initialize w st)) = Some c /\
       course w userInput context c (snd (initialize w st)) out evs /\
       new_events st (snd out) = (ievs ++ evs)%list).
Proof.
  intros out. subst out.
  destruct (initialize_log w st) as [ievs [Hlog Hievs]]. exists ievs.
  split; [exact Hievs|].
  destruct (generateResponse_course w userInput context st)
    as [[Hi Ho] | [c [out [evs [Hi [Hc [Hcourse [Ho Hl]]]]]]]].
  - left. rewrite Ho. simpl. repeat split; try assumption.
    now apply new_events_app.
  - right. exists c, evs. rewrite Ho. repeat split; try assumption.
    apply new_events_app. now rewrite Hl, Hlog, <- app_assoc.
Qed.

End GeminiOutcomes.

Section GeminiExtras.
Import Js Gemini.

(** A rejected call has not reported the key as working. *)
Lemma marked_only_if_fulfilled (w : World) (userInput : string)
    (context : GeminiDirectContext) (st : State) :
  In EMarkKeyAsWorking
     (new_events st (snd (generateResponse w userInput context st))) ->
  exists text, fst (generateResponse w userInput context st) = Ok text.
Proof.
  destruct (generateResponse_events w userInput context st)
    as [ievs [Hievs [[_ [Ho He]] | [c [evs [_ [Hc He]]]]]]].
  all: rewrite List.Forall_forall in Hievs.
  - rewrite He. intros H. apply Hievs in H as [_ H]. now destruct H.
  - rewrite He. intros H. apply in_app_or in H as [H | H].
    + apply Hievs in H as [_ H]. now destruct H.
    + inversion Hc; subst; simpl in *; eauto;
        repeat (destruct H as [H | H]; try discriminate); destruct H.
Qed.

(** X1. [generateResponse] reports the key as working exactly when it is
    fulfilled with a text: never on a rejection, always on a success. *)
Theorem key_marked_working_iff_fulfilled (w : World) (userInput : string)
    (context : GeminiDirectContext) (st : State) :
  let out := generateResponse w userInput context st in
  In EMarkKeyAsWorking (new_events st (snd out)) <-> exists text, fst out = Ok text.
Proof.
  intros out. subst out. split; [apply marked_only_if_fulfilled|].
  destruct (generateResponse_events w userInput context st)
    as [ievs [Hievs [[_ [Ho He]] | [c [evs [_ [Hc He]]]]]]].
  - rewrite Ho. intros [text H]. discriminate.
  - rewrite He. intros [text H]. apply in_or_app. right.
    inversion Hc as [e Ha Hout | p e Ha Hm Hout | p a Ha Hm Hb Hout | p s Ha Hm Hs Hout];
      rewrite <- Hout in H; simpl in H; try discriminate.
    simpl. tauto.
Qed.

(** X2. A call of [generateResponse] calls the model at most once, through
    the client that [genAI] holds afterwards, with the model name and the
    sampling parameters fixed in the source, and with the assembled prompt. *)
Theorem at_most_one_model_call (w : World) (userInput : string)
    (context : GeminiDirectContext) (st : State) :
  let out := generateResponse w userInput context st in
  length (List.filter is_model_call (new_events st (snd out))) <= 1 /\
  forall m p, In (EGenerateContent m p) (new_events st (snd out)) ->
    genAI (snd out) = Some (model_client m) /\
    m = mkModel (model_client m) "gemini-2.0-flash-exp" "0.7" "0.8" "40" "2048" /\
    assemble w userInput context = Ok p.
Proof.
  intros out. subst out.
  assert (Hnone : forall ievs,
            Forall (fun e => is_model_call e = false /\ e <> EMarkKeyAsWorking) ievs ->
            List.filter is_model_call ievs = []).
  { induction 1 as [|e l [He _] _ IH]; simpl; [reflexivity | now rewrite He]. }
  destruct (generateResponse_events w userInput context st)
    as [ievs [Hievs [[_ [Ho He]] | [c [evs [Hg [Hc He]]]]]]].
  - rewrite He, (Hnone ievs Hievs). split; [simpl; lia|].
    intros m p H. rewrite List.Forall_forall in Hievs. apply Hievs in H as [H _]. discriminate.
  - rewrite He, List.filter_app, (Hnone ievs Hievs). simpl. split.
    + inversion Hc; subst; simpl; lia.
    + intros m p H. apply in_app_or in H as [H | H].
      { rewrite List.Forall_forall in Hievs. apply Hievs in H as [H _]. discriminate. }
      inversion Hc as [e Ha Hout | q e Ha Hm Hout | q a Ha Hm Hb Hout | q s Ha Hm Hs Hout];
        subst evs; simpl in H; try destruct H as [H | H]; try destruct H as [H | H];
        try discriminate; try contradiction.
      all: injection H as <- <-; simpl; repeat split; assumption.
Qed.

(** The rules of the [catch] block, in their order. *)
Lemma catch_block_rules (e : Error) :
  err_message (catch_block e) =
  if includes (err_message e) "quota"
  then "Gemini API quota exceeded. Please add your own API key or try again later."
  else if includes (err_message e) "invalid"
  then "Invalid Gemini API key. Please check your API key configuration."
  else if includes (err_message e) "permission"
  then "API key lacks permissions. Please ensure Gemini API is enabled."
  else err_message e.
Proof.
  unfold catch_block.
  destruct (includes (err_message e) "quota"); [reflexivity|].
  destruct (includes (err_message e) "invalid"); [reflexivity|].
  destruct (includes (err_message e) "permission"); reflexivity.
Qed.

(** X3. When the model call throws, [generateResponse] is rejected with the
    error that the [catch] block makes of it, and the key is not reported as
    working: a message that mentions quota gives the quota error, else one
    that mentions invalid gives the invalid-key error, else one that mentions
    permission gives the permissions error, else the error is passed on. *)
Theorem model_failure_is_classified (w : World) (userInput : string)
    (context : GeminiDirectContext) (st : State) (m : GenerativeModel) (p : string)
    (e : Error) :
  let out := generateResponse w userInput context st in
  In (EGenerateContent m p) (new_events st (snd out)) ->
  generateContent w m p = Throw e ->
  fst out = Throw (catch_block e) /\
  ~ In EMarkKeyAsWorking (new_events st (snd out)) /\
  err_message (catch_block e) =
    (if includes (err_message e) "quota"
     then "Gemini API quota exceeded. Please add your own API key or try again later."
     else if includes (err_message e) "invalid"
     then "Invalid Gemini API key. Please check your API key configuration."
     else if includes (err_message e) "permission"
     then "API key lacks permissions. Please ensure Gemini API is enabled."
     else err_message e).
Proof.
  intros out Hin Hthrow.
  assert (Hout : fst out = Throw (catch_block e)).
  { destruct (generateResponse_model_call _ _ _ _ _ _ Hin)
      as [st1 [c [_ [_ [-> [Ha Hout]]]]]].
    pose proof (try_block_log w c userInput context st1) as Ht.
    rewrite Ha in Ht. simpl in Ht. rewrite Hthrow in Ht.
    subst out. rewrite Hout, Ht. reflexivity. }
  split; [exact Hout|]. split; [|apply catch_block_rules].
  intros Hmark. apply marked_only_if_fulfilled in Hmark as [text Htext].
  subst out. congruence.
Qed.

(** X4. A text that [generateResponse] returns has no white space at its
    start and none at its end. *)
Theorem returned_text_is_trimmed (w : World) (userInput : string)
    (context : GeminiDirectContext) (st : State) (text : string) :
  fst (generateResponse w userInput context st) = Ok text ->
  starts_with_white_space text = false /\ ends_with_white_space text = false.
Proof.
  intros H.
  destruct (generateResponse_course w userInput context st)
    as [[_ Ho] | [c [out [evs [_ [_ [Hc [Ho _]]]]]]]]; rewrite Ho in H.
  - discriminate.
  - inversion Hc as [e Ha Hout | p e Ha Hm Hout | p a Ha Hm Hb Hout | p s Ha Hm Hs Hout];
      rewrite <- Hout in H; simpl in H; try discriminate.
    injection H as <-. unfold trim. split.
    + apply trimEnd_keeps_head, trimStart_no_leading.
    + apply trimEnd_no_trailing.
Qed.

(** X5. With no client memoized and no usable key (no key, the empty key, or
    a constructor that throws), [generateResponse] is rejected as not
    available, the model is not called, and no client is memoized, so a later
    call tries again. *)
Theorem unavailable_without_usable_key (w : World) (userInput : string)
    (context : GeminiDirectContext) (st : State) :
  genAI st = None -> no_usable_key w ->
  let out := generateResponse w userInput context st in
  fst out = Throw not_available /\
  genAI (snd out) = None /\
  allocated (snd out) = allocated st /\
  List.filter is_model_call (new_events st (snd out)) = [].
Proof.
  intros Hg Hk out.
  destruct (initialize_fresh w st Hg) as [[_ [Hi [Hg' Ha]]] | [key [Hkey [Hne [Hc _]]]]].
  2: { destruct Hk as [Hk | [Hk | [k [e [Hk He]]]]]; congruence. }
  destruct (generateResponse_course w userInput context st)
    as [[_ Ho] | [c [o [evs [Hi' _]]]]]; [|congruence].
  subst out. rewrite Ho. simpl. repeat split; try assumption.
  destruct (initialize_log w st) as [ievs [Hlog Hievs]].
  rewrite (new_events_app _ _ _ Hlog).
  clear -Hievs. induction Hievs as [|e l [He _] _ IH]; simpl; [reflexivity | now rewrite He].
Qed.

(** X6. [isAvailable] tells whether a client is memoized when it returns: it
    answers false exactly when none was memoized and there is no usable key;
    a first success memoizes a client made with the current key; and it never
    calls the model. *)
Theorem isAvailable_reports_the_client (w : World) (st : State) :
  let out := isAvailable w st in
  (fst out = true <-> exists c, genAI (snd out) = Some c) /\
  (fst out = false <-> genAI st = None /\ no_usable_key w) /\
  (genAI st = None -> fst out = true ->
   exists key, getCurrentApiKey w = Some key /\ key <> "" /\
               genAI (snd out) = Some (mkClient key (allocated st))) /\
  List.filter is_model_call (new_events st (snd out)) = [].
Proof.
  intros out. subst out. unfold isAvailable.
  assert (Hcases :
    (exists c, genAI st = Some c /\ initialize w st = (true, st)) \/
    (genAI st = None /\ no_usable_key w /\ fst (initialize w st) = false /\
     genAI (snd (initialize w st)) = None) \/
    (genAI st = None /\ ~ no_usable_key w /\
     exists key, getCurrentApiKey w = Some key /\ key <> "" /\
       fst (initialize w st) = true /\
       genAI (snd (initialize w st)) = Some (mkClient key (allocated st)))).
  { destruct (genAI st) as [c|] eqn:Hg.
    - left. exists c. split; [reflexivity | exact (initialize_memoized w st c Hg)].
    - right. destruct (initialize_fresh w st Hg)
        as [[Hk [Hi [Hg' _]]] | [key [Hkey [Hne [Hc Hi]]]]].
      + left. tauto.
      + right. split; [reflexivity|]. split.
        * intros [Hk | [Hk | [k [e [Hk He]]]]]; congruence.
        * exists key. rewrite Hi. simpl. tauto. }
  split; [|split; [|split]].
  - destruct Hcases as [[c [Hg ->]] | [[_ [_ [-> ->]]] | [_ [_ [key [_ [_ [-> ->]]]]]]]];
      simpl; split; eauto; try discriminate.
    intros [c H]. discriminate.
  - destruct Hcases as [[c [Hg ->]] | [[Hg [Hk [-> _]]] | [Hg [Hk [key [_ [_ [-> _]]]]]]]];
      simpl; split; try tauto; try discriminate.
    intros [H _]. congruence.
  - intros Hg Ht.
    destruct Hcases as [[c [Hg' _]] | [[_ [_ [Hf _]]] | [_ [_ [key [Hkey [Hne [_ Hc]]]]]]]];
      [congruence | congruence | eauto].
  - destruct (initialize_log w st) as [ievs [Hlog Hievs]].
    rewrite (new_events_app _ _ _ Hlog).
    clear -Hievs. induction Hievs as [|e l [He _] _ IH]; simpl; [reflexivity | now rewrite He].
Qed.

End GeminiExtras.

(** ** The Direct Assistant Client: the prompt *)

Section GeminiPrompt.
Import Js Gemini.

Lemma filter_sublist {A} (f : A -> bool) (l : list A) : List.filter f l `sublist_of` l.
Proof.
  induction l as [|x l IH]; simpl; [constructor|].
  destruct (f x); [now apply sublist_skip | now apply sublist_cons].
Qed.

Lemma includes_empty (s : string) : includes s "" = true.
Proof. apply includes_spec. now exists "", s. Qed.

(** Taking the first [n] of the elements that [f] accepts is scanning a
    prefix of the list, and stopping once [n] are found. *)
Lemma take_filter_scan {A} (f : A -> bool) (P : A -> Prop) (n : nat) (l : list A) :
  (forall x, f x = true <-> P x) ->
  exists scanned rest,
    l = (scanned ++ rest)%list /\
    selected P scanned (take n (List.filter f l)) /\
    (rest = [] \/ length (take n (List.filter f l)) = n).
Proof.
  intros Hf. revert n. induction l as [|x l IH]; intros n.
  - exists [], []. simpl. rewrite take_nil. repeat split; [constructor | now left].
  - destruct n as [|n].
    + exists [], (x :: l). repeat split; [constructor | now right].
    + simpl. destruct (f x) eqn:Hx.
      * destruct (IH n) as [scanned [rest [-> [Hsel Hstop]]]].
        exists (x :: scanned), rest. simpl. repeat split.
        -- constructor; [now apply Hf | exact Hsel].
        -- destruct Hstop as [-> | ->]; [now left | now right].
      * destruct (IH (S n)) as [scanned [rest [-> [Hsel Hstop]]]].
        exists (x :: scanned), rest. repeat split; [|exact Hstop].
        apply selected_drop; [|exact Hsel].
        intros HP. apply Hf in HP. congruence.
Qed.

(** X7. The knowledge filter keeps the order of the knowledge base and takes
    the first matches: an entry that matches the input is returned unless
    three entries are already returned.  An entry whose category or topic is
    the empty string matches every input.  The filter scans the knowledge
    base from its head: what it returns is exactly the matching entries of an
    initial part of the knowledge base, in their order, and it leaves a rest
    unscanned only when it has found three; it never returns more than
    three. *)
Theorem knowledge_filter_takes_first_matches (kb : list KnowledgeEntry)
    (userInput : string) :
  let found := relevantKnowledge kb userInput in
  let matching e :=
    occurs_ignoring_case (category e) userInput \/
    occurs_ignoring_case (topic e) userInput in
  found `sublist_of` kb /\
  (forall e, In e kb -> matching e -> In e found \/ length found = 3) /\
  (forall e, category e = "" \/ topic e = "" -> relevant userInput e = true) /\
  length found <= 3 /\
  exists scanned rest,
    kb = (scanned ++ rest)%list /\
    selected matching scanned found /\
    (rest = [] \/ length found = 3).
Proof.
  unfold relevantKnowledge, slice_first. split; [|split; [|split; [|split]]].
  - etransitivity; [apply sublist_take | apply filter_sublist].
  - intros e He Hm. apply relevant_spec in Hm.
    assert (Hin : In e (List.filter (relevant userInput) kb)) by now apply filter_In.
    destruct (Nat.le_gt_cases (length (List.filter (relevant userInput) kb)) 3) as [Hle | Hgt].
    + left. now rewrite take_ge.
    + right. rewrite length_take. lia.
  - intros e [H | H]; unfold relevant; rewrite H; simpl; rewrite includes_empty;
      [reflexivity | apply orb_true_r].
  - rewrite length_take. lia.
  - apply take_filter_scan. intros e. apply relevant_spec.
Qed.

Lemma knowledgeContext_empty (rk : list KnowledgeEntry) :
  knowledgeContext rk = "" <-> rk = [].
Proof.
  destruct rk; simpl; split; intros H; try reflexivity; discriminate.
Qed.

Lemma filter_nil_iff {A} (f : A -> bool) (l : list A) :
  List.filter f l = [] <-> forall x, In x l -> f x = false.
Proof.
  induction l as [|a l IH]; simpl; [tauto|].
  destruct (f a) eqn:Ha; split.
  - discriminate.
  - intros H. specialize (H a (or_introl eq_refl)). congruence.
  - intros H x [<- | Hx]; [exact Ha | now apply IH].
  - intros H. apply IH. intros x Hx. apply H. now right.
Qed.

(** X8. The prompt has a knowledge section exactly when some entry of the
    knowledge base has a category or a topic that occurs in the user input,
    letter case apart. *)
Theorem knowledge_section_iff_a_match (kb : list KnowledgeEntry) (userInput : string) :
  knowledgeContext (relevantKnowledge kb userInput) <> "" <->
  exists e, In e kb /\
    (occurs_ignoring_case (category e) userInput \/
     occurs_ignoring_case (topic e) userInput).
Proof.
  rewrite knowledgeContext_empty. unfold relevantKnowledge, slice_first. split.
  - intros H.
    destruct (List.filter (relevant userInput) kb) as [|e l] eqn:E; [now destruct H|].
    assert (Hin : In e (List.filter (relevant userInput) kb)) by (rewrite E; now left).
    apply filter_In in Hin as [Hin Hrel]. exists e. split; [exact Hin|].
    now apply relevant_spec.
  - intros [e [Hin Hm]] H. apply relevant_spec in Hm.
    assert (Hf : List.filter (relevant userInput) kb = []).
    { destruct (List.filter (relevant userInput) kb); [reflexivity | discriminate]. }
    rewrite filter_nil_iff in Hf. specialize (Hf e Hin). congruence.
Qed.

(** The system prompt: the preamble, the summaries of the context, the
    instructions. *)
Lemma buildSystemPrompt_frame (context : GeminiDirectContext) :
  exists middle,
    buildSystemPrompt context = Ok ((preamble +:+ middle) +:+ instructions) /\
    (truthy (userContext context) = false -> truthy (miningStats context) = false ->
     truthy (systemVersion context) = false -> middle = "").
Proof.
  unfold buildSystemPrompt.
  destruct (truthy (userContext context)) eqn:Hu;
  destruct (truthy (miningStats context)) eqn:Hm;
  destruct (truthy (systemVersion context)) eqn:Hv;
  repeat match goal with
  | |- context [Get ?v ?k] =>
      let x := fresh "x" in let E := fresh "E" in
      destruct (Get_truthy v k ltac:(assumption)) as [x E]; rewrite E; simpl
  | |- context [shown_or ?v ?k ?d] =>
      let x := fresh "x" in let E := fresh "E" in
      destruct (shown_or_truthy v k d ltac:(assumption)) as [x E]; rewrite E; simpl
  end; simpl.
  8: { exists "". split; [reflexivity | reflexivity]. }
  all: repeat match goal with |- context [if ?b then _ else _] => destruct b end.
  all: match goal with
       | |- exists middle, Ok (?E +:+ instructions) = _ /\ _ =>
           let H := fresh "H" in
           assert (H : exists middle, E = preamble +:+ middle)
             by (rewrite ?append_assoc; eexists; reflexivity);
           destruct H as [middle ->]; exists middle;
           split; [reflexivity | intros; discriminate]
       end.
Qed.

(** X9. Every prompt sent to the model is framed the same way: the persona
    preamble, the summaries of the context (none for an empty context), the
    instructions, the knowledge section, the conversation section, and last
    the turn of the user followed by "Eliza:". *)
Theorem prompt_frame (w : World) (userInput : string) (context : GeminiDirectContext)
    (st : State) (m : GenerativeModel) (p : string) :
  In (EGenerateContent m p)
     (new_events st (snd (generateResponse w userInput context st))) ->
  exists middle conversation,
    p = preamble +:+ middle +:+ instructions +:+
        knowledgeContext (relevantKnowledge (XMRT_KNOWLEDGE_BASE w) userInput) +:+
        conversation +:+ user_turn userInput /\
    (context = empty_context -> middle = "" /\ conversation = "").
Proof.
  intros Hin.
  destruct (generateResponse_model_call _ _ _ _ _ _ Hin) as [st1 [c [_ [_ [_ [Ha _]]]]]].
  unfold assemble in Ha.
  destruct (buildSystemPrompt_frame context) as [middle [Hs Hmid]].
  rewrite Hs in Ha. simpl in Ha.
  destruct (conversationContext context) as [conversation|e] eqn:Hc; simpl in Ha;
    [|discriminate].
  injection Ha as <-. exists middle, conversation. split.
  - unfold fullPrompt, user_turn. now rewrite !append_assoc.
  - intros ->. split; [now apply Hmid|].
    vm_compute in Hc. now injection Hc as <-.
Qed.

Lemma render_message_nullish (m : value) :
  if is_nullish m then exists e, render_message m = Throw e
  else exists line, render_message m = Ok line.
Proof.
  unfold render_message. destruct m; simpl; eauto.
Qed.

Lemma map_result_throws {A B} (f : A -> result B) (l : list A) :
  (exists x e, In x l /\ f x = Throw e) -> exists e, map_result f l = Throw e.
Proof.
  induction l as [|a l IH]; intros [x [e [Hin Hx]]]; [destruct Hin|]. simpl.
  destruct (f a) as [y|e'] eqn:Ha; simpl; [|eauto].
  destruct Hin as [-> | Hin]; [congruence|].
  destruct IH as [e'' ->]; [now exists x, e|]. simpl. eauto.
Qed.

Lemma map_result_returns {A B} (f : A -> result B) (l : list A) :
  (forall x, In x l -> exists y, f x = Ok y) -> exists l', map_result f l = Ok l'.
Proof.
  induction l as [|a l IH]; intros H; simpl; [eauto|].
  destruct (H a (or_introl eq_refl)) as [y ->]. simpl.
  destruct IH as [l' ->]; [intros x Hx; apply H; now right|]. simpl. eauto.
Qed.

(** X10. Only the last five messages of the history are read.  When one of
    them is [null] or [undefined], [generateResponse] is rejected and the
    model is not called; when none of them is, the snippet has one line for
    each, whatever the older messages are. *)
Theorem history_entries_are_read_from_the_end (w : World) (userInput : string)
    (context : GeminiDirectContext) (st : State)
    (props : list (string * value)) (l : list value) :
  conversationHistory context = VObj props ->
  own_prop props "recentMessages" = VArr l ->
  ((exists msg, In msg (slice_last 5 l) /\ is_nullish msg = true) ->
   (exists e, fst (generateResponse w userInput context st) = Throw e) /\
   List.filter is_model_call
     (new_events st (snd (generateResponse w userInput context st))) = []) /\
  ((forall msg, In msg (slice_last 5 l) -> is_nullish msg = false) ->
   exists lines, conversation_lines context = Ok lines /\
                 length lines = Nat.min 5 (length l)).
Proof.
  intros Hh Hr.
  assert (Hlines : conversation_lines context =
                   map_result render_message (slice_last 5 l)).
  { unfold conversation_lines, recentMessages. rewrite Hh. simpl. now rewrite Hr. }
  split.
  - intros [msg [Hin Hnull]].
    assert (Hthrow : exists e, assemble w userInput context = Throw e).
    { destruct (map_result_throws render_message (slice_last 5 l)) as [e He].
      - pose proof (render_message_nullish msg) as H. rewrite Hnull in H.
        destruct H as [e H]. now exists msg, e.
      - unfold assemble, conversationContext. rewrite Hlines, He.
        destruct (buildSystemPrompt_returns context) as [prompt ->]. simpl. eauto. }
    destruct Hthrow as [e He].
    split.
    + destruct (generateResponse_course w userInput context st)
        as [[_ Ho] | [c [out [evs [_ [_ [Hc [Ho _]]]]]]]]; rewrite Ho; simpl; [eauto|].
      inversion Hc; simpl; eauto; congruence.
    + destruct (List.filter is_model_call _) as [|ev evs] eqn:Ef; [reflexivity|].
      assert (Hev : In ev (List.filter is_model_call
                (new_events st (snd (generateResponse w userInput context st)))))
        by (rewrite Ef; now left).
      apply filter_In in Hev as [Hev Hm]. destruct ev as [| | m p |]; try discriminate.
      destruct (generateResponse_model_call _ _ _ _ _ _ Hev) as [_ [_ [_ [_ [_ [Ha _]]]]]].
      congruence.
  - intros Hall.
    destruct (map_result_returns render_message (slice_last 5 l)) as [lines Hl].
    + intros msg Hin. pose proof (render_message_nullish msg) as H.
      now rewrite (Hall msg Hin) in H.
    + exists lines. split; [now rewrite Hlines|].
      rewrite (map_result_length _ _ _ Hl). apply slice_last_length.
Qed.

End GeminiPrompt.

(** ** The Speech Wrapper: the other methods *)

Section TTSExtras.
Import Js TTS.

(** X11. A call of [stop] that returns leaves no handle, so [isSpeaking] is
    false at once in any window; it cancels on the platform only when a
    handle was held, and settles no promise.  With speech synthesis present,
    [stop] after [speak] returns and leaves [isSpeaking] false. *)
Theorem stop_clears_the_handle (win : Window) (st : State) :
  (forall st', stop win st = Ok st' ->
     currentUtterance st' = None /\
     (forall win', isSpeaking win' st' = Ok false) /\
     promises st' = promises st /\
     platform st' = (platform st ++ cancel_if_held st)%list /\
     stop win st' = Ok st') /\
  (forall synth text speed,
     speechSynthesis win = Some synth ->
     exists st', stop win (snd (speak win text speed st)) = Ok st' /\
                 isSpeaking win st' = Ok false).
Proof.
  split.
  - intros st'. unfold stop, isSpeaking, cancel_if_held.
    destruct (currentUtterance st) eqn:Hc.
    + destruct (speechSynthesis win); [|discriminate].
      intros [= <-]. simpl. now repeat split.
    + intros [= <-]. rewrite Hc, app_nil_r. now repeat split.
  - intros synth text speed Hwin. unfold speak, stop, isSpeaking. rewrite Hwin.
    unfold loadVoices. rewrite Hwin. simpl. eauto.
Qed.

Lemma step_lastMethod (a : action) (st : State) :
  lastMethod st = "Web Speech API" -> lastMethod (step a st) = "Web Speech API".
Proof.
  intros H. destruct a as [win text speed | win | u ev]; simpl.
  - unfold speak. destruct (initialize_fields win st) as [_ [_ [_ [_ Hl]]]].
    destruct (speechSynthesis win); [destruct (loadVoices win)|]; simpl; congruence.
  - unfold stop. destruct (currentUtterance st); [|exact H].
    destruct (speechSynthesis win); simpl; exact H.
  - unfold fire. destruct (promises st !! u); [|exact H].
    destruct ev; simpl; [reflexivity | exact H].
Qed.

Lemma step_isInitialized (a : action) (st : State) :
  isInitialized st = true -> isInitialized (step a st) = true.
Proof.
  intros H. destruct a as [win text speed | win | u ev]; simpl.
  - unfold speak. rewrite H.
    destruct (speechSynthesis win); [destruct (loadVoices win)|]; simpl; exact H.
  - unfold stop. destruct (currentUtterance st); [|exact H].
    destruct (speechSynthesis win); simpl; exact H.
  - unfold fire. destruct (promises st !! u); [|exact H].
    destruct ev; simpl; exact H.
Qed.

Lemma speak_isInitialized (win : Window) (text : string) (speed : option string)
    (st : State) :
  isInitialized (snd (speak win text speed st)) = true.
Proof.
  unfold speak, initialize.
  destruct (isInitialized st) eqn:Hi.
  - destruct (speechSynthesis win); [destruct (loadVoices win)|]; simpl; exact Hi.
  - destruct (loadVoices win) eqn:Hl; simpl;
      destruct (speechSynthesis win); simpl; reflexivity.
Qed.

(** X12. Over the life of the instance [getLastMethod] always answers
    'Web Speech API'; every call of [speak] leaves the instance initialised,
    with or without speech synthesis, and an initialised instance stays so
    whatever follows. *)
Theorem last_method_constant_and_initialised_for_good :
  (forall acts, getLastMethod (run acts initial_state) = "Web Speech API") /\
  (forall win text speed st, isInitialized (snd (speak win text speed st)) = true) /\
  (forall acts st, isInitialized st = true -> isInitialized (run acts st) = true).
Proof.
  split; [|split].
  - intros acts. unfold getLastMethod.
    assert (H : forall st, lastMethod st = "Web Speech API" ->
                           lastMethod (run acts st) = "Web Speech API").
    { induction acts as [|a acts IH]; intros st Hst; simpl; [exact Hst|].
      now apply IH, step_lastMethod. }
    now apply H.
  - apply speak_isInitialized.
  - induction acts as [|a acts IH]; intros st Hst; simpl; [exact Hst|].
    now apply IH, step_isInitialized.
Qed.

(** The service only adds to what it has asked of the platform: no call of a
    method and no event takes back a cancel or a timer. *)
Lemma step_platform (a : action) (st : State) :
  exists more, platform (step a st) = (platform st ++ more)%list.
Proof.
  destruct a as [win text speed | win | u ev]; simpl.
  - unfold speak, initialize, loadVoices.
    destruct (isInitialized st), (speechSynthesis win); simpl;
      first [now eexists | exists []; now rewrite app_nil_r].
  - unfold stop. destruct (currentUtterance st), (speechSynthesis win); simpl;
      first [now eexists | exists []; now rewrite app_nil_r].
  - unfold fire. destruct (promises st !! u); [destruct ev|]; simpl;
      exists []; now rewrite app_nil_r.
Qed.

Lemma run_platform (acts : list action) (st : State) :
  exists more, platform (run acts st) = (platform st ++ more)%list.
Proof.
  revert st. induction acts as [|a acts IH]; intros st; simpl.
  - exists []. now rewrite app_nil_r.
  - destruct (IH (step a st)) as [more ->].
    destruct (step_platform a st) as [more' ->].
    exists (more' ++ more)%list. now rewrite app_assoc.
Qed.

(** X13. With speech synthesis present a call of [speak], at any point in the
    life of the instance, asks the platform to cancel and then sets the timer
    that hands its own utterance to the platform (the text, the speed or 0.9,
    pitch and volume 1, the preferred voice); it takes the handle whoever
    held it and makes a new pending promise, and the promises of earlier
    utterances are untouched.  The cancel reaches what the platform has at
    that moment, not a timer: the service never takes a timer back.  So when
    a second call follows at once, the timers of both utterances are set, the
    second cancel between them; and whatever the instance does later, what
    it has asked of the platform so far stays asked. *)
Theorem speak_cancels_then_sets_a_timer (before : list action) (win : Window)
    (synth : SpeechSynthesis) (text : string) (speed : option string) :
  speechSynthesis win = Some synth ->
  let st := run before initial_state in
  let u := next_utterance st in
  let out := speak win text speed st in
  let utterance :=
    mkUtterance u text (rate_of speed) "1" "1" (preferredVoice (getVoices synth)) in
  fst out = Follows u /\
  currentUtterance (snd out) = Some u /\
  platform (snd out) = (platform st ++ [PCancel; PSpeakLater utterance])%list /\
  promises st !! u = None /\
  promises (snd out) !! u = Some Pending /\
  (forall u', u' <> u -> promises (snd out) !! u' = promises st !! u') /\
  (forall text' speed',
     platform (snd (speak win text' speed' (snd out))) =
     (platform st ++
      [PCancel; PSpeakLater utterance; PCancel;
       PSpeakLater (mkUtterance (S u) text' (rate_of speed') "1" "1"
                                (preferredVoice (getVoices synth)))])%list) /\
  (forall after, exists more,
     platform (run after (snd out)) =
     (platform st ++ [PCancel; PSpeakLater utterance] ++ more)%list).
Proof.
  intros Hwin st u out utterance.
  assert (Hfresh : promises st !! u = None).
  { pose proof (run_allocated_below before initial_state initial_allocated_below u) as H.
    destruct (promises st !! u) eqn:E; [|reflexivity].
    fold st in H. rewrite E in H. specialize (H (ex_intro _ _ eq_refl)).
    subst u. lia. }
  assert (Hout : snd out =
                 mkState true (Some u) (lastMethod st) (<[u := Pending]> (promises st))
                         (S u) (platform st ++ [PCancel; PSpeakLater utterance])).
  { subst out utterance u. unfold speak, initialize, loadVoices. rewrite Hwin.
    destruct (isInitialized st) eqn:Hi; simpl; now rewrite ?Hi. }
  assert (Hfst : fst out = Follows u).
  { subst out u. unfold speak, initialize, loadVoices. rewrite Hwin.
    destruct (isInitialized st); reflexivity. }
  rewrite Hout. simpl. repeat split; try assumption.
  - apply lookup_insert_eq.
  - intros u' Hne. now apply lookup_insert_ne.
  - intros text' speed'. unfold speak. simpl. rewrite Hwin. unfold loadVoices.
    rewrite Hwin. simpl. now rewrite <- app_assoc.
  - intros after.
    destruct (run_platform after
                (mkState true (Some u) (lastMethod st) (<[u := Pending]> (promises st))
                         (S u) (platform st ++ [PCancel; PSpeakLater utterance])))
      as [more ->].
    exists more. simpl. now rewrite <- app_assoc.
Qed.

(** X14. The handlers of an utterance clear the handle of the instance
    whoever holds it.  So when an event fires on an earlier utterance after a
    newer call of [speak], the handle of the newer utterance is lost while its
    promise is still pending: [isSpeaking] answers false and [stop] cancels
    nothing. *)
Theorem late_event_drops_the_newer_handle (before : list action) (win : Window)
    (text : string) (speed : option string) (u1 u2 : nat) (st2 : State)
    (ev : playback_event) :
  speak win text speed (run before initial_state) = (Follows u2, st2) ->
  u1 <> u2 -> is_Some (promises st2 !! u1) ->
  let st3 := fire u1 ev st2 in
  currentUtterance st2 = Some u2 /\
  currentUtterance st3 = None /\
  promises st3 !! u2 = Some Pending /\
  (forall win', isSpeaking win' st3 = Ok false) /\
  (forall win', stop win' st3 = Ok st3) /\
  platform st3 = platform st2.
Proof.
  intros Hspeak Hne [p1 Hp1] st3.
  apply speak_follows in Hspeak as [_ [_ [Hp Hc]]].
  assert (Hc3 : currentUtterance st3 = None).
  { subst st3. unfold fire. rewrite Hp1. now destruct ev. }
  assert (Hp2 : promises st2 !! u2 = Some Pending).
  { rewrite Hp. apply lookup_insert_eq. }
  repeat split; try assumption.
  - subst st3. unfold fire. rewrite Hp1.
    destruct ev as [|cause]; simpl; [|destruct (String.eqb cause "canceled")];
      now rewrite settle_lookup_other.
  - intros win'. unfold isSpeaking. now rewrite Hc3.
  - intros win'. unfold stop. now rewrite Hc3.
  - subst st3. unfold fire. rewrite Hp1. now destruct ev.
Qed.

(** X15. The voice of an utterance: none exactly when the platform has no
    voice; otherwise a voice of the platform, which is a local English voice
    when there is one, else an English voice when there is one, else the
    first voice. *)
Theorem preferred_voice_priority (voices : list Voice) :
  (preferredVoice voices = None <-> voices = []) /\
  (forall v, preferredVoice voices = Some v ->
     In v voices /\
     ((exists v', In v' voices /\ english v' = true /\ localService v' = true) ->
      english v = true /\ localService v = true) /\
     ((exists v', In v' voices /\ english v' = true) -> english v = true) /\
     ((forall v', In v' voices -> english v' = false) -> head voices = Some v)).
Proof.
  unfold preferredVoice. split.
  - destruct voices as [|v0 voices]; simpl; [tauto|].
    destruct (english v0 && localService v0); [split; discriminate|].
    destruct (List.find _ voices); [split; discriminate|].
    destruct (english v0); [split; discriminate|].
    destruct (List.find english voices); split; discriminate.
  - intros v.
    destruct (List.find (fun v => english v && localService v) voices) as [v1|] eqn:E1.
    { intros [= <-]. apply find_some in E1 as [Hin Hv]. apply andb_true_iff in Hv as [He Hl].
      split; [exact Hin|]. split; [intros _; now split|]. split; [intros _; exact He|].
      intros Hall. rewrite (Hall v1 Hin) in He. discriminate. }
    assert (Hnolocal : ~ exists v', In v' voices /\ english v' = true /\ localService v' = true).
    { intros [v' [Hin' [He Hl]]].
      pose proof (find_none _ _ E1 v' Hin') as Hn. simpl in Hn.
      rewrite He, Hl in Hn. discriminate. }
    destruct (List.find english voices) as [v2|] eqn:E2.
    { intros [= <-]. apply find_some in E2 as [Hin Hv].
      split; [exact Hin|]. split; [intros H; now destruct Hnolocal|].
      split; [intros _; exact Hv|].
      intros Hall. rewrite (Hall v2 Hin) in Hv. discriminate. }
    intros Hv. split; [|split; [|split]].
    + destruct voices; simpl in Hv; [discriminate|]. injection Hv as <-. now left.
    + intros H. now destruct Hnolocal.
    + intros [v' [Hin' He]]. pose proof (find_none _ _ E2 v' Hin'). congruence.
    + intros _. exact Hv.
Qed.

(** X16. [getCapabilities] agrees with [speak]: it reports [webSpeech]
    exactly when a call of [speak] hands an utterance to the platform, and
    reports no [webSpeech] exactly when [speak] returns at once; [openAI] is
    always false and [fallback] always true. *)
Theorem capabilities_agree_with_speak (win : Window) (text : string)
    (speed : option string) (st : State) :
  (webSpeech (getCapabilities win) = true <->
   fst (speak win text speed st) = Follows (next_utterance st)) /\
  (webSpeech (getCapabilities win) = false <->
   fst (speak win text speed st) = Resolved) /\
  openAI (getCapabilities win) = false /\
  fallback (getCapabilities win) = true.
Proof.
  unfold getCapabilities, speak, loadVoices.
  destruct (initialize_fields win st) as [_ [_ [H3 _]]].
  destruct (speechSynthesis win); simpl; rewrite ?H3;
    repeat split; try discriminate; reflexivity.
Qed.

End TTSExtras.

(** ** The edge proxies: requests and responses *)

Section ProxyRequests.
Import Js Proxy.

(** A [try] block throws before it sends anything, or sends one request made
    of the key of the environment and of the payload of the variant. *)
Lemma try_block_sends (v : variant) (w : World) (req : Request) :
  (exists e, try_block v w req = (Throw e, [])) \/
  exists b key payload,
    req_json req = Ok b /\ is_nullish b = false /\
    LOVABLE_API_KEY w = Some key /\ key <> "" /\
    payload_of v w b payload /\
    try_block v w req = after_fetch w (gateway_request key payload) (answer_of v).
Proof.
  destruct v; simpl;
    unfold A.try_block, B.try_block, C.try_block, after_fetch,
           mbind, lift, ret, raise, call_fetch, require_key.
  all: destruct (req_json req) as [b|e]; simpl; [|left; eauto].
  all: destruct (destructure b) as [b'|e] eqn:Hb; simpl; [|left; eauto].
  all: apply destructure_ok in Hb as [-> Hb].
  3: rewrite validation_is_isArray;
     destruct (isArray (OptGet b "messages")) eqn:Harr; simpl; [|left; eauto].
  all: destruct (LOVABLE_API_KEY w) as [key|]; simpl; [|left; eauto].
  all: destruct (String.eqb_spec key "") as [-> | Hne]; simpl; [left; eauto|].
  - destruct (A.systemPrompt w _ _ _) as [prompt|e] eqn:Hp; simpl; [|left; eauto].
    destruct (A.geminiMessages prompt (OptGet b "messages")) as [msgs|e] eqn:Hm;
      simpl; [|left; eauto].
    right. exists b, key, (A.payload msgs). repeat split; try assumption.
    now exists prompt, msgs.
  - destruct (B.deepseekMessages w (OptGet b "messages")) as [msgs|e] eqn:Hm;
      simpl; [|left; eauto].
    right. exists b, key, (B.payload msgs). repeat split; try assumption.
    now exists msgs.
  - right. eexists b, key, _. repeat split; try assumption.
Qed.

(** The request that a handler sent, and what the handler returns. *)
Lemma sent_request_details (v : variant) (w : World) (req : Request)
    (rq : GatewayRequest) :
  In rq (snd (handler v w req)) ->
  exists b key payload,
    String.eqb (req_method req) "OPTIONS" = false /\
    req_json req = Ok b /\ is_nullish b = false /\
    LOVABLE_API_KEY w = Some key /\ key <> "" /\
    payload_of v w b payload /\
    rq = gateway_request key payload /\
    snd (handler v w req) = [rq].
Proof.
  rewrite handler_unfold.
  destruct (String.eqb (req_method req) "OPTIONS"); [intros []|].
  destruct (try_block_sends v w req)
    as [[e ->] | [b [key [payload [Hb [Hn [Hk [Hne [Hp ->]]]]]]]]]; [intros []|].
  pose proof (after_fetch_sent w (gateway_request key payload) (answer_of v)
                (answer_of_sent v)) as Hs.
  destruct (after_fetch w _ (answer_of v)) as [[r|e] sent]; simpl in *; subst sent.
  all: intros [<- | []]; exists b, key, payload; now repeat split.
Qed.

(** X17. A handler sends at most one request to the gateway.  The request is
    a POST to the chat-completion endpoint of the gateway, authorised with
    the key of the environment, which is then set and not empty; its payload
    asks for no streaming and names the model of the variant: fixed for
    Variants A and B, the [model] of the body or the default for Variant C. *)
Theorem one_request_with_the_key (v : variant) (w : World) (req : Request) :
  length (snd (handler v w req)) <= 1 /\
  forall rq, In rq (snd (handler v w req)) ->
    gw_url rq = "https://ai.gateway.lovable.dev/v1/chat/completions" /\
    gw_method rq = "POST" /\
    (exists key, LOVABLE_API_KEY w = Some key /\ key <> "" /\
       gw_headers rq = [("Authorization", "Bearer " +:+ key);
                        ("Content-Type", "application/json")]) /\
    OptGet (gw_body rq) "stream" = VBool false /\
    (exists b, req_json req = Ok b /\
       OptGet (gw_body rq) "model" =
       match v with
       | VariantA => VStr "google/gemini-2.5-pro"
       | VariantB => VStr "google/gemini-2.5-flash"
       | VariantC => with_default (OptGet b "model") (VStr "openai/gpt-5-mini")
       end).
Proof.
  split.
  - destruct (snd (handler v w req)) as [|rq rest] eqn:E; [simpl; lia|].
    destruct (sent_request_details v w req rq) as [_ [_ [_ [_ [_ [_ [_ [_ [_ [_ H]]]]]]]]]].
    { rewrite E. now left. }
    rewrite E in H. injection H as ->. simpl. lia.
  - intros rq Hin.
    destruct (sent_request_details v w req rq Hin)
      as [b [key [payload [_ [Hb [_ [Hk [Hne [Hp [-> _]]]]]]]]]].
    split; [reflexivity|]. split; [reflexivity|].
    split; [now exists key|].
    destruct v; simpl in Hp.
    + destruct Hp as [prompt [msgs [_ [_ ->]]]]. split; [reflexivity|]. now exists b.
    + destruct Hp as [msgs [_ ->]]. split; [reflexivity|]. now exists b.
    + destruct Hp as [_ ->]. split; [reflexivity|]. now exists b.
Qed.

(** X18. Without a key (unset or empty) nothing is ever sent to the gateway.
    For a request that is not the preflight and whose body parses to a value
    other than [null], Variants A and B then answer 500 with "AI service not
    configured" whatever the body holds, and Variant C answers 500 with
    "LOVABLE_API_KEY not configured" once [messages] is an array. *)
Theorem missing_key_is_a_500 (v : variant) (w : World) (req : Request) :
  LOVABLE_API_KEY w = None \/ LOVABLE_API_KEY w = Some "" ->
  snd (handler v w req) = [] /\
  forall b,
    req_method req <> "OPTIONS" -> req_json req = Ok b -> is_nullish b = false ->
    (v = VariantC -> isArray (OptGet b "messages") = true) ->
    handler v w req = (catch_block v w (new_Error (key_message v)), []) /\
    status (fst (handler v w req)) = 500%Z /\
    error_text (fst (handler v w req)) = Some (key_message v).
Proof.
  intros Hk. split.
  - destruct (snd (handler v w req)) as [|rq rest] eqn:E; [reflexivity|].
    destruct (sent_request_details v w req rq)
      as [_ [key [_ [_ [_ [_ [Hkey [Hne _]]]]]]]].
    { rewrite E. now left. }
    destruct Hk as [Hk | Hk]; congruence.
  - intros b Hm Hb Hn Harr. apply String.eqb_neq in Hm.
    assert (H : handler v w req = (catch_block v w (new_Error (key_message v)), [])).
    { rewrite handler_unfold, Hm.
      destruct v; simpl;
        unfold A.try_block, B.try_block, C.try_block, mbind, lift, raise, ret,
               require_key, destructure; rewrite Hb; simpl; rewrite Hn; simpl.
      3: rewrite validation_is_isArray, (Harr eq_refl); simpl.
      all: destruct Hk as [-> | ->]; reflexivity. }
    rewrite H. destruct v; repeat split.
Qed.

(** The shape of what the [try] block returns. *)
Lemma answer_of_shape (v : variant) (resp : GatewayResponse)
    (sent sent' : list GatewayRequest) (r : Response) :
  answer_of v resp sent = (Ok r, sent') ->
  exists st props,
    r = json_response st (VObj props) /\
    own_prop props "success" = VBool (st =? 200)%Z /\
    ((st = 200%Z /\ ok resp = true) \/
     (ok resp = false /\ gw_status resp = st /\ (st = 429%Z \/ st = 402%Z))).
Proof.
  destruct v; simpl; unfold answer_AB, C.answer, mbind, lift, ret, raise.
  all: destruct (ok resp) eqn:Hok; simpl.
  1, 3: destruct (gw_json resp) as [data|e]; simpl; try discriminate;
        destruct (Get data "choices") as [choices|e]; simpl; try discriminate;
        intros [= <- _]; eexists _, _; split; [reflexivity|];
        split; [reflexivity|]; left; tauto.
  1, 2: destruct (gw_text resp) as [errorText|e]; simpl; try discriminate.
  all: try (destruct (gw_status resp =? 429)%Z eqn:H429;
            [|destruct (gw_status resp =? 402)%Z eqn:H402]).
  all: try (apply Z.eqb_eq in H429).
  all: try (apply Z.eqb_eq in H402).
  all: try (intros [= <- _]; eexists _, _; split; [reflexivity|];
            split; [reflexivity|]; right; tauto).
  all: try discriminate.
  all: destruct (gw_json resp) as [data|e]; simpl; try discriminate.
  all: try (destruct (Get data "error"); simpl; discriminate).
  all: destruct (Get data "choices") as [choices|e]; simpl; try discriminate.
  all: try (intros [= <- _]; eexists _, _; split; [reflexivity|];
            split; [reflexivity|]; left; tauto).
  all: destruct (Get0 choices); simpl; try discriminate.
  all: intros [= <- _]; eexists _, _; split; [reflexivity|];
       split; [reflexivity|]; left; tauto.
Qed.

(** X19. Every response of the three proxies, the preflight and the errors
    included, carries the two cross-origin headers, and its status is 200,
    402, 429 or 500. *)
Theorem responses_carry_cors_headers (v : variant) (w : World) (req : Request) :
  let r := fst (handler v w req) in
  (forall h, In h corsHeaders -> In h (headers r)) /\
  (status r = 200%Z \/ status r = 402%Z \/ status r = 429%Z \/ status r = 500%Z).
Proof.
  intros r. subst r. rewrite handler_unfold.
  destruct (String.eqb (req_method req) "OPTIONS"); [simpl; tauto|].
  destruct (try_block v w req) as [[r|e] sent] eqn:E; simpl.
  - destruct (try_block_cases v w req) as [[e He] | [rq Hrq]]; [congruence|].
    rewrite Hrq in E. unfold after_fetch in E.
    destruct (fetch w rq) as [resp|e]; [|discriminate].
    apply answer_of_shape in E as [st [props [-> [_ Hst]]]]. simpl.
    split; [intros h Hh; simpl in *; tauto|].
    destruct Hst as [[-> _] | [_ [_ [-> | ->]]]]; tauto.
  - destruct v; simpl; (split; [intros h Hh; simpl in *; tauto | tauto]).
Qed.

(** X20. In every response other than the preflight the [success] flag says
    whether the status is 200; and a response says [success: true] only
    after one request was sent and the gateway answered it with a 2xx. *)
Theorem success_flag_follows_the_gateway (v : variant) (w : World) (req : Request) :
  req_method req <> "OPTIONS" ->
  let r := fst (handler v w req) in
  body_prop r "success" = VBool (status r =? 200)%Z /\
  (body_prop r "success" = VBool true ->
   exists rq resp, snd (handler v w req) = [rq] /\ fetch w rq = Ok resp /\ ok resp = true).
Proof.
  intros Hm r. subst r. apply String.eqb_neq in Hm. rewrite handler_unfold, Hm.
  destruct (try_block_cases v w req) as [[e He] | [rq Hrq]].
  - rewrite He. simpl. destruct v; simpl; split; try reflexivity; discriminate.
  - rewrite Hrq. unfold after_fetch.
    destruct (fetch w rq) as [resp|e] eqn:Hf.
    2: { simpl. destruct v; simpl; split; try reflexivity; discriminate. }
    pose proof (answer_of_sent v resp [rq]) as Hs.
    destruct (answer_of v resp [rq]) as [[r|e] sent] eqn:E; simpl in Hs; subst sent.
    2: { simpl. destruct v; simpl; split; try reflexivity; discriminate. }
    apply answer_of_shape in E as [st [props [-> [Hp Hst]]]]. simpl.
    unfold body_prop, OptGet, Get. simpl. rewrite Hp. split; [reflexivity|].
    destruct Hst as [[-> Hok] | [_ [_ [-> | ->]]]]; simpl; try discriminate.
    intros _. now exists rq, resp.
Qed.

End ProxyRequests.

(** ** The edge proxies: what is made of the answer of the gateway *)

Section ProxyAnswers.
Import Js Proxy.

Lemma Get_non_nullish (v : value) (k : string) :
  is_nullish v = false -> Get v k = Ok (OptGet v k).
Proof. unfold OptGet. destruct v; simpl; try discriminate; reflexivity. Qed.

Lemma Get0_non_nullish (v : value) :
  is_nullish v = false -> Get0 v = Ok (OptGet0 v).
Proof. unfold OptGet0. destruct v; simpl; try discriminate; reflexivity. Qed.

Lemma Get0_nullish (v : value) :
  is_nullish v = true -> exists e, Get0 v = Throw e.
Proof. destruct v; simpl; try discriminate; eauto. Qed.

(** The response to a request that went out and was answered. *)
Lemma answered_request (v : variant) (w : World) (req : Request)
    (rq : GatewayRequest) (resp : GatewayResponse) :
  In rq (snd (handler v w req)) -> fetch w rq = Ok resp ->
  fst (handler v w req) =
    match answer_of v resp [rq] with
    | (Ok response, _) => response
    | (Throw error, _) => catch_block v w error
    end.
Proof.
  intros Hin Hf. rewrite (sent_request v w req rq Hin). unfold after_fetch. rewrite Hf.
  now destruct (answer_of v resp [rq]) as [[r|e] sent].
Qed.

(** X21. When the gateway answers a request of Variant A or B with a 2xx
    whose body parses to a value other than [null], the proxy answers 200
    with [success: true], [hasToolCalls: false] and, as [response], the
    content of the first choice, or the fixed fallback sentence when there is
    no choice, no message or no content: the response text is never empty. *)
Theorem completion_or_fallback (v : variant) (w : World) (req : Request)
    (rq : GatewayRequest) (resp : GatewayResponse) (data : value) :
  v <> VariantC ->
  In rq (snd (handler v w req)) -> fetch w rq = Ok resp -> ok resp = true ->
  gw_json resp = Ok data -> is_nullish data = false ->
  fst (handler v w req) =
    json_response 200
      (VObj [("success", VBool true);
             ("response", or_else (content_AB data) (VStr fallback_answer));
             ("hasToolCalls", VBool false)]) /\
  truthy (body_prop (fst (handler v w req)) "response") = true /\
  (truthy (content_AB data) = false ->
   body_prop (fst (handler v w req)) "response" = VStr fallback_answer).
Proof.
  intros Hv Hin Hf Hok Hj Hn.
  assert (H : answer_of v resp [rq] =
              (Ok (json_response 200
                     (VObj [("success", VBool true);
                            ("response", or_else (content_AB data) (VStr fallback_answer));
                            ("hasToolCalls", VBool false)])), [rq])).
  { destruct v; [| |now destruct Hv]; simpl;
      unfold answer_AB, mbind, lift, ret; rewrite Hok, Hj; simpl;
      now rewrite (Get_non_nullish data "choices" Hn). }
  rewrite (answered_request v w req rq resp Hin Hf), H.
  split; [reflexivity|]. unfold body_prop, OptGet. simpl. unfold or_else. split.
  - destruct (truthy (content_AB data)) eqn:E; [exact E | reflexivity].
  - now intros ->.
Qed.

(** X22. When the gateway answers a request of Variant C with a 2xx whose
    body parses to a value other than [null]: if the body has no [choices]
    the proxy answers 500, where Variants A and B give their fallback;
    otherwise it answers 200 with [success: true], the content of the first
    choice or the empty string, and the [usage] and [model] of the gateway. *)
Theorem variant_C_completion (w : World) (req : Request)
    (rq : GatewayRequest) (resp : GatewayResponse) (data : value) :
  In rq (snd (handler VariantC w req)) -> fetch w rq = Ok resp -> ok resp = true ->
  gw_json resp = Ok data -> is_nullish data = false ->
  let r := fst (handler VariantC w req) in
  if is_nullish (OptGet data "choices")
  then status r = 500%Z /\ body_prop r "success" = VBool false
  else r = json_response 200
             (VObj [("success", VBool true);
                    ("response",
                     or_else (OptGet (OptGet (OptGet0 (OptGet data "choices")) "message")
                                     "content") (VStr ""));
                    ("usage", OptGet data "usage");
                    ("model", OptGet data "model")]).
Proof.
  intros Hin Hf Hok Hj Hn r. subst r.
  rewrite (answered_request VariantC w req rq resp Hin Hf). simpl.
  unfold C.answer, mbind, lift, ret. rewrite Hok, Hj. simpl.
  rewrite (Get_non_nullish data "choices" Hn). simpl.
  destruct (is_nullish (OptGet data "choices")) eqn:Hc.
  - destruct (Get0_nullish _ Hc) as [e ->]. simpl. now split.
  - now rewrite (Get0_non_nullish _ Hc).
Qed.

(** X23. Variant C forwards what it was given: the whole array of messages,
    with no truncation, and [model], [temperature] and [max_tokens] as the
    body has them; the defaults openai/gpt-5-mini, 0.9 and 8000 stand in for
    an absent property only, so that a [null] is forwarded as [null]. *)
Theorem variant_C_forwards_parameters (w : World) (req : Request) (rq : GatewayRequest) :
  In rq (snd (handler VariantC w req)) ->
  exists b l,
    req_json req = Ok b /\ OptGet b "messages" = VArr l /\
    OptGet (gw_body rq) "messages" = VArr l /\
    defaulted (OptGet (gw_body rq) "model") (OptGet b "model") (VStr "openai/gpt-5-mini") /\
    defaulted (OptGet (gw_body rq) "temperature") (OptGet b "temperature") (VNum "0.9") /\
    defaulted (OptGet (gw_body rq) "max_tokens") (OptGet b "max_tokens") (VNum "8000").
Proof.
  intros Hin.
  destruct (sent_request_details VariantC w req rq Hin)
    as [b [key [payload [_ [Hb [_ [_ [_ [[Harr ->] [-> _]]]]]]]]]].
  destruct (OptGet b "messages") as [| | | | |l|] eqn:Hm; try discriminate.
  exists b, l. split; [exact Hb|]. split; [exact Hm|].
  assert (Hd : forall given d, defaulted (with_default given d) given d).
  { intros given d. unfold defaulted.
    destruct given; simpl; [left; tauto | right; split; [discriminate | reflexivity] ..]. }
  unfold OptGet at 1 3 5 7. simpl. repeat split; try apply Hd.
Qed.

(** X24. When the gateway answers a request of Variant C with a status other
    than 2xx, 429 and 402, the proxy answers 500 with the message of the
    error that the gateway describes in its JSON body; with "AI Gateway
    request failed" when the body describes none; and with the message of the
    parse error when the body is not JSON. *)
Theorem variant_C_surfaces_upstream_error (w : World) (req : Request)
    (rq : GatewayRequest) (resp : GatewayResponse) :
  In rq (snd (handler VariantC w req)) -> fetch w rq = Ok resp ->
  ok resp = false -> gw_status resp <> 429%Z -> gw_status resp <> 402%Z ->
  let r := fst (handler VariantC w req) in
  status r = 500%Z /\ body_prop r "success" = VBool false /\
  (forall e, gw_json resp = Throw e -> err_message e <> "" ->
     error_text r = Some (err_message e)) /\
  (forall errorData, gw_json resp = Ok errorData -> is_nullish errorData = false ->
     (forall msg, OptGet (OptGet errorData "error") "message" = VStr msg -> msg <> "" ->
        error_text r = Some msg) /\
     (truthy (OptGet (OptGet errorData "error") "message") = false ->
        error_text r = Some "AI Gateway request failed")).
Proof.
  intros Hin Hf Hok H1 H2 r. subst r.
  rewrite (answered_request VariantC w req rq resp Hin Hf). simpl.
  apply Z.eqb_neq in H1, H2.
  unfold C.answer, mbind, lift, raise. rewrite Hok, H1, H2. simpl.
  destruct (gw_json resp) as [errorData|e] eqn:Hj; simpl.
  - destruct (Get errorData "error") as [err|e] eqn:He; simpl.
    + split; [reflexivity|]. split; [reflexivity|]. split; [discriminate|].
      intros d [= <-] Hn. rewrite (Get_non_nullish errorData "error" Hn) in He.
      injection He as <-. unfold error_text, body_prop, OptGet at 1 3, or_else. simpl. split.
      * intros msg -> Hne. simpl. apply String.eqb_neq in Hne.
        rewrite Hne. simpl. now rewrite Hne.
      * intros ->. reflexivity.
    + split; [reflexivity|]. split; [reflexivity|]. split; [discriminate|].
      intros d [= <-] Hn. rewrite (Get_non_nullish errorData "error" Hn) in He. discriminate.
  - split; [reflexivity|]. split; [reflexivity|]. split; [|discriminate].
    intros e' [= <-] Hne. apply String.eqb_neq in Hne.
    unfold error_text, body_prop, OptGet. simpl. now rewrite Hne.
Qed.

(** X25. When the gateway answers a request of Variant A or B with a status
    other than 2xx, 429 and 402, the proxy answers 500.  When the body of
    that answer can be read, the error text gives the status and that body;
    when the read is rejected, the error text is the message of the
    rejection.  Variant B gives the text as a string; Variant A wraps it in an
    object that says type invalid_request, code 400 and canRetry false. *)
Theorem variants_AB_report_gateway_status (v : variant) (w : World) (req : Request)
    (rq : GatewayRequest) (resp : GatewayResponse) :
  v <> VariantC ->
  In rq (snd (handler v w req)) -> fetch w rq = Ok resp ->
  ok resp = false -> gw_status resp <> 429%Z -> gw_status resp <> 402%Z ->
  let r := fst (handler v w req) in
  status r = 500%Z /\ body_prop r "success" = VBool false /\
  (forall errorText, gw_text resp = Ok errorText ->
     error_text r = Some ("Lovable AI Gateway error: " +:+ Z_to_string (gw_status resp) +:+
                          " - " +:+ errorText)) /\
  (forall e, gw_text resp = Throw e -> error_text r = Some (err_message e)) /\
  match v with
  | VariantA =>
      OptGet (body_prop r "error") "type" = VStr "invalid_request" /\
      OptGet (body_prop r "error") "code" = VNum "400" /\
      OptGet (body_prop r "error") "canRetry" = VBool false
  | _ => exists text, error_text r = Some text /\ body_prop r "error" = VStr text
  end.
Proof.
  intros Hv Hin Hf Hok H1 H2 r. subst r.
  rewrite (answered_request v w req rq resp Hin Hf).
  apply Z.eqb_neq in H1, H2.
  destruct v; [| |now destruct Hv]; simpl;
    unfold answer_AB, mbind, lift, raise; rewrite Hok; simpl;
    destruct (gw_text resp) as [errorText|e]; simpl; rewrite ?H1, ?H2; simpl.
  all: repeat split; try discriminate; try (now intros ? [= <-]).
  all: eexists; split; reflexivity.
Qed.

Lemma minimal_shape (w : World) (msg out : value) :
  B.minimal w msg = Ok out -> role_and_content out.
Proof.
  unfold B.minimal, role_and_content, bind.
  destruct (Get msg "role") as [role|e]; [|discriminate].
  destruct (Get msg "content") as [content|e]; [|discriminate].
  intros [= <-]. eexists _, _. split; [reflexivity|].
  destruct content; simpl; tauto.
Qed.

Lemma minimal_forwards (w : World) (msg out : value) :
  B.minimal w msg = Ok out -> forwarded_by_B w msg out.
Proof.
  unfold B.minimal, forwarded_by_B, bind, OptGet.
  destruct (Get msg "role") as [role|e]; [|discriminate].
  destruct (Get msg "content") as [content|e]; [|discriminate].
  intros [= <-]. split; [reflexivity|].
  destruct content; reflexivity.
Qed.

(** X26. A request of Variant B carries its system message and then the last
    three messages of the body at most, one forwarded message for each and in
    their order.  A forwarded message is an object with just the properties
    [role] and [content]: the role is that of the message; the content is
    that of the message when it is a string, is [undefined] when the message
    has none, and is otherwise the JSON text of the content of the message. *)
Theorem variant_B_forwards_role_and_content (w : World) (req : Request)
    (rq : GatewayRequest) :
  In rq (snd (handler VariantB w req)) ->
  exists b l sent,
    req_json req = Ok b /\ OptGet b "messages" = VArr l /\
    gw_body rq = B.payload (system_message B.systemPrompt :: sent) /\
    length sent <= 3 /\
    Forall role_and_content sent /\
    Forall2 (forwarded_by_B w) (slice_last 3 l) sent.
Proof.
  intros Hin.
  destruct (sent_request_details VariantB w req rq Hin)
    as [b [key [payload [_ [Hb [_ [_ [_ [[msgs [Hm ->]] [-> _]]]]]]]]]].
  unfold B.deepseekMessages, B.recentMessages, bind in Hm.
  destruct (slice_neg 3 (OptGet b "messages")) as [sliced|e] eqn:Hs; [|discriminate].
  destruct sliced as [| | | | |l|]; try discriminate.
  destruct (map_result (B.minimal w) l) as [recent|e] eqn:Hr; [|discriminate].
  injection Hm as <-.
  destruct (OptGet b "messages") as [| | | | |l0|] eqn:Hmsgs; simpl in Hs; try discriminate.
  injection Hs as <-.
  exists b, l0, recent. split; [exact Hb|]. split; [exact Hmsgs|].
  split; [reflexivity|]. split; [|split].
  - rewrite (map_result_length _ _ _ Hr), slice_last_length. lia.
  - apply map_result_Forall2 in Hr. clear -Hr.
    induction Hr as [|x y l l' Hxy _ IH]; constructor; [|exact IH].
    now apply (minimal_shape w x).
  - apply map_result_Forall2 in Hr. clear -Hr.
    induction Hr as [|x y l l' Hxy _ IH]; constructor; [|exact IH].
    now apply minimal_forwards.
Qed.

Lemma chars_of_chars (l : list ascii) : chars (of_chars l) = l.
Proof. apply list_ascii_of_string_of_list_ascii. Qed.

(** X27. Variants A and B do not check [messages].  When it is absent,
    [null], a number, a boolean or an object that is no array, and the request
    is not the preflight, they answer 500 and send nothing, and so does
    Variant B for a string; Variant A, given a string, sends its last ten
    characters at most, each as one message. *)
Theorem variants_AB_do_not_validate_messages :
  (forall v w req b,
     v <> VariantC -> req_method req <> "OPTIONS" -> req_json req = Ok b ->
     not_sliceable (OptGet b "messages") = true \/
     (v = VariantB /\ is_string (OptGet b "messages") = true) ->
     snd (handler v w req) = [] /\ status (fst (handler v w req)) = 500%Z) /\
  (forall w req b s rq,
     req_json req = Ok b -> OptGet b "messages" = VStr s ->
     In rq (snd (handler VariantA w req)) ->
     exists prompt,
       gw_body rq =
       A.payload (system_message prompt ::
                  map (fun c => VStr (String c EmptyString)) (slice_last 10 (chars s)))).
Proof.
  split.
  - intros v w req b Hv Hm Hb Hmsg.
    assert (Hnone : snd (handler v w req) = []).
    { destruct (snd (handler v w req)) as [|rq rest] eqn:E; [reflexivity|].
      destruct (sent_request_details v w req rq)
        as [b' [key [payload [_ [Hb' [_ [_ [_ [Hp _]]]]]]]]]; [rewrite E; now left|].
      rewrite Hb in Hb'. injection Hb' as <-.
      destruct v; [| |now destruct Hv]; simpl in Hp.
      - destruct Hp as [prompt [msgs [_ [Hg _]]]].
        destruct Hmsg as [Hmsg | [? _]]; [|discriminate].
        unfold A.geminiMessages in Hg.
        destruct (OptGet b "messages"); simpl in *; discriminate.
      - destruct Hp as [msgs [Hg _]].
        unfold B.deepseekMessages, B.recentMessages in Hg.
        destruct Hmsg as [Hmsg | [_ Hmsg]];
          destruct (OptGet b "messages"); simpl in *; discriminate. }
    split; [exact Hnone|].
    apply String.eqb_neq in Hm. rewrite handler_unfold, Hm in Hnone |- *.
    destruct (try_block_cases v w req) as [[e ->] | [rq Hrq]].
    + destruct v; reflexivity.
    + rewrite Hrq in Hnone.
      pose proof (after_fetch_sent w rq (answer_of v) (answer_of_sent v)) as Hs.
      destruct (after_fetch w rq (answer_of v)) as [[r|e] sent]; simpl in *; congruence.
  - intros w req b s rq Hb Hmsg Hin.
    destruct (sent_request_details VariantA w req rq Hin)
      as [b' [key [payload [_ [Hb' [_ [_ [_ [[prompt [msgs [_ [Hg ->]]]] [-> _]]]]]]]]]].
    rewrite Hb in Hb'. injection Hb' as <-. rewrite Hmsg in Hg.
    unfold A.geminiMessages in Hg. simpl in Hg. injection Hg as <-.
    exists prompt. simpl. unfold str_slice_last. now rewrite chars_of_chars.
Qed.

End ProxyAnswers.

(** ** Worked examples for the further properties *)

Section GeminiExtraExamples.
Import Js Gemini.

Lemma at_most_one_model_call_witness :
  let w := sample_world (Some "key") (Ok (Some "fine")) in
  let out := generateResponse w "hello" empty_context initial_state in
  let m := getGenerativeModel (mkClient "key" 0) in
  In (EGenerateContent m hello_prompt) (new_events initial_state (snd out)) /\
  genAI (snd out) = Some (model_client m) /\
  m = mkModel (model_client m) "gemini-2.0-flash-exp" "0.7" "0.8" "40" "2048" /\
  assemble w "hello" empty_context = Ok hello_prompt.
Proof.
  assert (Hin : In (EGenerateContent (getGenerativeModel (mkClient "key" 0)) hello_prompt)
                   (new_events initial_state
                      (snd (generateResponse (sample_world (Some "key") (Ok (Some "fine")))
                              "hello" empty_context initial_state)))).
  { vm_compute. right. right. left. reflexivity. }
  split; [exact Hin|].
  exact (proj2 (at_most_one_model_call (sample_world (Some "key") (Ok (Some "fine")))
                  "hello" empty_context initial_state) _ _ Hin).
Defined.

Lemma model_failure_is_classified_witness :
  let e := new_Error "429: quota exceeded for an invalid project" in
  let w := sample_world (Some "key") (Throw e) in
  let out := generateResponse w "hello" empty_context initial_state in
  let m := getGenerativeModel (mkClient "key" 0) in
  In (EGenerateContent m hello_prompt) (new_events initial_state (snd out)) /\
  generateContent w m hello_prompt = Throw e /\
  fst out = Throw (new_Error
    "Gemini API quota exceeded. Please add your own API key or try again later.") /\
  ~ In EMarkKeyAsWorking (new_events initial_state (snd out)).
Proof.
  assert (Hin : In (EGenerateContent (getGenerativeModel (mkClient "key" 0)) hello_prompt)
                   (new_events initial_state
                      (snd (generateResponse
                              (sample_world (Some "key")
                                 (Throw (new_Error "429: quota exceeded for an invalid project")))
                              "hello" empty_context initial_state)))).
  { vm_compute. right. right. left. reflexivity. }
  split; [exact Hin|]. split; [reflexivity|].
  destruct (model_failure_is_classified
              (sample_world (Some "key")
                 (Throw (new_Error "429: quota exceeded for an invalid project")))
              "hello" empty_context initial_state _ _ _ Hin eq_refl) as [H1 [H2 _]].
  split; [exact H1 | exact H2].
Defined.

Lemma returned_text_is_trimmed_witness :
  let w := sample_world (Some "key") (Ok (Some ("  Mining is on. " +:+ nl))) in
  fst (generateResponse w "hello" empty_context initial_state) = Ok "Mining is on." /\
  starts_with_white_space "Mining is on." = false /\
  ends_with_white_space "Mining is on." = false.
Proof.
  split; [reflexivity|].
  apply (returned_text_is_trimmed
           (sample_world (Some "key") (Ok (Some ("  Mining is on. " +:+ nl))))
           "hello" empty_context initial_state).
  reflexivity.
Defined.

Lemma unavailable_without_usable_key_witness :
  let w := mkWorld sample_knowledge (Some "key")
                   (fun _ => Throw (new_Error "bad key")) (fun _ _ => Ok (Some "fine")) in
  let out := generateResponse w "hello" empty_context initial_state in
  genAI initial_state = None /\ no_usable_key w /\
  fst out = Throw not_available /\
  genAI (snd out) = None /\
  allocated (snd out) = allocated initial_state /\
  List.filter is_model_call (new_events initial_state (snd out)) = [].
Proof.
  assert (Hk : no_usable_key
                 (mkWorld sample_knowledge (Some "key")
                    (fun _ => Throw (new_Error "bad key")) (fun _ _ => Ok (Some "fine")))).
  { right. right. exists "key", (new_Error "bad key"). split; reflexivity. }
  split; [reflexivity|]. split; [exact Hk|].
  exact (unavailable_without_usable_key _ "hello" empty_context initial_state eq_refl Hk).
Defined.

Lemma isAvailable_reports_the_client_witness :
  let w := sample_world (Some "key") (Ok None) in
  let out := isAvailable w initial_state in
  genAI initial_state = None /\ fst out = true /\
  exists key, getCurrentApiKey w = Some key /\ key <> "" /\
              genAI (snd out) = Some (mkClient key (allocated initial_state)).
Proof.
  split; [reflexivity|]. split; [reflexivity|].
  destruct (isAvailable_reports_the_client (sample_world (Some "key") (Ok None))
              initial_state) as [_ [_ [H _]]].
  exact (H eq_refl eq_refl).
Defined.

Lemma knowledge_filter_takes_first_matches_witness :
  let e := mkEntry "Privacy" "mining rewards" "Rewards are paid in XMR." in
  let found := relevantKnowledge sample_knowledge "Mining rewards and the pool" in
  In e sample_knowledge /\
  (occurs_ignoring_case (category e) "Mining rewards and the pool" \/
   occurs_ignoring_case (topic e) "Mining rewards and the pool") /\
  ~ In e found /\
  length found = 3.
Proof.
  assert (Hin : In (mkEntry "Privacy" "mining rewards" "Rewards are paid in XMR.")
                   sample_knowledge) by (simpl; tauto).
  assert (Hm : occurs_ignoring_case "Privacy" "Mining rewards and the pool" \/
               occurs_ignoring_case "mining rewards" "Mining rewards and the pool").
  { right. now exists "", " and the pool". }
  assert (Hnot : ~ In (mkEntry "Privacy" "mining rewards" "Rewards are paid in XMR.")
                      (relevantKnowledge sample_knowledge "Mining rewards and the pool")).
  { vm_compute. intros [H | [H | [H | []]]]; discriminate. }
  split; [exact Hin|]. split; [exact Hm|]. split; [exact Hnot|].
  destruct (proj1 (proj2 (knowledge_filter_takes_first_matches sample_knowledge
                            "Mining rewards and the pool")) _ Hin Hm) as [H | H].
  - now destruct Hnot.
  - exact H.
Defined.

Example knowledge_section_example :
  knowledgeContext (relevantKnowledge sample_knowledge "What is the weather?") = "".
Proof. reflexivity. Qed.

Lemma prompt_frame_witness :
  let w := sample_world (Some "key") (Ok (Some "fine")) in
  let out := generateResponse w "hello" empty_context initial_state in
  let m := getGenerativeModel (mkClient "key" 0) in
  In (EGenerateContent m hello_prompt) (new_events initial_state (snd out)) /\
  exists middle conversation,
    hello_prompt =
      preamble +:+ middle +:+ instructions +:+
      knowledgeContext (relevantKnowledge (XMRT_KNOWLEDGE_BASE w) "hello") +:+
      conversation +:+ user_turn "hello" /\
    (empty_context = empty_context -> middle = "" /\ conversation = "").
Proof.
  assert (Hin : In (EGenerateContent (getGenerativeModel (mkClient "key" 0)) hello_prompt)
                   (new_events initial_state
                      (snd (generateResponse (sample_world (Some "key") (Ok (Some "fine")))
                              "hello" empty_context initial_state)))).
  { vm_compute. right. right. left. reflexivity. }
  split; [exact Hin|].
  exact (prompt_frame (sample_world (Some "key") (Ok (Some "fine")))
           "hello" empty_context initial_state _ _ Hin).
Defined.

Lemma history_entries_are_read_from_the_end_witness :
  let w := sample_world (Some "key") (Ok (Some "fine")) in
  let old_null := VNull :: sample_history in
  let late_null := (sample_history ++ [VNull])%list in
  let context l := mkContext VUndefined VUndefined (VObj [("recentMessages", VArr l)])
                             VUndefined in
  ((exists msg, In msg (slice_last 5 late_null) /\ is_nullish msg = true) /\
   (exists e, fst (generateResponse w "hello" (context late_null) initial_state) = Throw e) /\
   List.filter is_model_call
     (new_events initial_state
        (snd (generateResponse w "hello" (context late_null) initial_state))) = []) /\
  ((forall msg, In msg (slice_last 5 old_null) -> is_nullish msg = false) /\
   exists lines, conversation_lines (context old_null) = Ok lines /\
                 length lines = Nat.min 5 (length old_null)).
Proof.
  split.
  - assert (H : exists msg, In msg (slice_last 5 (sample_history ++ [VNull])%list) /\
                            is_nullish msg = true).
    { exists VNull. split; [vm_compute; tauto | reflexivity]. }
    split; [exact H|].
    exact (proj1 (history_entries_are_read_from_the_end
                    (sample_world (Some "key") (Ok (Some "fine"))) "hello"
                    (mkContext VUndefined VUndefined
                       (VObj [("recentMessages", VArr (sample_history ++ [VNull])%list)])
                       VUndefined)
                    initial_state _ _ eq_refl eq_refl) H).
  - assert (H : forall msg, In msg (slice_last 5 (VNull :: sample_history)) ->
                            is_nullish msg = false).
    { intros msg Hin. vm_compute in Hin.
      repeat (destruct Hin as [<- | Hin]; [reflexivity|]). destruct Hin. }
    split; [exact H|].
    exact (proj2 (history_entries_are_read_from_the_end
                    (sample_world (Some "key") (Ok (Some "fine"))) "hello"
                    (mkContext VUndefined VUndefined
                       (VObj [("recentMessages", VArr (VNull :: sample_history))])
                       VUndefined)
                    initial_state _ _ eq_refl eq_refl) H).
Defined.

End GeminiExtraExamples.

Section TTSExtraExamples.
Import Js TTS.

Lemma stop_clears_the_handle_witness :
  let st := snd (speak sample_window "hello" None initial_state) in
  exists st',
    stop sample_window st = Ok st' /\
    currentUtterance st = Some 0 /\
    currentUtterance st' = None /\
    (forall win', isSpeaking win' st' = Ok false) /\
    promises st' !! 0 = Some Pending /\
    platform st' = (platform st ++ [PCancel])%list.
Proof.
  destruct (proj2 (stop_clears_the_handle sample_window initial_state)
              _ "hello" None eq_refl) as [st' [Hstop _]].
  exists st'. split; [exact Hstop|]. split; [reflexivity|].
  destruct (proj1 (stop_clears_the_handle sample_window
                     (snd (speak sample_window "hello" None initial_state)))
              st' Hstop) as [H1 [H2 [H3 [H4 _]]]].
  split; [exact H1|]. split; [exact H2|]. split; [now rewrite H3 | exact H4].
Defined.

Lemma last_method_constant_and_initialised_for_good_witness :
  let st := snd (speak bare_window "hello" None initial_state) in
  let acts := [ASpeak sample_window "world" None; AEvent 0 End; AStop sample_window] in
  isInitialized st = true /\
  isInitialized (run acts st) = true /\
  getLastMethod (run acts initial_state) = "Web Speech API".
Proof.
  destruct last_method_constant_and_initialised_for_good as [H1 [H2 H3]].
  split; [apply H2|]. split; [apply H3, H2 | apply H1].
Defined.

Lemma speak_cancels_then_sets_a_timer_witness :
  let before := [ASpeak sample_window "hello" None] in
  let out := speak sample_window "world" (Some "0") (run before initial_state) in
  let daniel := Some (mkVoice "Daniel" "en-GB" false) in
  speechSynthesis sample_window =
    Some (mkSynth [mkVoice "Amelie" "fr-FR" true; mkVoice "Daniel" "en-GB" false] false) /\
  currentUtterance (run before initial_state) = Some 0 /\
  fst out = Follows 1 /\
  currentUtterance (snd out) = Some 1 /\
  platform (snd out) =
    [PCancel;
     PSpeakLater (mkUtterance 0 "hello" "0.9" "1" "1" daniel);
     PCancel;
     PSpeakLater (mkUtterance 1 "world" "0.9" "1" "1" daniel)] /\
  promises (snd out) !! 0 = Some Pending /\
  platform (snd (speak sample_window "again" (Some "1.5") (snd out))) =
    [PCancel;
     PSpeakLater (mkUtterance 0 "hello" "0.9" "1" "1" daniel);
     PCancel;
     PSpeakLater (mkUtterance 1 "world" "0.9" "1" "1" daniel);
     PCancel;
     PSpeakLater (mkUtterance 2 "again" "1.5" "1" "1" daniel)].
Proof.
  split; [reflexivity|]. split; [reflexivity|].
  destruct (speak_cancels_then_sets_a_timer [ASpeak sample_window "hello" None]
              sample_window _
              "world" (Some "0") eq_refl) as [H1 [H2 [H3 [_ [_ [H6 [H7 _]]]]]]].
  split; [exact H1|]. split; [exact H2|]. split; [exact H3|].
  split; [rewrite (H6 0); [reflexivity | discriminate]|].
  exact (H7 "again" (Some "1.5")).
Defined.

Lemma late_event_drops_the_newer_handle_witness :
  let before := [ASpeak sample_window "hello" None] in
  let st2 := snd (speak sample_window "world" None (run before initial_state)) in
  let st3 := fire 0 (Err "canceled") st2 in
  speak sample_window "world" None (run before initial_state) = (Follows 1, st2) /\
  is_Some (promises st2 !! 0) /\
  currentUtterance st2 = Some 1 /\
  currentUtterance st3 = None /\
  promises st3 !! 1 = Some Pending /\
  isSpeaking (mkWindow (Some (mkSynth [] true))) st3 = Ok false /\
  stop sample_window st3 = Ok st3.
Proof.
  assert (Hs : is_Some (promises (snd (speak sample_window "world" None
                   (run [ASpeak sample_window "hello" None] initial_state))) !! 0)).
  { exists Pending. reflexivity. }
  split; [reflexivity|]. split; [exact Hs|].
  destruct (late_event_drops_the_newer_handle [ASpeak sample_window "hello" None]
              sample_window "world" None 0 1 _ (Err "canceled") eq_refl
              ltac:(discriminate) Hs) as [H1 [H2 [H3 [H4 [H5 _]]]]].
  split; [exact H1|]. split; [exact H2|]. split; [exact H3|].
  split; [apply H4 | apply H5].
Defined.

Lemma preferred_voice_priority_witness :
  let voices := [mkVoice "Amelie" "fr-FR" true; mkVoice "Daniel" "en-GB" false;
                 mkVoice "Samantha" "en-US" true] in
  let v := mkVoice "Samantha" "en-US" true in
  preferredVoice voices = Some v /\
  (exists v', In v' voices /\ english v' = true /\ localService v' = true) /\
  In v voices /\ english v = true /\ localService v = true.
Proof.
  assert (He : exists v', In v' [mkVoice "Amelie" "fr-FR" true; mkVoice "Daniel" "en-GB" false;
                                 mkVoice "Samantha" "en-US" true] /\
                          english v' = true /\ localService v' = true).
  { exists (mkVoice "Samantha" "en-US" true). simpl. tauto. }
  split; [reflexivity|]. split; [exact He|].
  destruct (proj2 (preferred_voice_priority
                     [mkVoice "Amelie" "fr-FR" true; mkVoice "Daniel" "en-GB" false;
                      mkVoice "Samantha" "en-US" true])
              (mkVoice "Samantha" "en-US" true) eq_refl) as [H1 [H2 _]].
  split; [exact H1 | exact (H2 He)].
Defined.

Example capabilities_example :
  getCapabilities bare_window = mkCapabilities false false true /\
  getCapabilities sample_window = mkCapabilities false true true.
Proof. split; reflexivity. Qed.

End TTSExtraExamples.

Section ProxyExtraExamples.
Import Js Proxy.

(** The request that Variant C sends for one message and no parameter. *)
Example request_of_variant_C :
  snd (handler VariantC (sample_world (Some "k") (Ok (completion "Hi!")))
         (post (VObj [("messages", VArr [user_message "hello"])]))) =
  [gateway_request "k"
     (C.payload (VStr "openai/gpt-5-mini") (VArr [user_message "hello"])
                (VNum "0.9") (VNum "8000"))].
Proof. reflexivity. Qed.

Lemma one_request_with_the_key_witness :
  let w := sample_world (Some "k") (Ok (completion "Hi!")) in
  let req := post (VObj [("messages", VArr [user_message "hello"]); ("model", VNull)]) in
  let rq := gateway_request "k"
              (C.payload VNull (VArr [user_message "hello"]) (VNum "0.9") (VNum "8000")) in
  In rq (snd (handler VariantC w req)) /\
  gw_url rq = "https://ai.gateway.lovable.dev/v1/chat/completions" /\
  gw_method rq = "POST" /\
  (exists key, LOVABLE_API_KEY w = Some key /\ key <> "" /\
     gw_headers rq = [("Authorization", "Bearer " +:+ key);
                      ("Content-Type", "application/json")]) /\
  OptGet (gw_body rq) "stream" = VBool false.
Proof.
  assert (Hin : In (gateway_request "k"
                      (C.payload VNull (VArr [user_message "hello"]) (VNum "0.9") (VNum "8000")))
                   (snd (handler VariantC (sample_world (Some "k") (Ok (completion "Hi!")))
                           (post (VObj [("messages", VArr [user_message "hello"]);
                                        ("model", VNull)]))))).
  { left. reflexivity. }
  split; [exact Hin|].
  destruct (proj2 (one_request_with_the_key VariantC
                     (sample_world (Some "k") (Ok (completion "Hi!")))
                     (post (VObj [("messages", VArr [user_message "hello"]);
                                  ("model", VNull)]))) _ Hin) as [H1 [H2 [H3 [H4 _]]]].
  split; [exact H1|]. split; [exact H2|]. split; [exact H3 | exact H4].
Defined.

Lemma missing_key_is_a_500_witness :
  let w := sample_world (Some "") (Ok (completion "Hi!")) in
  let req := post (VObj [("messages", VNum "5")]) in
  (LOVABLE_API_KEY w = None \/ LOVABLE_API_KEY w = Some "") /\
  req_method req <> "OPTIONS" /\
  snd (handler VariantA w req) = [] /\
  status (fst (handler VariantA w req)) = 500%Z /\
  error_text (fst (handler VariantA w req)) = Some "AI service not configured".
Proof.
  assert (Hk : LOVABLE_API_KEY (sample_world (Some "") (Ok (completion "Hi!"))) = None \/
               LOVABLE_API_KEY (sample_world (Some "") (Ok (completion "Hi!"))) = Some "")
    by (right; reflexivity).
  split; [exact Hk|]. split; [discriminate|].
  destruct (missing_key_is_a_500 VariantA (sample_world (Some "") (Ok (completion "Hi!")))
              (post (VObj [("messages", VNum "5")])) Hk) as [H1 H2].
  split; [exact H1|].
  destruct (H2 (VObj [("messages", VNum "5")]) ltac:(discriminate) eq_refl eq_refl
               ltac:(discriminate)) as [_ [H3 H4]].
  split; [exact H3 | exact H4].
Defined.

Lemma responses_carry_cors_headers_witness :
  let r := fst (handler VariantB (sample_world None (Ok (completion "Hi!")))
                  (mkRequest "GET" (Throw (mkError "SyntaxError" "Unexpected end of JSON input")))) in
  In ("Access-Control-Allow-Origin", "*") corsHeaders /\
  In ("Access-Control-Allow-Origin", "*") (headers r) /\
  status r = 500%Z.
Proof.
  assert (H : In ("Access-Control-Allow-Origin", "*") corsHeaders) by (left; reflexivity).
  split; [exact H|]. split; [|reflexivity].
  exact (proj1 (responses_carry_cors_headers VariantB
                  (sample_world None (Ok (completion "Hi!")))
                  (mkRequest "GET" (Throw (mkError "SyntaxError" "Unexpected end of JSON input"))))
               _ H).
Defined.

Lemma success_flag_follows_the_gateway_witness :
  let w := sample_world (Some "k") (Ok (completion "Hi!")) in
  let req := post (VObj [("messages", VArr [user_message "hello"])]) in
  req_method req <> "OPTIONS" /\
  body_prop (fst (handler VariantB w req)) "success" = VBool true /\
  exists rq resp, snd (handler VariantB w req) = [rq] /\ fetch w rq = Ok resp /\
                  ok resp = true.
Proof.
  split; [discriminate|].
  destruct (success_flag_follows_the_gateway VariantB
              (sample_world (Some "k") (Ok (completion "Hi!")))
              (post (VObj [("messages", VArr [user_message "hello"])]))
              ltac:(discriminate)) as [H1 H2].
  split; [exact H1 | exact (H2 eq_refl)].
Defined.

Lemma completion_or_fallback_witness :
  let resp := mkGatewayResponse 200 (Ok "{}") (Ok (VObj [])) in
  let w := sample_world (Some "k") (Ok resp) in
  let req := post (VObj [("messages", VArr [user_message "hello"])]) in
  let rq := gateway_request "k"
              (B.payload [system_message B.systemPrompt; user_message "hello"]) in
  VariantB <> VariantC /\ In rq (snd (handler VariantB w req)) /\
  fetch w rq = Ok resp /\ ok resp = true /\ truthy (content_AB (VObj [])) = false /\
  body_prop (fst (handler VariantB w req)) "response" =
    VStr "I'm here to help with XMRT-DAO tasks.".
Proof.
  split; [discriminate|]. split; [left; reflexivity|]. split; [reflexivity|].
  split; [reflexivity|]. split; [reflexivity|].
  refine (proj2 (proj2 (completion_or_fallback VariantB
            (sample_world (Some "k") (Ok (mkGatewayResponse 200 (Ok "{}") (Ok (VObj [])))))
            (post (VObj [("messages", VArr [user_message "hello"])]))
            (gateway_request "k"
               (B.payload [system_message B.systemPrompt; user_message "hello"]))
            (mkGatewayResponse 200 (Ok "{}") (Ok (VObj []))) (VObj [])
            ltac:(discriminate) _ eq_refl eq_refl eq_refl eq_refl)) eq_refl).
  left. reflexivity.
Defined.

Lemma variant_C_completion_witness :
  let resp := mkGatewayResponse 200 (Ok "{}") (Ok (VObj [])) in
  let w := sample_world (Some "k") (Ok resp) in
  let req := post (VObj [("messages", VArr [user_message "hello"])]) in
  let rq := gateway_request "k"
              (C.payload (VStr "openai/gpt-5-mini") (VArr [user_message "hello"])
                         (VNum "0.9") (VNum "8000")) in
  In rq (snd (handler VariantC w req)) /\ fetch w rq = Ok resp /\ ok resp = true /\
  is_nullish (OptGet (VObj []) "choices") = true /\
  status (fst (handler VariantC w req)) = 500%Z /\
  body_prop (fst (handler VariantC w req)) "success" = VBool false.
Proof.
  split; [left; reflexivity|]. split; [reflexivity|]. split; [reflexivity|].
  split; [reflexivity|].
  refine (variant_C_completion
            (sample_world (Some "k") (Ok (mkGatewayResponse 200 (Ok "{}") (Ok (VObj [])))))
            (post (VObj [("messages", VArr [user_message "hello"])]))
            (gateway_request "k"
               (C.payload (VStr "openai/gpt-5-mini") (VArr [user_message "hello"])
                          (VNum "0.9") (VNum "8000")))
            (mkGatewayResponse 200 (Ok "{}") (Ok (VObj []))) (VObj [])
            _ eq_refl eq_refl eq_refl eq_refl).
  left. reflexivity.
Defined.

Lemma variant_C_forwards_parameters_witness :
  let w := sample_world (Some "k") (Ok (completion "Hi!")) in
  let b := VObj [("messages", VArr twelve_messages); ("temperature", VNull)] in
  let rq := gateway_request "k"
              (C.payload (VStr "openai/gpt-5-mini") (VArr twelve_messages)
                         VNull (VNum "8000")) in
  In rq (snd (handler VariantC w (post b))) /\
  exists b' l,
    req_json (post b) = Ok b' /\ OptGet b' "messages" = VArr l /\
    OptGet (gw_body rq) "messages" = VArr l /\
    defaulted (OptGet (gw_body rq) "model") (OptGet b' "model") (VStr "openai/gpt-5-mini") /\
    defaulted (OptGet (gw_body rq) "temperature") (OptGet b' "temperature") (VNum "0.9") /\
    defaulted (OptGet (gw_body rq) "max_tokens") (OptGet b' "max_tokens") (VNum "8000").
Proof.
  assert (Hin : In (gateway_request "k"
                      (C.payload (VStr "openai/gpt-5-mini") (VArr twelve_messages)
                                 VNull (VNum "8000")))
                   (snd (handler VariantC (sample_world (Some "k") (Ok (completion "Hi!")))
                           (post (VObj [("messages", VArr twelve_messages);
                                        ("temperature", VNull)]))))).
  { left. reflexivity. }
  split; [exact Hin|].
  exact (variant_C_forwards_parameters _ _ _ Hin).
Defined.

Lemma variant_C_surfaces_upstream_error_witness :
  let resp := mkGatewayResponse 400 (Ok "")
                (Ok (VObj [("error", VObj [("message", VStr "model not found")])])) in
  let w := sample_world (Some "k") (Ok resp) in
  let req := post (VObj [("messages", VArr [user_message "hello"])]) in
  let rq := gateway_request "k"
              (C.payload (VStr "openai/gpt-5-mini") (VArr [user_message "hello"])
                         (VNum "0.9") (VNum "8000")) in
  In rq (snd (handler VariantC w req)) /\ fetch w rq = Ok resp /\ ok resp = false /\
  gw_status resp <> 429%Z /\ gw_status resp <> 402%Z /\
  status (fst (handler VariantC w req)) = 500%Z /\
  error_text (fst (handler VariantC w req)) = Some "model not found".
Proof.
  split; [left; reflexivity|]. split; [reflexivity|]. split; [reflexivity|].
  split; [discriminate|]. split; [discriminate|].
  destruct (variant_C_surfaces_upstream_error
              (sample_world (Some "k")
                 (Ok (mkGatewayResponse 400 (Ok "")
                        (Ok (VObj [("error", VObj [("message", VStr "model not found")])])))))
              (post (VObj [("messages", VArr [user_message "hello"])]))
              (gateway_request "k"
                 (C.payload (VStr "openai/gpt-5-mini") (VArr [user_message "hello"])
                            (VNum "0.9") (VNum "8000")))
              (mkGatewayResponse 400 (Ok "")
                 (Ok (VObj [("error", VObj [("message", VStr "model not found")])])))
              (or_introl eq_refl) eq_refl eq_refl ltac:(discriminate) ltac:(discriminate))
    as [H1 [_ [_ H4]]].
  split; [exact H1|].
  destruct (H4 _ eq_refl eq_refl) as [H5 _].
  apply (H5 "model not found"); [reflexivity | discriminate].
Defined.

Lemma variants_AB_report_gateway_status_witness :
  let w := sample_world (Some "k") (Ok (refusal 503)) in
  let w' := sample_world (Some "k") (Ok (unreadable 503)) in
  let req := post (VObj [("messages", VArr [user_message "hello"])]) in
  let rq := gateway_request "k"
              (A.payload [system_message
                            "You are Eliza, AI assistant for XMRT-DAO. Be conversational and helpful.";
                          user_message "hello"]) in
  let rq' := gateway_request "k"
               (B.payload [system_message "You are Eliza, an AI assistant for XMRT-DAO.";
                           user_message "hello"]) in
  (VariantA <> VariantC /\ In rq (snd (handler VariantA w req)) /\
   fetch w rq = Ok (refusal 503) /\ ok (refusal 503) = false /\
   gw_status (refusal 503) <> 429%Z /\ gw_status (refusal 503) <> 402%Z /\
   gw_text (refusal 503) = Ok "upstream says no" /\
   status (fst (handler VariantA w req)) = 500%Z /\
   error_text (fst (handler VariantA w req)) =
     Some "Lovable AI Gateway error: 503 - upstream says no" /\
   OptGet (body_prop (fst (handler VariantA w req)) "error") "code" = VNum "400") /\
  (VariantB <> VariantC /\ In rq' (snd (handler VariantB w' req)) /\
   fetch w' rq' = Ok (unreadable 503) /\
   gw_text (unreadable 503) = Throw body_read_error /\
   error_text (fst (handler VariantB w' req)) =
     Some "error reading a body from connection").
Proof.
  split.
  - split; [discriminate|]. split; [left; reflexivity|]. split; [reflexivity|].
    split; [reflexivity|]. split; [discriminate|]. split; [discriminate|].
    split; [reflexivity|].
    destruct (variants_AB_report_gateway_status VariantA
                (sample_world (Some "k") (Ok (refusal 503)))
                (post (VObj [("messages", VArr [user_message "hello"])]))
                (gateway_request "k"
                   (A.payload [system_message
                                 "You are Eliza, AI assistant for XMRT-DAO. Be conversational and helpful.";
                               user_message "hello"]))
                (refusal 503) ltac:(discriminate) (or_introl eq_refl) eq_refl eq_refl
                ltac:(discriminate) ltac:(discriminate)) as [H1 [_ [H3 [_ [_ [H5 _]]]]]].
    split; [exact H1|]. split; [exact (H3 _ eq_refl) | exact H5].
  - split; [discriminate|]. split; [left; reflexivity|]. split; [reflexivity|].
    split; [reflexivity|].
    exact (proj1 (proj2 (proj2 (proj2 (variants_AB_report_gateway_status VariantB
                (sample_world (Some "k") (Ok (unreadable 503)))
                (post (VObj [("messages", VArr [user_message "hello"])]))
                (gateway_request "k"
                   (B.payload [system_message "You are Eliza, an AI assistant for XMRT-DAO.";
                               user_message "hello"]))
                (unreadable 503) ltac:(discriminate) (or_introl eq_refl) eq_refl eq_refl
                ltac:(discriminate) ltac:(discriminate)))))
             body_read_error eq_refl).
Defined.

Lemma variant_B_forwards_role_and_content_witness :
  let w := sample_world (Some "k") (Ok (completion "Hi!")) in
  let old := VObj [("role", VStr "user"); ("content", VStr "dropped")] in
  let m1 := VObj [("role", VStr "user"); ("content", VStr "hello"); ("id", VNum "7")] in
  let m2 := VObj [("role", VStr "tool"); ("content", VNull)] in
  let m3 := VObj [("role", VStr "assistant")] in
  let rq := gateway_request "k"
              (B.payload [system_message B.systemPrompt;
                          user_message "hello";
                          VObj [("role", VStr "tool"); ("content", VStr "null")];
                          VObj [("role", VStr "assistant"); ("content", VUndefined)]]) in
  In rq (snd (handler VariantB w (post (VObj [("messages", VArr [old; m1; m2; m3])])))) /\
  JSON_stringify w VNull = "null" /\
  exists b l sent,
    req_json (post (VObj [("messages", VArr [old; m1; m2; m3])])) = Ok b /\
    OptGet b "messages" = VArr l /\
    gw_body rq = B.payload (system_message B.systemPrompt :: sent) /\
    length sent <= 3 /\ Forall role_and_content sent /\
    Forall2 (forwarded_by_B w) (slice_last 3 l) sent.
Proof.
  split; [left; reflexivity|]. split; [reflexivity|].
  exact (variant_B_forwards_role_and_content
           (sample_world (Some "k") (Ok (completion "Hi!")))
           (post (VObj [("messages",
                         VArr [VObj [("role", VStr "user"); ("content", VStr "dropped")];
                               VObj [("role", VStr "user"); ("content", VStr "hello");
                                     ("id", VNum "7")];
                               VObj [("role", VStr "tool"); ("content", VNull)];
                               VObj [("role", VStr "assistant")]])]))
           _ (or_introl eq_refl)).
Defined.

Lemma variants_AB_do_not_validate_messages_witness :
  let w := sample_world (Some "k") (Ok (completion "Hi!")) in
  (let req := post (VObj [("userContext", VNull)]) in
   not_sliceable (OptGet (VObj [("userContext", VNull)]) "messages") = true /\
   snd (handler VariantB w req) = [] /\ status (fst (handler VariantB w req)) = 500%Z) /\
  (let req := post (VObj [("messages", VStr "hi")]) in
   let rq := gateway_request "k"
               (A.payload [system_message
                             "You are Eliza, AI assistant for XMRT-DAO. Be conversational and helpful.";
                           VStr "h"; VStr "i"]) in
   In rq (snd (handler VariantA w req)) /\
   exists prompt,
     gw_body rq =
     A.payload (system_message prompt ::
                map (fun c => VStr (String c EmptyString)) (slice_last 10 (chars "hi")))).
Proof.
  destruct variants_AB_do_not_validate_messages as [H1 H2].
  split.
  - split; [reflexivity|].
    apply (H1 VariantB (sample_world (Some "k") (Ok (completion "Hi!")))
              (post (VObj [("userContext", VNull)])) (VObj [("userContext", VNull)]));
      [discriminate | discriminate | reflexivity | left; reflexivity].
  - split; [left; reflexivity|].
    apply (H2 (sample_world (Some "k") (Ok (completion "Hi!")))
              (post (VObj [("messages", VStr "hi")])) (VObj [("messages", VStr "hi")]) "hi");
      [reflexivity | reflexivity | left; reflexivity].
Defined.

End ProxyExtraExamples.

(** ** Variant A: the summary line of the system prompt *)

Section ProxySummary.
Import Js Proxy.

Lemma append_empty_r (s : string) : s +:+ "" = s.
Proof.
  induction s as [|c s IH]; [reflexivity|].
  change (String c (s +:+ "") = String c s). now rewrite IH.
Qed.

(** [substring(0, n)] is the first [n] code units, or all of them. *)
Lemma chars_substring0 (n : nat) (s : string) :
  chars (substring0 n s) = take n (chars s).
Proof.
  unfold substring0, chars. revert s. induction n as [|n IH]; intros s.
  - destruct s; reflexivity.
  - destruct s as [|c s]; simpl; [reflexivity|]. now rewrite IH.
Qed.

(** The system prompt when the summaries are an array with a last element:
    the summary line is made of the last summary, and what follows it is
    what follows the opening line when there is no history at all. *)
Lemma systemPrompt_latest (w : World) (history miningStats userContext : value)
    (l : list value) (latest : value) :
  OptGet history "summaries" = VArr l -> last l = Some latest ->
  match Get latest "summaryText" with
  | Ok (VStr t) =>
      forall prompt, A.systemPrompt w history miningStats userContext = Ok prompt ->
        exists rest,
          A.systemPrompt w VUndefined miningStats userContext = Ok (opening_A +:+ rest) /\
          prompt = opening_A +:+ nl +:+ context_label +:+ substring0 150 t +:+ rest
  | _ => exists e, A.systemPrompt w history miningStats userContext = Throw e
  end.
Proof.
  intros Hs Hl. unfold A.systemPrompt, A.latest_summary. rewrite Hs, Hl.
  destruct (Get latest "summaryText") as [summaryText|e]; simpl; [|eauto].
  destruct summaryText as [| | | |t| |]; simpl; eauto.
  intros prompt.
  destruct (truthy (OptGet miningStats "isOnline")); simpl.
  - destruct (Get miningStats "hashRate") as [h|e]; simpl; [|discriminate].
    destruct (Get miningStats "validShares") as [vs|e]; simpl; [|discriminate].
    destruct (truthy (OptGet userContext "isFounder")); intros [= <-];
      fold opening_A context_label; rewrite !append_assoc;
      eexists; split; reflexivity.
  - destruct (truthy (OptGet userContext "isFounder")); intros [= <-];
      fold opening_A context_label; rewrite ?append_assoc.
    + eexists; split; reflexivity.
    + exists "". now rewrite !append_empty_r.
Qed.

(** X28. Of the summaries of the conversation history Variant A reads the
    last one only.  When its [summaryText] is a string, the system prompt
    that goes out is the opening line, then the context line with the first
    150 code units of that text (all of it when it is shorter), then what
    the prompt carries after the opening line when there is no history: no
    other summary and no more of the text enters the request, whose other
    messages are the last ten of the body.  When the [summaryText] is not a
    string, or the last summary is [null], the proxy answers 500 and sends
    nothing. *)
Theorem variant_A_uses_the_latest_summary (w : World) (req : Request) (b : value)
    (l : list value) (latest : value) :
  req_method req <> "OPTIONS" -> req_json req = Ok b ->
  OptGet (OptGet b "conversationHistory") "summaries" = VArr l ->
  last l = Some latest ->
  (forall t rq,
     OptGet latest "summaryText" = VStr t ->
     In rq (snd (handler VariantA w req)) ->
     exists context rest msgs,
       chars context = take 150 (chars t) /\
       A.systemPrompt w VUndefined (OptGet b "miningStats") (OptGet b "userContext") =
         Ok (opening_A +:+ rest) /\
       (recent <- slice_neg 10 (OptGet b "messages") ;; spread recent) = Ok msgs /\
       gw_body rq =
       A.payload (system_message (opening_A +:+ nl +:+ context_label +:+
                                  context +:+ rest) :: msgs)) /\
  (is_string (OptGet latest "summaryText") = false ->
   snd (handler VariantA w req) = [] /\ status (fst (handler VariantA w req)) = 500%Z).
Proof.
  intros Hm Hb Hs Hl.
  pose proof (fun ms uc => systemPrompt_latest w (OptGet b "conversationHistory") ms uc
                             l latest Hs Hl) as Hprompt.
  split.
  - intros t rq Ht Hin.
    destruct (sent_request_details VariantA w req rq Hin)
      as [b' [key [payload [_ [Hb' [_ [_ [_ [[prompt [msgs [Hp [Hg ->]]]] [-> _]]]]]]]]]].
    rewrite Hb in Hb'. injection Hb' as <-.
    specialize (Hprompt (OptGet b "miningStats") (OptGet b "userContext")).
    assert (HG : Get latest "summaryText" = Ok (VStr t)).
    { unfold OptGet in Ht. destruct (Get latest "summaryText"); congruence. }
    rewrite HG in Hprompt. destruct (Hprompt prompt Hp) as [rest [Hrest ->]].
    unfold A.geminiMessages, bind in Hg |- *.
    destruct (slice_neg 10 (OptGet b "messages")) as [recent|e]; [|discriminate].
    destruct (spread recent) as [elems|e]; [|discriminate].
    injection Hg as <-.
    exists (substring0 150 t), rest, elems.
    split; [apply chars_substring0|]. now repeat split.
  - intros Hno.
    assert (Hnone : snd (handler VariantA w req) = []).
    { destruct (snd (handler VariantA w req)) as [|rq rest] eqn:E; [reflexivity|].
      destruct (sent_request_details VariantA w req rq)
        as [b' [key [payload [_ [Hb' [_ [_ [_ [[prompt [msgs [Hp _]]] _]]]]]]]]];
        [rewrite E; now left|].
      rewrite Hb in Hb'. injection Hb' as <-.
      specialize (Hprompt (OptGet b "miningStats") (OptGet b "userContext")).
      unfold OptGet in Hno.
      destruct (Get latest "summaryText") as [[| | | |t| |]|e];
        try discriminate; destruct Hprompt as [e' He']; congruence. }
    split; [exact Hnone|].
    apply String.eqb_neq in Hm. rewrite handler_unfold, Hm in Hnone |- *.
    destruct (try_block_cases VariantA w req) as [[e ->] | [rq Hrq]]; [reflexivity|].
    rewrite Hrq in Hnone.
    pose proof (after_fetch_sent w rq (answer_of VariantA) (answer_of_sent VariantA)) as Hs'.
    destruct (after_fetch w rq (answer_of VariantA)) as [[r|e] sent]; simpl in *; congruence.
Qed.

End ProxySummary.

Section ProxySummaryExamples.
Import Js Proxy.

Example long_summary_is_cut :
  String.length long_summary = 177 /\
  substring0 150 long_summary =
  "The user asked how mining rewards are paid out, then whether the treasury is audited, then how to join the DAO as a validator, and at last how proposa".
Proof. split; reflexivity. Qed.

Lemma variant_A_uses_the_latest_summary_witness :
  let w := sample_world (Some "k") (Ok (completion "Hi!")) in
  let summaries := [VObj [("summaryText", VStr "an older summary")];
                    VObj [("summaryText", VStr long_summary)]] in
  let b := VObj [("messages", VArr [user_message "hello"]);
                 ("conversationHistory", VObj [("summaries", VArr summaries)]);
                 ("userContext", VObj [("isFounder", VBool true)])] in
  let bad := VObj [("messages", VArr [user_message "hello"]);
                   ("conversationHistory", VObj [("summaries", VArr [VObj []])])] in
  let rq := gateway_request "k"
              (A.payload [system_message (opening_A +:+ nl +:+ context_label +:+
                                          substring0 150 long_summary +:+
                                          nl +:+ "👤 User: Founder");
                          user_message "hello"]) in
  (In rq (snd (handler VariantA w (post b))) /\
   exists context rest msgs,
     chars context = take 150 (chars long_summary) /\
     A.systemPrompt w VUndefined (OptGet b "miningStats") (OptGet b "userContext") =
       Ok (opening_A +:+ rest) /\
     (recent <- slice_neg 10 (OptGet b "messages") ;; spread recent) = Ok msgs /\
     gw_body rq =
     A.payload (system_message (opening_A +:+ nl +:+ context_label +:+
                                context +:+ rest) :: msgs)) /\
  (is_string (OptGet (VObj []) "summaryText") = false /\
   snd (handler VariantA w (post bad)) = [] /\
   status (fst (handler VariantA w (post bad))) = 500%Z).
Proof.
  split.
  - split; [left; reflexivity|].
    refine (proj1 (variant_A_uses_the_latest_summary
              (sample_world (Some "k") (Ok (completion "Hi!")))
              (post (VObj [("messages", VArr [user_message "hello"]);
                           ("conversationHistory",
                            VObj [("summaries",
                                   VArr [VObj [("summaryText", VStr "an older summary")];
                                         VObj [("summaryText", VStr long_summary)]])]);
                           ("userContext", VObj [("isFounder", VBool true)])]))
              _ _ _ ltac:(discriminate) eq_refl eq_refl eq_refl)
              long_summary _ eq_refl _).
    left. reflexivity.
  - split; [reflexivity|].
    refine (proj2 (variant_A_uses_the_latest_summary
              (sample_world (Some "k") (Ok (completion "Hi!")))
              (post (VObj [("messages", VArr [user_message "hello"]);
                           ("conversationHistory",
                            VObj [("summaries", VArr [VObj []])])]))
              _ _ _ ltac:(discriminate) eq_refl eq_refl eq_refl) eq_refl).
Defined.

End ProxySummaryExamples.
